(** * katomaran-taskflow: the task state and persistence engine

    A shallow embedding of the class [TaskService] (the module imported as
    '@/services/taskService'; its text follows the [TodoApp] component in
    src/pages/TodoApp.tsx), of the [useTasks] hook ('@/hooks/useTasks') and
    of the types of '@/types/task', together with the parts of the
    JavaScript run time they rely on (strings, [Date], [JSON],
    [localStorage], [Array.prototype.sort]).  Around this core it also
    embeds the filter bar ('@/components/tasks/TaskFilters'), the search
    box of the task list, the task form (TaskForm, in
    components/tasks/TaskCard.tsx) with its wiring in [TodoApp], and the
    storage side of the auth service ('@/services/authService').

    Conventions.
    - A JavaScript string is a [string]; an [ascii] stands for a code unit
      in the range 0..255.
    - A [Date] is its time value: milliseconds since the epoch, or NaN
      ([InvalidDate]).
    - A rejected promise / thrown exception is the [Err] branch of [Result].
    - The service is stateless between calls: every method re-reads
      [localStorage], so the canonical collection is the stored text. *)

From Stdlib Require Import ZArith List String Ascii Bool Lia.
From Stdlib Require Import Permutation Sorted DecimalString.
Import ListNotations.

Local Open Scope Z_scope.

(* ================================================================== *)
(** ** JavaScript built-ins used by the code *)

Module JS.

(** *** Strings *)

Definition code (c : ascii) : Z := Z.of_N (N_of_ascii c).

(** WhiteSpace and LineTerminator code units below 256:
    TAB, LF, VT, FF, CR, SP and NBSP. *)
Definition isWhiteSpace (c : ascii) : bool :=
  let n := code c in
  (n =? 9) || (n =? 10) || (n =? 11) || (n =? 12) || (n =? 13)
  || (n =? 32) || (n =? 160).

Fixpoint trimStart (s : string) : string :=
  match s with
  | EmptyString => EmptyString
  | String c r => if isWhiteSpace c then trimStart r else s
  end.

Fixpoint trimEnd (s : string) : string :=
  match s with
  | EmptyString => EmptyString
  | String c r =>
      match trimEnd r with
      | EmptyString => if isWhiteSpace c then EmptyString else String c EmptyString
      | r' => String c r'
      end
  end.

(** [String.prototype.trim]. *)
Definition trim (s : string) : string := trimEnd (trimStart s).

(** Lower-casing of one code unit: A-Z, and the Latin-1 capitals
    U+00C0..U+00DE except the multiplication sign U+00D7. *)
Definition lowerChar (c : ascii) : ascii :=
  let n := code c in
  if ((65 <=? n) && (n <=? 90))
     || ((192 <=? n) && (n <=? 222) && negb (n =? 215))
  then ascii_of_N (Z.to_N (n + 32)) else c.

(** [String.prototype.toLowerCase]. *)
Fixpoint toLowerCase (s : string) : string :=
  match s with
  | EmptyString => EmptyString
  | String c r => String (lowerChar c) (toLowerCase r)
  end.

(** [String.prototype.includes]: [sub] occurs in [s]. *)
Fixpoint includes (s sub : string) : bool :=
  prefix sub s
  || match s with
     | EmptyString => false
     | String _ r => includes r sub
     end.

(** The [<] operator on two strings: lexicographic on code units. *)
Fixpoint string_lt (a b : string) : bool :=
  match a, b with
  | _, EmptyString => false
  | EmptyString, String _ _ => true
  | String x a', String y b' =>
      (code x <? code y) || ((code x =? code y) && string_lt a' b')
  end.

(** Truthiness of a string: the empty string is falsy. *)
Definition truthy (s : string) : bool :=
  match s with EmptyString => false | _ => true end.

(** Decimal rendering of an integer ([Number.prototype.toString]). *)
Definition decimal (z : Z) : string := NilZero.string_of_int (Z.to_int z).

(** *** Dates *)

Inductive Date : Type :=
| TimeValue (ms : Z)      (* a finite time value *)
| InvalidDate.            (* time value NaN *)

Definition msPerDay : Z := 86400000.
Definition maxTime : Z := 8640000000000000.

Definition TimeClip (t : Z) : Date :=
  if Z.abs t <=? maxTime then TimeValue t else InvalidDate.

(** [a < b] on two dates: the time values are compared as numbers, and
    every comparison with NaN is false. *)
Definition date_lt (a b : Date) : bool :=
  match a, b with
  | TimeValue x, TimeValue y => x <? y
  | _, _ => false
  end.

(** Proleptic Gregorian calendar: day number (days since 1970-01-01) to
    (year, month 1..12, day of month), and back. *)
Definition civil_from_days (z : Z) : Z * Z * Z :=
  let z' := z + 719468 in
  let era := z' / 146097 in
  let doe := z' mod 146097 in
  let yoe := (doe - doe / 1460 + doe / 36524 - doe / 146096) / 365 in
  let doy := doe - (365 * yoe + yoe / 4 - yoe / 100) in
  let mp := (5 * doy + 2) / 153 in
  let d := doy - (153 * mp + 2) / 5 + 1 in
  let m := if mp <? 10 then mp + 3 else mp - 9 in
  (if m <=? 2 then yoe + era * 400 + 1 else yoe + era * 400, m, d).

Definition days_from_civil (y m d : Z) : Z :=
  let y' := if m <=? 2 then y - 1 else y in
  let era := y' / 400 in
  let yoe := y' mod 400 in
  let mp := if 2 <? m then m - 3 else m + 9 in
  let doy := (153 * mp + 2) / 5 + d - 1 in
  let doe := yoe * 365 + yoe / 4 - yoe / 100 + doy in
  era * 146097 + doe - 719468.

Definition MakeTime (h mi s ms : Z) : Z :=
  h * 3600000 + mi * 60000 + s * 1000 + ms.

Definition MakeDate (day time : Z) : Z := day * msPerDay + time.

(** Fixed-width decimal fields. *)
Definition digit (n : Z) : ascii := ascii_of_N (Z.to_N (48 + n)).

Fixpoint digits (width : nat) (v : Z) : list ascii :=
  match width with
  | O => []
  | S w => digits w (v / 10) ++ [digit (v mod 10)]
  end.

Definition digit_val (c : ascii) : option Z :=
  let n := code c in
  if (48 <=? n) && (n <=? 57) then Some (n - 48) else None.

(** Reads exactly [width] decimal digits; [acc] is the value so far. *)
Fixpoint read_num (width : nat) (acc : Z) (cs : list ascii)
  : option (Z * list ascii) :=
  match width with
  | O => Some (acc, cs)
  | S w =>
      match cs with
      | [] => None
      | c :: r =>
          match digit_val c with
          | Some d => read_num w (10 * acc + d) r
          | None => None
          end
      end
  end.

Definition expect (c : ascii) (cs : list ascii) : option (list ascii) :=
  match cs with
  | x :: r => if Ascii.eqb x c then Some r else None
  | [] => None
  end.

Definition year_chars (y : Z) : list ascii :=
  if (0 <=? y) && (y <=? 9999) then digits 4 y
  else (if y <? 0 then "-"%char else "+"%char) :: digits 6 (Z.abs y).

(** [Date.prototype.toISOString] on a finite time value:
    [YYYY-MM-DDTHH:mm:ss.sssZ], the year expanded to a sign and six
    digits outside 0..9999. *)
Definition toISOString_chars (t : Z) : list ascii :=
  let '(y, m, d) := civil_from_days (t / msPerDay) in
  let w := t mod msPerDay in
  year_chars y ++ "-"%char :: digits 2 m ++ "-"%char :: digits 2 d
  ++ "T"%char :: digits 2 (w / 3600000)
  ++ ":"%char :: digits 2 ((w / 60000) mod 60)
  ++ ":"%char :: digits 2 ((w / 1000) mod 60)
  ++ "."%char :: digits 3 (w mod 1000) ++ ["Z"%char].

Definition toISOString (t : Z) : string :=
  string_of_list_ascii (toISOString_chars t).

(** [Date.prototype.toJSON]: the ISO string, or [null] ([None]) for an
    invalid date. *)
Definition toJSON (d : Date) : option string :=
  match d with
  | TimeValue t => Some (toISOString t)
  | InvalidDate => None
  end.

Definition read_year (cs : list ascii) : option (Z * list ascii) :=
  match cs with
  | c :: r =>
      if Ascii.eqb c "+"%char then read_num 6 0 r
      else if Ascii.eqb c "-"%char then
        match read_num 6 0 r with
        | Some (y, r') => if y =? 0 then None else Some (- y, r')
        | None => None
        end
      else read_num 4 0 cs
  | [] => None
  end.

Definition read_time (cs : list ascii) : option Z :=
  match expect "T"%char cs with
  | None => None
  | Some cs =>
  match read_num 2 0 cs with
  | None => None
  | Some (h, cs) =>
  match expect ":"%char cs with
  | None => None
  | Some cs =>
  match read_num 2 0 cs with
  | None => None
  | Some (mi, cs) =>
  match expect ":"%char cs with
  | None => None
  | Some cs =>
  match read_num 2 0 cs with
  | None => None
  | Some (s, cs) =>
  match expect "."%char cs with
  | None => None
  | Some cs =>
  match read_num 3 0 cs with
  | None => None
  | Some (ms, cs) =>
  match cs with
  | [z] =>
      if Ascii.eqb z "Z"%char
         && (mi <=? 59) && (s <=? 59)
         && ((h <=? 23) || ((h =? 24) && (mi =? 0) && (s =? 0) && (ms =? 0)))
      then Some (MakeTime h mi s ms) else None
  | _ => None
  end end end end end end end end end.

(** [Date.parse] on the date-time string format: the date-only form
    [YYYY-MM-DD] and the complete form written by [toISOString], both read
    as UTC.  Every other text is modelled as unparsable: the shorter forms
    of the format (year or year and month only, a time without seconds or
    milliseconds), a time with an offset or without zone, and the
    implementation-defined texts that engines accept besides.  The
    service writes dates with [toISOString] only. *)
Definition parse_chars (cs : list ascii) : option Z :=
  match read_year cs with
  | None => None
  | Some (y, cs) =>
  match expect "-"%char cs with
  | None => None
  | Some cs =>
  match read_num 2 0 cs with
  | None => None
  | Some (m, cs) =>
  match expect "-"%char cs with
  | None => None
  | Some cs =>
  match read_num 2 0 cs with
  | None => None
  | Some (d, cs) =>
      if (1 <=? m) && (m <=? 12) && (1 <=? d) && (d <=? 31) then
        match cs with
        | [] => Some (MakeDate (days_from_civil y m d) 0)
        | _ =>
            match read_time cs with
            | Some w => Some (MakeDate (days_from_civil y m d) w)
            | None => None
            end
        end
      else None
  end end end end end.

(** [new Date(text)]. *)
Definition Date_of_string (s : string) : Date :=
  match parse_chars (list_ascii_of_string s) with
  | Some t => TimeClip t
  | None => InvalidDate
  end.

(** [Array.prototype.sort] with a comparator.  The sort is stable; it is
    modelled as the stable insertion sort, which for a consistent
    comparator yields the one stable sorted arrangement. *)
Section Sort.
Context {A : Type} (comparefn : A -> A -> Z).

Fixpoint insert (x : A) (l : list A) : list A :=
  match l with
  | [] => [x]
  | y :: r => if comparefn x y <=? 0 then x :: l else y :: insert x r
  end.

Fixpoint sort (l : list A) : list A :=
  match l with
  | [] => []
  | x :: r => insert x (sort r)
  end.
End Sort.

End JS.


(* ================================================================== *)
(** ** types/task.ts *)

Module Types.
Import JS.

Inductive TaskStatus : Type := OPEN | COMPLETE.

Record Task : Type := mkTask {
  id : string;
  title : string;
  description : option string;
  dueDate : option Date;
  status : TaskStatus;
  createdAt : Date;
  updatedAt : Date;
  userId : option string
}.

Record CreateTaskRequest : Type := mkCreate {
  req_title : string;
  req_description : option string;
  req_dueDate : option Date
}.

(** An optional member of an object literal that is spread over another
    object: the key may be missing ([Omitted]), or present with a value or
    with [undefined] ([Given None]); a present key always overrides. *)
Inductive Field (A : Type) : Type :=
| Omitted
| Given (v : option A).
Arguments Omitted {A}.
Arguments Given {A} v.

(** [title] and [status] are required members of [Task]: when their key is
    present in a request it carries a value. *)
Record UpdateTaskRequest : Type := mkUpdate {
  upd_id : string;
  upd_title : option string;
  upd_description : Field string;
  upd_dueDate : Field Date;
  upd_status : option TaskStatus
}.

Inductive SortBy : Type := ByDueDate | ByCreatedAt | ByTitle.
Inductive SortOrder : Type := Asc | Desc.

Record TaskFilters : Type := mkFilters {
  flt_status : option TaskStatus;
  flt_search : option string;
  flt_sortBy : option SortBy;
  flt_sortOrder : option SortOrder
}.

Definition noFilters : TaskFilters := mkFilters None None None None.

Definition status_eqb (a b : TaskStatus) : bool :=
  match a, b with
  | OPEN, OPEN | COMPLETE, COMPLETE => true
  | _, _ => false
  end.

End Types.

(* ================================================================== *)
(** ** The persistent store: [localStorage] and [JSON] *)

Module Store.
Import JS Types.

Inductive Exn : Type :=
| Error (message : string)      (* [new Error(message)] *)
| SyntaxError                   (* thrown by [JSON.parse] *)
| TypeError                     (* a member access on [undefined] *)
| QuotaExceededError.           (* thrown by [localStorage.setItem] *)

Inductive Result (A : Type) : Type :=
| Ok (a : A)
| Err (e : Exn).
Arguments Ok {A} a.
Arguments Err {A} e.

(** [err.message] *)
Definition message (e : Exn) : string :=
  match e with
  | Error m => m
  | SyntaxError => "Unexpected token in JSON"
  | TypeError => "Cannot read properties of undefined"
  | QuotaExceededError => "The quota has been exceeded."
  end.

(** A date-valued member of a stored task object: missing, [null], or a
    string. *)
Inductive JField : Type :=
| Absent
| Null
| Text (s : string).

(** A task object as it is written in the stored JSON text. *)
Record TaskJSON : Type := mkJSON {
  j_id : string;
  j_title : string;
  j_description : option string;
  j_dueDate : JField;
  j_status : TaskStatus;
  j_createdAt : JField;
  j_updatedAt : JField;
  j_userId : option string
}.

(** The text stored under a key, by what [JSON.parse] makes of it: the
    empty string, a non-empty text on which [JSON.parse] (or the [map]
    over its result) throws, or the JSON text of an array of task
    objects. *)
Inductive StoredText : Type :=
| EmptyText
| Malformed
| TaskArrayText (items : list TaskJSON).

(** [localStorage]: the two entries the service uses, and which texts the
    store has room for ([setItem] throws on the others). *)
Record LocalStorage : Type := mkStorage {
  todo_tasks : option StoredText;     (* key 'todo_tasks' *)
  todo_user_id : option string;       (* key 'todo_user_id' *)
  accepts : StoredText -> bool
}.

(** Code that reads and writes the store and may throw. *)
Definition M (A : Type) : Type := LocalStorage -> Result A * LocalStorage.

Definition ret {A} (a : A) : M A := fun ls => (Ok a, ls).

Definition throw {A} (e : Exn) : M A := fun ls => (Err e, ls).

Definition bind {A B} (m : M A) (k : A -> M B) : M B :=
  fun ls =>
    match m ls with
    | (Ok a, ls') => k a ls'
    | (Err e, ls') => (Err e, ls')
    end.

(** [try { m } catch (error) { handler error }] *)
Definition try_catch {A} (m : M A) (handler : Exn -> M A) : M A :=
  fun ls =>
    match m ls with
    | (Ok a, ls') => (Ok a, ls')
    | (Err e, ls') => handler e ls'
    end.

Definition lift {A} (r : Result A) : M A := fun ls => (r, ls).

Declare Scope store_scope.
Delimit Scope store_scope with store.
Notation "x <- m ;; k" := (bind m (fun x => k))
  (at level 61, m at next level, right associativity) : store_scope.
Notation "m ;;; k" := (bind m (fun _ => k))
  (at level 61, right associativity) : store_scope.

Definition getItem_tasks : M (option StoredText) :=
  fun ls => (Ok (todo_tasks ls), ls).

Definition getItem_user : M (option string) :=
  fun ls => (Ok (todo_user_id ls), ls).

(** [localStorage.setItem('todo_tasks', text)]: all or nothing. *)
Definition setItem_tasks (text : StoredText) : M unit :=
  fun ls =>
    if accepts ls text
    then (Ok tt, mkStorage (Some text) (todo_user_id ls) (accepts ls))
    else (Err QuotaExceededError, ls).

(** [!stored] on a stored text. *)
Definition is_empty (text : StoredText) : bool :=
  match text with EmptyText => true | _ => false end.

Definition JSON_parse (text : StoredText) : Result (list TaskJSON) :=
  match text with
  | TaskArrayText items => Ok items
  | EmptyText | Malformed => Err SyntaxError
  end.

Definition date_member (d : Date) : JField :=
  match toJSON d with
  | Some s => Text s
  | None => Null
  end.

(** How [JSON.stringify] writes one task: [undefined] members are left
    out, dates go through [toJSON]. *)
Definition task_to_json (t : Task) : TaskJSON :=
  mkJSON (id t) (title t) (description t)
         (match dueDate t with
          | Some d => date_member d
          | None => Absent
          end)
         (status t) (date_member (createdAt t)) (date_member (updatedAt t))
         (userId t).

Definition JSON_stringify (tasks : list Task) : StoredText :=
  TaskArrayText (map task_to_json tasks).

(** [new Date(member)] *)
Definition new_Date (v : JField) : Date :=
  match v with
  | Absent => InvalidDate              (* new Date(undefined) *)
  | Null => TimeValue 0                (* new Date(null) *)
  | Text s => Date_of_string s
  end.

End Store.

(* ================================================================== *)
(** ** services/taskService.ts *)

Module TaskService.
Import JS Types Store.
Local Open Scope store_scope.

(** What a sort key evaluates to: a [Date] or a string. *)
Inductive SortValue : Type :=
| DateValue (d : Date)
| StringValue (s : string).

(** [a < b] on sort values.  Within one sort both operands have the same
    kind; a date against a string compares a number with NaN. *)
Definition js_lt (a b : SortValue) : bool :=
  match a, b with
  | DateValue x, DateValue y => date_lt x y
  | StringValue x, StringValue y => string_lt x y
  | _, _ => false
  end.

Definition farFuture : Date := Date_of_string "9999-12-31".

Definition getSortValue (task : Task) (sortBy : SortBy) : SortValue :=
  match sortBy with
  | ByDueDate =>
      match dueDate task with
      | Some d => DateValue d
      | None => DateValue farFuture
      end
  | ByCreatedAt => DateValue (createdAt task)
  | ByTitle => StringValue (toLowerCase (title task))
  end.

(** The comparator handed to [sort] in [getTasks]. *)
Definition compareTasks (sortBy : SortBy) (sortOrder : option SortOrder)
  (a b : Task) : Z :=
  let aValue := getSortValue a sortBy in
  let bValue := getSortValue b sortBy in
  let comparison :=
    if js_lt aValue bValue then -1
    else if js_lt bValue aValue then 1 else 0 in
  match sortOrder with
  | Some Desc => - comparison
  | _ => comparison
  end.

(** The date members are turned back into [Date] objects. *)
Definition revive (task : TaskJSON) : Task :=
  mkTask (j_id task) (j_title task) (j_description task)
         (match j_dueDate task with
          | Text s => if truthy s then Some (Date_of_string s) else None
          | Absent | Null => None
          end)
         (j_status task) (new_Date (j_createdAt task))
         (new_Date (j_updatedAt task)) (j_userId task).

(** The [try] block of [loadTasksFromStorage]. *)
Definition loadTasksFromStorage_try : M (list Task) :=
  stored <- getItem_tasks ;;
  match stored with
  | None => ret []
  | Some text =>
      if is_empty text then ret []
      else parsed <- lift (JSON_parse text) ;; ret (map revive parsed)
  end.

Definition loadTasksFromStorage : M (list Task) :=
  try_catch loadTasksFromStorage_try (fun _ => ret []).

Definition saveTasksToStorage (tasks : list Task) : M unit :=
  try_catch (setItem_tasks (JSON_stringify tasks))
            (fun _ => throw (Error "Failed to save tasks")).

(** [task_${Date.now()}_${Math.random().toString(36).substr(2, 9)}];
    [rnd] is the random suffix. *)
Definition generateId (now : Z) (rnd : string) : string :=
  "task_" ++ decimal now ++ "_" ++ rnd.

(** [localStorage.getItem(USER_KEY) || 'anonymous'] *)
Definition getCurrentUserId : M string :=
  stored <- getItem_user ;;
  match stored with
  | Some u => if truthy u then ret u else ret "anonymous"%string
  | None => ret "anonymous"%string
  end.

(** The readings of the clock and of the random source made by one
    [createTask]. *)
Record CreateEnv : Type := mkEnv {
  id_now : Z;            (* Date.now() in generateId *)
  id_rnd : string;       (* the random suffix *)
  created_now : Z;       (* new Date() for createdAt *)
  updated_now : Z        (* new Date() for updatedAt *)
}.

Definition applyStatus (st : option TaskStatus) (tasks : list Task) :=
  match st with
  | Some s => filter (fun task => status_eqb (status task) s) tasks
  | None => tasks
  end.

Definition matchesSearch (searchLower : string) (task : Task) : bool :=
  includes (toLowerCase (title task)) searchLower
  || match description task with
     | Some d => includes (toLowerCase d) searchLower
     | None => false
     end.

Definition applySearch (search : option string) (tasks : list Task) :=
  match search with
  | Some s =>
      if truthy s then filter (matchesSearch (toLowerCase s)) tasks
      else tasks
  | None => tasks
  end.

Definition applySort (sortBy : option SortBy) (sortOrder : option SortOrder)
  (tasks : list Task) :=
  match sortBy with
  | Some sb => sort (compareTasks sb sortOrder) tasks
  | None => tasks
  end.

(** The status and search filters of [getTasks], before sorting. *)
Definition applyFilters (filters : option TaskFilters) (tasks : list Task) :=
  match filters with
  | Some f => applySearch (flt_search f) (applyStatus (flt_status f) tasks)
  | None => tasks
  end.

Definition getTasks (filters : option TaskFilters) : M (list Task) :=
  try_catch
    (tasks <- loadTasksFromStorage ;;
     let filteredTasks := applyFilters filters tasks in
     match filters with
     | Some f => ret (applySort (flt_sortBy f) (flt_sortOrder f) filteredTasks)
     | None => ret filteredTasks
     end)
    (fun _ => throw (Error "Failed to load tasks")).

(** The record built by [createTask] for the owner [uid]. *)
Definition newTask (env : CreateEnv) (request : CreateTaskRequest)
  (uid : string) : Task :=
  mkTask (generateId (id_now env) (id_rnd env))
         (trim (req_title request))
         (option_map trim (req_description request))
         (req_dueDate request)
         OPEN
         (TimeValue (created_now env))
         (TimeValue (updated_now env))
         (Some uid).

Definition createTask_try (env : CreateEnv) (request : CreateTaskRequest)
  : M Task :=
  uid <- getCurrentUserId ;;
  let task := newTask env request uid in
  tasks <- loadTasksFromStorage ;;
  saveTasksToStorage (tasks ++ [task]) ;;;
  ret task.

Definition createTask (env : CreateEnv) (request : CreateTaskRequest)
  : M Task :=
  try_catch (createTask_try env request)
            (fun _ => throw (Error "Failed to create task")).

Fixpoint findIndex {A} (p : A -> bool) (l : list A) : option nat :=
  match l with
  | [] => None
  | x :: r => if p x then Some O else option_map S (findIndex p r)
  end.

(** [l[i] = x] for an index inside the array. *)
Fixpoint assign {A} (i : nat) (x : A) (l : list A) : list A :=
  match l, i with
  | [], _ => []
  | _ :: r, O => x :: r
  | y :: r, S k => y :: assign k x r
  end.

Definition override {A} (old : option A) (f : Field A) : option A :=
  match f with
  | Omitted => old
  | Given v => v
  end.

(** [{ ...task, ...request, updatedAt: new Date() }] *)
Definition merge (task : Task) (request : UpdateTaskRequest) (now : Z) : Task :=
  mkTask (upd_id request)
         (match upd_title request with Some t => t | None => title task end)
         (override (description task) (upd_description request))
         (override (dueDate task) (upd_dueDate request))
         (match upd_status request with Some s => s | None => status task end)
         (createdAt task)
         (TimeValue now)
         (userId task).

Definition updateTask_try (now : Z) (request : UpdateTaskRequest) : M Task :=
  tasks <- loadTasksFromStorage ;;
  match findIndex (fun task => id task =? upd_id request)%string tasks with
  | None => throw (Error "Task not found")
  | Some taskIndex =>
      match nth_error tasks taskIndex with
      | Some found =>
          let updatedTask := merge found request now in
          saveTasksToStorage (assign taskIndex updatedTask tasks) ;;;
          ret updatedTask
      | None => throw TypeError   (* not reached: see findIndex_nth *)
      end
  end.

Definition updateTask (now : Z) (request : UpdateTaskRequest) : M Task :=
  try_catch (updateTask_try now request)
            (fun _ => throw (Error "Failed to update task")).

Definition deleteTask_try (id' : string) : M unit :=
  tasks <- loadTasksFromStorage ;;
  let filteredTasks :=
    filter (fun task => negb (id task =? id')%string) tasks in
  if (List.length filteredTasks =? List.length tasks)%nat
  then throw (Error "Task not found")
  else saveTasksToStorage filteredTasks.

Definition deleteTask (id' : string) : M unit :=
  try_catch (deleteTask_try id')
            (fun _ => throw (Error "Failed to delete task")).

Definition flip (s : TaskStatus) : TaskStatus :=
  match s with OPEN => COMPLETE | COMPLETE => OPEN end.

(** The [try] block only guards the lookup: the promise of [updateTask]
    is returned without [await], so its rejection passes through
    unchanged. *)
Definition toggleTaskCompletion (now : Z) (id' : string) : M Task :=
  request <-
    try_catch
      (tasks <- loadTasksFromStorage ;;
       match find (fun task => id task =? id')%string tasks with
       | None => throw (Error "Task not found")
       | Some task =>
           ret (mkUpdate id' None Omitted Omitted (Some (flip (status task))))
       end)
      (fun _ => throw (Error "Failed to toggle task")) ;;
  updateTask now request.

Record TaskStats : Type := mkStats {
  total : nat;
  completed : nat;
  pending : nat;
  overdue : nat
}.

(** [task.status === OPEN && task.dueDate && new Date(task.dueDate) < now] *)
Definition isOverdue (now : Z) (task : Task) : bool :=
  status_eqb (status task) OPEN
  && match dueDate task with
     | Some d => date_lt d (TimeValue now)
     | None => false
     end.

Definition getTaskStats (now : Z) : M TaskStats :=
  tasks <- getTasks None ;;
  ret (mkStats
         (List.length tasks)
         (List.length
            (filter (fun task => status_eqb (status task) COMPLETE) tasks))
         (List.length
            (filter (fun task => status_eqb (status task) OPEN) tasks))
         (List.length (filter (isOverdue now) tasks))).

End TaskService.

(* ================================================================== *)
(** ** hooks/useTasks.ts *)

Module UseTasks.
Import JS Types Store.

Record Toast : Type := mkToast {
  toast_title : string;
  toast_description : string;
  destructive : bool
}.

(** The state held by the hook; [tasks] is the visible collection. *)
Record HookState : Type := mkHook {
  tasks : list Task;
  filters : TaskFilters;
  isLoading : bool;
  error : option string;
  toasts : list Toast
}.

Definition initialState : HookState := mkHook [] noFilters true None [].

Definition setTasks (f : list Task -> list Task) (h : HookState) :=
  mkHook (f (tasks h)) (filters h) (isLoading h) (error h) (toasts h).

Definition setIsLoading (b : bool) (h : HookState) :=
  mkHook (tasks h) (filters h) b (error h) (toasts h).

Definition setError (e : option string) (h : HookState) :=
  mkHook (tasks h) (filters h) (isLoading h) e (toasts h).

Definition toast (t : Toast) (h : HookState) :=
  mkHook (tasks h) (filters h) (isLoading h) (error h) (toasts h ++ [t]).

(** [err.message || fallback] *)
Definition messageOr (err : Exn) (fallback : string) : string :=
  if truthy (message err) then message err else fallback.

Definition quoted (s : string) : string :=
  String (ascii_of_nat 34) s ++ String (ascii_of_nat 34) EmptyString.

(** The hook and the store it talks to. *)
Definition World : Type := (HookState * LocalStorage)%type.

Definition loadTasks (currentFilters : TaskFilters) (w : World) : World :=
  let '(h, ls) := w in
  let h := setError None (setIsLoading true h) in
  match TaskService.getTasks (Some currentFilters) ls with
  | (Ok loadedTasks, ls') =>
      (setIsLoading false (setTasks (fun _ => loadedTasks) h), ls')
  | (Err err, ls') =>
      let errorMessage := messageOr err "Failed to load tasks" in
      (setIsLoading false
         (toast (mkToast "Error Loading Tasks" errorMessage true)
            (setError (Some errorMessage) h)), ls')
  end.

(** *** createTask *)

(** The statements run before the service call is awaited. *)
Definition createTask_before_await (h : HookState) : HookState :=
  setError None h.

Definition createTask (env : TaskService.CreateEnv)
  (request : CreateTaskRequest) (w : World) : option Task * World :=
  let '(h, ls) := w in
  let h := createTask_before_await h in
  match TaskService.createTask env request ls with
  | (Ok newTask, ls') =>
      let h := setTasks (fun prev => newTask :: prev) h in
      let h := toast (mkToast "Task Created"
                        (quoted (title newTask) ++ " has been added") false) h in
      (Some newTask, (h, ls'))
  | (Err err, ls') =>
      let errorMessage := messageOr err "Failed to create task" in
      let h := setError (Some errorMessage) h in
      let h := toast (mkToast "Error Creating Task" errorMessage true) h in
      (None, (h, ls'))
  end.

(** *** updateTask *)

Definition updateTask_before_await (h : HookState) : HookState :=
  setError None h.

Definition replaceById (updatedTask : Task) (prev : list Task) : list Task :=
  map (fun task => if (id task =? id updatedTask)%string
                   then updatedTask else task) prev.

Definition updateTask (now : Z) (request : UpdateTaskRequest) (w : World)
  : option Task * World :=
  let '(h, ls) := w in
  let h := updateTask_before_await h in
  match TaskService.updateTask now request ls with
  | (Ok updatedTask, ls') =>
      let h := setTasks (replaceById updatedTask) h in
      let h := toast (mkToast "Task Updated"
                        (quoted (title updatedTask) ++ " has been updated")
                        false) h in
      (Some updatedTask, (h, ls'))
  | (Err err, ls') =>
      let errorMessage := messageOr err "Failed to update task" in
      let h := setError (Some errorMessage) h in
      let h := toast (mkToast "Error Updating Task" errorMessage true) h in
      (None, (h, ls'))
  end.

(** *** deleteTask *)

Definition removeById (id' : string) (prev : list Task) : list Task :=
  filter (fun task => negb (id task =? id')%string) prev.

Definition deleteTask_before_await (id' : string) (h : HookState)
  : HookState :=
  setTasks (removeById id') (setError None h).

Definition deleteTask (id' : string) (w : World) : bool * World :=
  let '(h0, ls) := w in
  let taskToDelete := find (fun task => id task =? id')%string (tasks h0) in
  let h := deleteTask_before_await id' h0 in
  match TaskService.deleteTask id' ls with
  | (Ok _, ls') =>
      let h := toast (mkToast "Task Deleted"
                        (match taskToDelete with
                         | Some t => quoted (title t) ++ " has been deleted"
                         | None => "Task deleted"
                         end) false) h in
      (true, (h, ls'))
  | (Err err, ls') =>
      let errorMessage := messageOr err "Failed to delete task" in
      let h := setError (Some errorMessage) h in
      let '(h, ls'') := loadTasks (filters h) (h, ls') in
      let h := toast (mkToast "Error Deleting Task" errorMessage true) h in
      (false, (h, ls''))
  end.

(** *** toggleTaskCompletion *)

Definition toggleTaskCompletion_before_await (h : HookState) : HookState :=
  setError None h.

Definition toggleTaskCompletion (now : Z) (id' : string) (w : World)
  : option Task * World :=
  let '(h, ls) := w in
  let h := toggleTaskCompletion_before_await h in
  match TaskService.toggleTaskCompletion now id' ls with
  | (Ok updatedTask, ls') =>
      let h := setTasks (replaceById updatedTask) h in
      let word := match status updatedTask with
                  | COMPLETE => "completed"%string
                  | OPEN => "reopened"%string
                  end in
      let h := toast (mkToast ("Task " ++ word)
                        (quoted (title updatedTask) ++ " has been " ++ word)
                        false) h in
      (Some updatedTask, (h, ls'))
  | (Err err, ls') =>
      let errorMessage := messageOr err "Failed to toggle task" in
      let h := setError (Some errorMessage) h in
      let h := toast (mkToast "Error Updating Task" errorMessage true) h in
      (None, (h, ls'))
  end.

(** *** updateFilters, clearFilters, refreshTasks, getTaskStats *)

Definition setFilters (f : TaskFilters) (h : HookState) :=
  mkHook (tasks h) f (isLoading h) (error h) (toasts h).

(** A [Partial<TaskFilters>] object: each key missing, or present with a
    value or with [undefined]. *)
Record PartialFilters : Type := mkPartial {
  p_status : Field TaskStatus;
  p_search : Field string;
  p_sortBy : Field SortBy;
  p_sortOrder : Field SortOrder
}.

(** [{ ...filters, ...newFilters }] *)
Definition spreadFilters (filters : TaskFilters) (newFilters : PartialFilters)
  : TaskFilters :=
  mkFilters (TaskService.override (flt_status filters) (p_status newFilters))
            (TaskService.override (flt_search filters) (p_search newFilters))
            (TaskService.override (flt_sortBy filters) (p_sortBy newFilters))
            (TaskService.override (flt_sortOrder filters)
               (p_sortOrder newFilters)).

Definition updateFilters (newFilters : PartialFilters) (w : World) : World :=
  let '(h, ls) := w in
  let updatedFilters := spreadFilters (filters h) newFilters in
  loadTasks updatedFilters (setFilters updatedFilters h, ls).

Definition clearFilters (w : World) : World :=
  let '(h, ls) := w in
  loadTasks noFilters (setFilters noFilters h, ls).

Definition refreshTasks (w : World) : World :=
  let '(h, ls) := loadTasks (filters (fst w)) w in
  (toast (mkToast "Tasks Refreshed" "Your tasks have been updated" false) h,
   ls).

(** The statistics, or all zeros when the service throws. *)
Definition getTaskStats (now : Z) (w : World)
  : TaskService.TaskStats * World :=
  let '(h, ls) := w in
  match TaskService.getTaskStats now ls with
  | (Ok s, ls') => (s, (h, ls'))
  | (Err _, ls') => (TaskService.mkStats 0 0 0 0, (h, ls'))
  end.

(** *** The order of effects

    The four actions and [loadTasks] once more, statement for statement,
    now also recording in program order each [setTasks], each repository
    call the action awaits and the settling of that call. *)

Inductive RepositoryCall : Type :=
| CallGetTasks (filters : TaskFilters)
| CallCreate (request : CreateTaskRequest)
| CallUpdate (request : UpdateTaskRequest)
| CallDelete (id' : string)
| CallToggle (id' : string).

Inductive Effect : Type :=
| SetTasks (visible : list Task)    (* setTasks(...): the visible collection from then on *)
| Await (call : RepositoryCall)     (* await taskService.<call> *)
| Settled (fulfilled : bool).       (* the awaited promise is fulfilled or rejected *)

Definition loadTasks_run (currentFilters : TaskFilters) (w : World)
  : World * list Effect :=
  let '(h, ls) := w in
  let h := setError None (setIsLoading true h) in
  match TaskService.getTasks (Some currentFilters) ls with
  | (Ok loadedTasks, ls') =>
      let h := setTasks (fun _ => loadedTasks) h in
      ((setIsLoading false h, ls'),
       [Await (CallGetTasks currentFilters); Settled true; SetTasks (tasks h)])
  | (Err err, ls') =>
      let errorMessage := messageOr err "Failed to load tasks" in
      ((setIsLoading false
          (toast (mkToast "Error Loading Tasks" errorMessage true)
             (setError (Some errorMessage) h)), ls'),
       [Await (CallGetTasks currentFilters); Settled false])
  end.

Definition createTask_run (env : TaskService.CreateEnv)
  (request : CreateTaskRequest) (w : World)
  : (option Task * World) * list Effect :=
  let '(h, ls) := w in
  let h := setError None h in
  match TaskService.createTask env request ls with
  | (Ok newTask, ls') =>
      let h := setTasks (fun prev => newTask :: prev) h in
      let shown := tasks h in
      let h := toast (mkToast "Task Created"
                        (quoted (title newTask) ++ " has been added") false) h in
      ((Some newTask, (h, ls')),
       [Await (CallCreate request); Settled true; SetTasks shown])
  | (Err err, ls') =>
      let errorMessage := messageOr err "Failed to create task" in
      let h := setError (Some errorMessage) h in
      let h := toast (mkToast "Error Creating Task" errorMessage true) h in
      ((None, (h, ls')), [Await (CallCreate request); Settled false])
  end.

Definition updateTask_run (now : Z) (request : UpdateTaskRequest) (w : World)
  : (option Task * World) * list Effect :=
  let '(h, ls) := w in
  let h := setError None h in
  match TaskService.updateTask now request ls with
  | (Ok updatedTask, ls') =>
      let h := setTasks (replaceById updatedTask) h in
      let shown := tasks h in
      let h := toast (mkToast "Task Updated"
                        (quoted (title updatedTask) ++ " has been updated")
                        false) h in
      ((Some updatedTask, (h, ls')),
       [Await (CallUpdate request); Settled true; SetTasks shown])
  | (Err err, ls') =>
      let errorMessage := messageOr err "Failed to update task" in
      let h := setError (Some errorMessage) h in
      let h := toast (mkToast "Error Updating Task" errorMessage true) h in
      ((None, (h, ls')), [Await (CallUpdate request); Settled false])
  end.

Definition deleteTask_run (id' : string) (w : World)
  : (bool * World) * list Effect :=
  let '(h0, ls) := w in
  let h := setError None h0 in
  let taskToDelete := find (fun task => id task =? id')%string (tasks h0) in
  let h := setTasks (removeById id') h in
  let removed := [SetTasks (tasks h); Await (CallDelete id')] in
  match TaskService.deleteTask id' ls with
  | (Ok _, ls') =>
      let h := toast (mkToast "Task Deleted"
                        (match taskToDelete with
                         | Some t => quoted (title t) ++ " has been deleted"
                         | None => "Task deleted"
                         end) false) h in
      ((true, (h, ls')), removed ++ [Settled true])
  | (Err err, ls') =>
      let errorMessage := messageOr err "Failed to delete task" in
      let h := setError (Some errorMessage) h in
      let '((h, ls''), reloaded) := loadTasks_run (filters h) (h, ls') in
      let h := toast (mkToast "Error Deleting Task" errorMessage true) h in
      ((false, (h, ls'')), removed ++ Settled false :: reloaded)
  end.

Definition toggleTaskCompletion_run (now : Z) (id' : string) (w : World)
  : (option Task * World) * list Effect :=
  let '(h, ls) := w in
  let h := setError None h in
  match TaskService.toggleTaskCompletion now id' ls with
  | (Ok updatedTask, ls') =>
      let h := setTasks (replaceById updatedTask) h in
      let shown := tasks h in
      let word := match status updatedTask with
                  | COMPLETE => "completed"%string
                  | OPEN => "reopened"%string
                  end in
      let h := toast (mkToast ("Task " ++ word)
                        (quoted (title updatedTask) ++ " has been " ++ word)
                        false) h in
      ((Some updatedTask, (h, ls')),
       [Await (CallToggle id'); Settled true; SetTasks shown])
  | (Err err, ls') =>
      let errorMessage := messageOr err "Failed to toggle task" in
      let h := setError (Some errorMessage) h in
      let h := toast (mkToast "Error Updating Task" errorMessage true) h in
      ((None, (h, ls')), [Await (CallToggle id'); Settled false])
  end.

(** Whether the visible collection is changed before the first awaited
    call has settled. *)
Fixpoint changes_before_settling (effects : list Effect) : bool :=
  match effects with
  | [] => false
  | SetTasks _ :: _ => true
  | Settled _ :: _ => false
  | Await _ :: rest => changes_before_settling rest
  end.

End UseTasks.

(* ================================================================== *)
(** ** Vocabulary of the specification *)

Module Spec.
Import JS Types Store.

(** A date that holds a time value of the ECMAScript range. *)
Definition valid_date (d : Date) : bool :=
  match d with
  | TimeValue t => Z.abs t <=? maxTime
  | InvalidDate => false
  end.

(** Every date member of the task is a valid date. *)
Definition well_dated (t : Task) : bool :=
  valid_date (createdAt t) && valid_date (updatedAt t)
  && match dueDate t with
     | Some d => valid_date d
     | None => true
     end.

(** The canonical collection: the task records held by the store. *)
Definition stored (ls : LocalStorage) : list Task :=
  match todo_tasks ls with
  | Some (TaskArrayText items) => map TaskService.revive items
  | _ => []
  end.

(** The title invariant of the data model: trimmed, 3 to 100 characters
    (hence non-empty). *)
Definition title_invariant (s : string) : bool :=
  (trim s =? s)%string
  && (3 <=? String.length s)%nat && (String.length s <=? 100)%nat.

(** The visible collection agrees with the canonical one: it is what the
    repository lists under the hook's filters. *)
Definition matches_canonical (h : UseTasks.HookState) (ls : LocalStorage)
  : Prop :=
  fst (TaskService.getTasks (Some (UseTasks.filters h)) ls)
  = Ok (UseTasks.tasks h).

(** The owner attached to new records: the stored user identifier, or
    the fixed name used when there is none. *)
Definition owner (ls : LocalStorage) : string :=
  match todo_user_id ls with
  | Some u => if truthy u then u else "anonymous"
  | None => "anonymous"
  end.

(** [n] is the number of members of the list that satisfy [P]. *)
Inductive number_of (P : Task -> Prop) : list Task -> nat -> Prop :=
| number_nil : number_of P [] 0
| number_hit t l n : P t -> number_of P l n -> number_of P (t :: l) (S n)
| number_miss t l n : ~ P t -> number_of P l n -> number_of P (t :: l) n.

(** A record is overdue at [now]: open, with a due date strictly before
    [now]. *)
Definition overdue_at (now : Z) (t : Task) : Prop :=
  status t = OPEN /\ exists due, dueDate t = Some (TimeValue due) /\ due < now.

(** Keys by which a listing is ordered: instants or texts. *)
Inductive Key : Type :=
| KNum (z : Z)
| KStr (s : string).

(** Lexicographic order on code units. *)
Inductive lex_lt : string -> string -> Prop :=
| lex_lt_nil c s : lex_lt EmptyString (String c s)
| lex_lt_head x y a b : code x < code y -> lex_lt (String x a) (String y b)
| lex_lt_tail x a b : lex_lt a b -> lex_lt (String x a) (String x b).

Definition Key_le (a b : Key) : Prop :=
  match a, b with
  | KNum x, KNum y => x <= y
  | KStr x, KStr y => ~ lex_lt y x
  | _, _ => False
  end.

Definition Key_eqb (a b : Key) : bool :=
  match a, b with
  | KNum x, KNum y => x =? y
  | KStr x, KStr y => (x =? y)%string
  | _, _ => false
  end.

(** 9999-12-31T00:00:00.000Z, the instant standing in for a missing due
    date. *)
Definition farFutureMs : Z := 253402214400000.

Definition instant (d : Date) : Z :=
  match d with
  | TimeValue t => t
  | InvalidDate => 0
  end.

(** The key a task is ordered by. *)
Definition sortKey (sortBy : SortBy) (t : Task) : Key :=
  match sortBy with
  | ByDueDate =>
      match dueDate t with
      | Some d => KNum (instant d)
      | None => KNum farFutureMs
      end
  | ByCreatedAt => KNum (instant (createdAt t))
  | ByTitle => KStr (toLowerCase (title t))
  end.

(** The date the task is ordered by, if any, is not the invalid date. *)
Definition key_valid (sortBy : SortBy) (t : Task) : Prop :=
  match sortBy with
  | ByDueDate => dueDate t <> Some InvalidDate
  | ByCreatedAt => createdAt t <> InvalidDate
  | ByTitle => True
  end.

(** [a] may stand before [b] in the requested order. *)
Definition in_order (sortBy : SortBy) (sortOrder : option SortOrder)
  (a b : Task) : Prop :=
  match sortOrder with
  | Some Desc => Key_le (sortKey sortBy b) (sortKey sortBy a)
  | _ => Key_le (sortKey sortBy a) (sortKey sortBy b)
  end.

(** Ordering by due date in which a missing due date is later than every
    date. *)
Definition due_le_infinitely_late (a b : Task) : Prop :=
  match dueDate a, dueDate b with
  | _, None => True
  | None, Some _ => False
  | Some x, Some y => instant x <= instant y
  end.

End Spec.

(** ** Sample data *)

Module Samples.
Import JS Types Store.
Local Open Scope string_scope.

Definition empty_store : LocalStorage := mkStorage None None (fun _ => true).

Definition sample_task : Task :=
  mkTask "task_1730484000123_k3j9x0q2a" "Pay rent" None
         (Some (TimeValue 1730397600000)) OPEN
         (TimeValue 1730484000123) (TimeValue 1730484000456) (Some "u1").

Definition sample_note : Task :=
  mkTask "task_1730484000789_zz81hd02m" "Buy milk" (Some "2 litres")
         None COMPLETE
         (TimeValue (-1)) (TimeValue 253402300800000) None.

Definition env1 : TaskService.CreateEnv :=
  TaskService.mkEnv 1730484000123 "k3j9x0q2a" 1730484000123 1730484000124.

Definition env2 : TaskService.CreateEnv :=
  TaskService.mkEnv 1730484000789 "zz81hd02m" 1730484000789 1730484000789.

Definition env3 : TaskService.CreateEnv :=
  TaskService.mkEnv 1730484555000 "q1w2e3r4t" 1730484555000 1730484555001.

(** A record created by another user. *)
Definition alice_task : Task :=
  mkTask "task_1_aaaaaaaaa" "Call the bank" None None OPEN
         (TimeValue 1) (TimeValue 1) (Some "alice").

Definition bobs_store : LocalStorage :=
  mkStorage (Some (JSON_stringify [alice_task])) (Some "bob") (fun _ => true).

Definition two_tasks_store (acc : StoredText -> bool) : LocalStorage :=
  mkStorage (Some (JSON_stringify [sample_task; sample_note])) (Some "u1") acc.

Definition titled (n : Z) (t : string) : Task :=
  mkTask (TaskService.generateId n "aaaaaaaaa") t None None OPEN
         (TimeValue n) (TimeValue n) (Some "u1").

Definition fruit_store : LocalStorage :=
  mkStorage
    (Some (JSON_stringify [titled 3 "banana"; titled 2 "Apple";
                           titled 1 "cherry"]))
    (Some "u1") (fun _ => true).

(** A record without due date, and one due on 10000-01-01. *)
Definition undated : Task := titled 1 "Some day".

Definition due_year_10000 : Task :=
  mkTask (TaskService.generateId 2 "bbbbbbbbb") "Renew the lease" None
         (Some (TimeValue 253402300800000)) OPEN
         (TimeValue 2) (TimeValue 2) (Some "u1").

Definition lease_store : LocalStorage :=
  mkStorage (Some (JSON_stringify [undated; due_year_10000]))
            (Some "u1") (fun _ => true).

End Samples.

(* ================================================================== *)
(** ** services/authService.ts and types/auth.ts *)

Module AuthService.
Import JS Types Store.
Local Open Scope string_scope.

Inductive Provider : Type := Google | Email.

Record User : Type := mkUser {
  user_id : string;
  email : string;
  name : string;
  picture : option string;
  provider : Provider
}.

(** The class [AuthError]: an [Error] with a code. *)
Record AuthError : Type := mkAuthError {
  code : string;
  auth_message : string
}.

Inductive AuthResult (A : Type) : Type :=
| Done (a : A)
| Failed (e : AuthError).
Arguments Done {A} a.
Arguments Failed {A} e.

(** The text under 'todo_user', by what [JSON.parse] makes of it: the
    empty string, a text it rejects, the text [null], or the JSON text of
    a user object. *)
Inductive UserText : Type :=
| EmptyUserText
| MalformedUserText
| NullUserText
| UserJSON (u : User).

(** The three writes of the service. *)
Inductive AuthWrite : Type :=
| WriteUser (u : User)           (* setItem('todo_user', JSON.stringify(u)) *)
| WriteUserId (i : string)       (* setItem('todo_user_id', i) *)
| WriteToken (t : string).       (* setItem('todo_token', t) *)

(** [localStorage] with the entries of both services; [admits] tells
    which writes of this service the store has room for. *)
Record AuthStorage : Type := mkAuth {
  task_entries : LocalStorage;        (* 'todo_tasks' and 'todo_user_id' *)
  todo_user : option UserText;        (* 'todo_user' *)
  todo_token : option string;         (* 'todo_token' *)
  admits : AuthWrite -> bool
}.

(** One [setItem]: the changed store, or nothing when it throws. *)
Definition setItem (wr : AuthWrite) (s : AuthStorage) : option AuthStorage :=
  if admits s wr then
    Some match wr with
         | WriteUser u =>
             mkAuth (task_entries s) (Some (UserJSON u)) (todo_token s)
                    (admits s)
         | WriteUserId i =>
             mkAuth (mkStorage (todo_tasks (task_entries s)) (Some i)
                       (accepts (task_entries s)))
                    (todo_user s) (todo_token s) (admits s)
         | WriteToken t =>
             mkAuth (task_entries s) (todo_user s) (Some t) (admits s)
         end
  else None.

Definition mockUser (now : Z) : User :=
  mkUser ("user_" ++ decimal now) "demo@todoapp.com" "Demo User"
         (Some "https://via.placeholder.com/150/007acc/ffffff?text=Demo")
         Google.

(** [signInWithGoogle]; [now1] and [now2] are its two readings of
    [Date.now()].  A write that throws ends the [try] block where it
    stands. *)
Definition signInWithGoogle (now1 now2 : Z) (s : AuthStorage)
  : AuthResult User * AuthStorage :=
  let failure :=
    Failed (mkAuthError "GOOGLE_SIGNIN_FAILED" "Failed to sign in with Google")
  in
  match setItem (WriteUser (mockUser now1)) s with
  | None => (failure, s)
  | Some s1 =>
      match setItem (WriteUserId (user_id (mockUser now1))) s1 with
      | None => (failure, s1)
      | Some s2 =>
          match setItem (WriteToken ("mock_google_token_" ++ decimal now2)) s2
          with
          | None => (failure, s2)
          | Some s3 => (Done (mockUser now1), s3)
          end
      end
  end.

(** [signOut]: removes 'todo_user' and 'todo_token'. *)
Definition signOut (s : AuthStorage) : AuthStorage :=
  mkAuth (task_entries s) None None (admits s).

(** [getCurrentUser]: [stored ? JSON.parse(stored) : null], and [null]
    when parsing throws. *)
Definition getCurrentUser (s : AuthStorage) : option User :=
  match todo_user s with
  | Some (UserJSON u) => Some u
  | Some EmptyUserText | Some MalformedUserText | Some NullUserText => None
  | None => None
  end.

Definition getAuthToken (s : AuthStorage) : option string := todo_token s.

(** [!!(user && token)] *)
Definition isAuthenticated (s : AuthStorage) : bool :=
  match getCurrentUser s, todo_token s with
  | Some _, Some t => truthy t
  | _, _ => false
  end.

(** [validateSession]: the mock accepts any session that has a user and a
    token. *)
Definition validateSession (s : AuthStorage) : bool :=
  match getCurrentUser s, getAuthToken s with
  | Some _, Some t => truthy t
  | _, _ => false
  end.

End AuthService.

(* ================================================================== *)
(** ** components/tasks/TaskFilters.tsx and the search box of
       components/tasks/TaskList.tsx

    The controls receive the hook's [filters] as a prop and hand a new
    filters object to [onFilterChange], which [TodoApp] binds to the
    hook's [updateFilters]. *)

Module FilterControls.
Import JS Types Store UseTasks.
Local Open Scope string_scope.

(** The string values of the two union types. *)
Definition sortBy_name (sb : SortBy) : string :=
  match sb with
  | ByDueDate => "dueDate"
  | ByCreatedAt => "createdAt"
  | ByTitle => "title"
  end.

Definition sortOrder_name (o : SortOrder) : string :=
  match o with Asc => "asc" | Desc => "desc" end.

(** The unchecked cast of a string to the union type; the select control
    only offers values made of the names above. *)
Definition as_sortBy (s : option string) : option SortBy :=
  match s with
  | Some s =>
      if s =? "dueDate" then Some ByDueDate
      else if s =? "createdAt" then Some ByCreatedAt
      else if s =? "title" then Some ByTitle
      else None
  | None => None
  end.

Definition as_sortOrder (s : option string) : option SortOrder :=
  match s with
  | Some s =>
      if s =? "asc" then Some Asc
      else if s =? "desc" then Some Desc
      else None
  | None => None
  end.

(** [String.prototype.split] with a one-character separator. *)
Fixpoint split (sep : ascii) (s : string) : list string :=
  match s with
  | EmptyString => [EmptyString]
  | String c r =>
      if Ascii.eqb c sep then EmptyString :: split sep r
      else match split sep r with
           | p :: ps => String c p :: ps
           | [] => [String c EmptyString]
           end
  end.

(** The keys copied by [...filters]: a member without a value counts as
    missing (spread over the same object it makes no difference,
    see [spread_own_keys]). *)
Definition own {A} (v : option A) : Field A :=
  match v with
  | Some x => Given (Some x)
  | None => Omitted
  end.

(** [onFilterChange({ ...filters, status })] *)
Definition handleStatusFilter (filters : TaskFilters)
  (status : option TaskStatus) : PartialFilters :=
  mkPartial (Given status) (own (flt_search filters))
            (own (flt_sortBy filters)) (own (flt_sortOrder filters)).

(** [handleSortChange]: 'none' passes the filters without their sort
    keys; any other value is split at '-' into [sortBy] and [sortOrder]. *)
Definition handleSortChange (filters : TaskFilters) (value : string)
  : PartialFilters :=
  if value =? "none" then
    mkPartial (own (flt_status filters)) (own (flt_search filters))
              Omitted Omitted
  else
    let parts := split "-"%char value in
    mkPartial (own (flt_status filters)) (own (flt_search filters))
              (Given (as_sortBy (nth_error parts 0)))
              (Given (as_sortOrder (nth_error parts 1))).

(** [onFilterChange({ search: filters.search })] *)
Definition clearFilters (filters : TaskFilters) : PartialFilters :=
  mkPartial Omitted (Given (flt_search filters)) Omitted Omitted.

(** The value shown by the select control. *)
Definition getSortValue (filters : TaskFilters) : string :=
  match flt_sortBy filters with
  | None => "none"
  | Some sb =>
      sortBy_name sb ++ "-"
      ++ match flt_sortOrder filters with
         | Some o => sortOrder_name o
         | None => "asc"
         end
  end.

(** [filters.status || filters.sortBy]: whether the Clear button is
    shown. *)
Definition hasActiveFilters (filters : TaskFilters) : bool :=
  match flt_status filters, flt_sortBy filters with
  | None, None => false
  | _, _ => true
  end.

(** TaskList: [onFilterChange({ ...filters, search: value || undefined })] *)
Definition handleSearchChange (filters : TaskFilters) (value : string)
  : PartialFilters :=
  mkPartial (own (flt_status filters))
            (Given (if truthy value then Some value else None))
            (own (flt_sortBy filters)) (own (flt_sortOrder filters)).

(** A control wired to the hook: the object it builds from the hook's
    current filters goes to [updateFilters]. *)
Definition wired (control : TaskFilters -> PartialFilters) (w : World)
  : World :=
  updateFilters (control (filters (fst w))) w.

End FilterControls.

(* ================================================================== *)
(** ** The task form (TaskForm, after TaskCard in
       components/tasks/TaskCard.tsx) and its use in pages/TodoApp.tsx *)

Module TaskForm.
Import JS Types Store.
Local Open Scope string_scope.

Record FormData : Type := mkForm {
  form_title : string;
  form_description : string;
  form_dueDate : option Date
}.

(** The form as filled in when it opens: from the task being edited, or
    blank. *)
Definition initialForm (task : option Task) : FormData :=
  match task with
  | Some t =>
      mkForm (title t)
             (match description t with
              | Some d => if truthy d then d else ""
              | None => ""
              end)
             (dueDate t)
  | None => mkForm "" "" None
  end.

Record FormErrors : Type := mkErrors {
  err_title : option string;
  err_description : option string;
  err_dueDate : option string
}.

(** The errors found by [validateForm]; [todayStart] is the time value of
    [new Date().setHours(0, 0, 0, 0)], the local midnight before now. *)
Definition formErrors (todayStart : Z) (formData : FormData) : FormErrors :=
  mkErrors
    (if negb (truthy (trim (form_title formData)))
     then Some "Task title is required"
     else if (String.length (trim (form_title formData)) <? 3)%nat
          then Some "Task title must be at least 3 characters"
          else None)
    (if truthy (form_description formData)
        && (500 <? String.length (form_description formData))%nat
     then Some "Description must be less than 500 characters"
     else None)
    (match form_dueDate formData with
     | Some d =>
         if date_lt d (TimeValue todayStart)
         then Some "Due date cannot be in the past"
         else None
     | None => None
     end).

(** [Object.keys(newErrors).length === 0] *)
Definition validateForm (todayStart : Z) (formData : FormData) : bool :=
  match formErrors todayStart formData with
  | mkErrors None None None => true
  | _ => false
  end.

(** [text || undefined] *)
Definition orUndefined (text : string) : option string :=
  if truthy text then Some text else None.

(** What the form hands to [onSubmit]. *)
Inductive Submission : Type :=
| SubmitCreate (request : CreateTaskRequest)
| SubmitUpdate (request : UpdateTaskRequest).

(** [handleSubmit]: nothing is sent when validation fails. *)
Definition handleSubmit (todayStart : Z) (task : option Task)
  (formData : FormData) : option Submission :=
  if validateForm todayStart formData then
    match task with
    | Some t =>
        Some (SubmitUpdate
                (mkUpdate (id t)
                   (Some (trim (form_title formData)))
                   (Given (orUndefined (trim (form_description formData))))
                   (Given (form_dueDate formData))
                   None))
    | None =>
        Some (SubmitCreate
                (mkCreate (trim (form_title formData))
                   (orUndefined (trim (form_description formData)))
                   (form_dueDate formData)))
    end
  else None.

(** TodoApp's [handleTaskSubmit]: an edit goes to the hook's [updateTask],
    a new task to its [createTask]. *)
Definition handleTaskSubmit (env : TaskService.CreateEnv) (now : Z)
  (data : Submission) (w : UseTasks.World) : option Task * UseTasks.World :=
  match data with
  | SubmitUpdate request => UseTasks.updateTask now request w
  | SubmitCreate request => UseTasks.createTask env request w
  end.

End TaskForm.

(* ================================================================== *)
(** ** Further vocabulary *)

Module Props.
Import JS Types Store.
Local Open Scope string_scope.

(** A record as it is read back after having been written. *)
Definition readback (t : Task) : Task :=
  TaskService.revive (task_to_json t).

(** [sub] occurs in [s]. *)
Definition occurs_in (sub s : string) : Prop :=
  exists pre post, s = pre ++ sub ++ post.

(** The record matches the status and search filters. *)
Definition matches (f : TaskFilters) (t : Task) : Prop :=
  (forall s, flt_status f = Some s -> status t = s)
  /\ (forall q, flt_search f = Some q -> q <> "" ->
        occurs_in (toLowerCase q) (toLowerCase (title t))
        \/ exists d, description t = Some d
                     /\ occurs_in (toLowerCase q) (toLowerCase d)).

(** The text has no white space at either end. *)
Fixpoint last_char (s : string) : option ascii :=
  match s with
  | EmptyString => None
  | String c EmptyString => Some c
  | String _ r => last_char r
  end.

Definition first_char (s : string) : option ascii :=
  match s with
  | EmptyString => None
  | String c _ => Some c
  end.

Definition no_outer_space (s : string) : Prop :=
  (forall c, first_char s = Some c -> isWhiteSpace c = false)
  /\ (forall c, last_char s = Some c -> isWhiteSpace c = false).

(** A store with room for every text. *)
Definition roomy (ls : LocalStorage) : Prop :=
  forall text, accepts ls text = true.

(** The filters with the search text replaced. *)
Definition with_search (f : TaskFilters) (q : string) : TaskFilters :=
  mkFilters (flt_status f) (Some q) (flt_sortBy f) (flt_sortOrder f).

End Props.

(** ** Sample sessions *)

Module AuthSamples.
Import JS Types Store AuthService.

(** A store with room for every write of the auth service, nobody signed
    in. *)
Definition open_auth (ls : LocalStorage) : AuthStorage :=
  mkAuth ls None None (fun _ => true).

(** Room for the user and the user id, none for the token. *)
Definition no_room_for_token : AuthWrite -> bool :=
  fun wr => match wr with WriteToken _ => false | _ => true end.

End AuthSamples.

(* ================================================================== *)
(** * Facts about the built-ins *)

Section DateFacts.
Import JS.

Ltac zdiv := Z.div_mod_to_equations; lia.

Lemma digit_val_digit (n : Z) : 0 <= n <= 9 -> digit_val (digit n) = Some n.
Proof.
  intros H. destruct n as [| p | p]; [reflexivity | | lia].
  do 4 (try (destruct p as [p | p |]; try reflexivity; try lia)).
Qed.

Lemma digit_not_sign (n : Z) (c : ascii) :
  0 <= n <= 9 -> digit_val c = None -> Ascii.eqb (digit n) c = false.
Proof.
  intros H Hc. destruct (Ascii.eqb_spec (digit n) c) as [<- |]; [|reflexivity].
  rewrite digit_val_digit in Hc by assumption. discriminate.
Qed.

Lemma read_num_snoc (w : nat) : forall acc cs,
  read_num (S w) acc cs =
  match read_num w acc cs with
  | Some (a, c :: r) =>
      match digit_val c with
      | Some d => Some (10 * a + d, r)
      | None => None
      end
  | _ => None
  end.
Proof.
  induction w as [| w IH]; intros acc cs.
  - destruct cs as [| c r]; simpl; [reflexivity |].
    destruct (digit_val c); reflexivity.
  - destruct cs as [| c r]; [reflexivity |].
    change (read_num (S (S w)) acc (c :: r)) with
      (match digit_val c with
       | Some d => read_num (S w) (10 * acc + d) r
       | None => None
       end).
    change (read_num (S w) acc (c :: r)) with
      (match digit_val c with
       | Some d => read_num w (10 * acc + d) r
       | None => None
       end).
    destruct (digit_val c); [apply IH | reflexivity].
Qed.

Lemma read_num_digits (w : nat) : forall acc v rest,
  0 <= v < 10 ^ Z.of_nat w ->
  read_num w acc (digits w v ++ rest) = Some (acc * 10 ^ Z.of_nat w + v, rest).
Proof.
  induction w as [| w IH]; intros acc v rest Hv.
  - simpl in *. f_equal. f_equal. lia.
  - rewrite read_num_snoc. cbn [digits]. rewrite <- app_assoc. cbn [app].
    assert (Hp : 10 ^ Z.of_nat (S w) = 10 * 10 ^ Z.of_nat w).
    { rewrite Nat2Z.inj_succ, Z.pow_succ_r by lia. reflexivity. }
    rewrite IH by (rewrite Hp in Hv; zdiv).
    rewrite digit_val_digit by zdiv.
    f_equal. f_equal. rewrite Hp. zdiv.
Qed.

(** The calendar conversion is inverted by [days_from_civil]. *)
Lemma days_from_civil_inv (z : Z) :
  let '(y, m, d) := civil_from_days z in
  days_from_civil y m d = z /\ 1 <= m <= 12 /\ 1 <= d <= 31.
Proof.
  unfold civil_from_days, days_from_civil. cbv zeta.
  repeat match goal with
         | |- context [Z.ltb ?a ?b] => destruct (Z.ltb_spec a b)
         | |- context [Z.leb ?a ?b] => destruct (Z.leb_spec a b)
         end; zdiv.
Qed.

Lemma civil_year_range (z : Z) :
  - 100000001 <= z <= 100000001 ->
  let '(y, _, _) := civil_from_days z in - 999999 <= y <= 999999.
Proof.
  intros Hz. unfold civil_from_days. cbv zeta.
  repeat match goal with
         | |- context [Z.ltb ?a ?b] => destruct (Z.ltb_spec a b)
         | |- context [Z.leb ?a ?b] => destruct (Z.leb_spec a b)
         end; zdiv.
Qed.

Lemma digits_head (w : nat) (v : Z) (rest : list ascii) :
  0 <= v < 10 ^ Z.of_nat (S w) ->
  exists k tl, 0 <= k <= 9 /\ digits (S w) v ++ rest = digit k :: tl.
Proof.
  revert v rest. induction w as [| w IH]; intros v rest Hv.
  - exists (v mod 10), rest. split; [zdiv | reflexivity].
  - assert (Hp : 10 ^ Z.of_nat (S (S w)) = 10 * 10 ^ Z.of_nat (S w)).
    { rewrite (Nat2Z.inj_succ (S w)), Z.pow_succ_r by lia. reflexivity. }
    destruct (IH (v / 10) (digit (v mod 10) :: rest)) as (k & tl & Hk & E).
    { rewrite Hp in Hv. zdiv. }
    exists k, tl. split; [assumption |].
    change (digits (S (S w)) v) with (digits (S w) (v / 10) ++ [digit (v mod 10)]).
    rewrite <- app_assoc. exact E.
Qed.

Lemma read_year_chars (y : Z) (rest : list ascii) :
  - 999999 <= y <= 999999 ->
  read_year (year_chars y ++ rest) = Some (y, rest).
Proof.
  intros Hy. unfold year_chars.
  destruct (Z.leb_spec 0 y) as [H0 | H0]; cbn [andb].
  - destruct (Z.leb_spec y 9999) as [H1 | H1].
    + destruct (digits_head 3 y rest ltac:(simpl; lia)) as (k & tl & Hk & E).
      unfold read_year. rewrite E.
      rewrite !digit_not_sign by (assumption || reflexivity).
      rewrite <- E, read_num_digits by (simpl; lia). f_equal.
    + destruct (Z.ltb_spec y 0); [lia |].
      cbn [app read_year]. replace (Ascii.eqb "+" "+") with true by reflexivity.
      rewrite read_num_digits by (simpl; lia). f_equal. f_equal. lia.
  - destruct (Z.ltb_spec y 0); [| lia].
    cbn [app read_year]. replace (Ascii.eqb "-" "+") with false by reflexivity.
    replace (Ascii.eqb "-" "-") with true by reflexivity.
    rewrite read_num_digits by (simpl; lia).
    destruct (Z.eqb_spec (0 * 10 ^ Z.of_nat 6 + Z.abs y) 0); [lia |].
    f_equal. f_equal. lia.
Qed.

Lemma expect_cons (c : ascii) (rest : list ascii) :
  expect c (c :: rest) = Some rest.
Proof. unfold expect. rewrite Ascii.eqb_refl. reflexivity. Qed.

Lemma read_time_chars (w : Z) :
  0 <= w < msPerDay ->
  read_time ("T"%char :: digits 2 (w / 3600000)
             ++ ":"%char :: digits 2 ((w / 60000) mod 60)
             ++ ":"%char :: digits 2 ((w / 1000) mod 60)
             ++ "."%char :: digits 3 (w mod 1000) ++ ["Z"%char]) = Some w.
Proof.
  unfold msPerDay. intros Hw. unfold read_time.
  rewrite expect_cons, read_num_digits by (simpl; zdiv).
  rewrite expect_cons, read_num_digits by (simpl; zdiv).
  rewrite expect_cons, read_num_digits by (simpl; zdiv).
  rewrite expect_cons, read_num_digits by (simpl; zdiv).
  replace (Ascii.eqb "Z" "Z") with true by reflexivity.
  replace (0 * 10 ^ Z.of_nat 2 + (w / 60000) mod 60 <=? 59) with true
    by (symmetry; apply Z.leb_le; simpl; zdiv).
  replace (0 * 10 ^ Z.of_nat 2 + (w / 1000) mod 60 <=? 59) with true
    by (symmetry; apply Z.leb_le; simpl; zdiv).
  replace (0 * 10 ^ Z.of_nat 2 + w / 3600000 <=? 23) with true
    by (symmetry; apply Z.leb_le; simpl; zdiv).
  cbn [andb orb]. f_equal. unfold MakeTime. simpl Z.of_nat. zdiv.
Qed.

(** [Date.parse(x.toISOString())] is the time value of [x]. *)
Lemma parse_toISOString (t : Z) :
  Z.abs t <= maxTime -> parse_chars (toISOString_chars t) = Some t.
Proof.
  unfold maxTime. intros Ht. unfold toISOString_chars.
  pose proof (days_from_civil_inv (t / msPerDay)) as Hc.
  pose proof (civil_year_range (t / msPerDay)) as Hy.
  destruct (civil_from_days (t / msPerDay)) as [[y m] d].
  destruct Hc as (Hday & Hm & Hd).
  specialize (Hy ltac:(unfold msPerDay; zdiv)).
  unfold parse_chars.
  rewrite read_year_chars by assumption.
  rewrite expect_cons, read_num_digits by (simpl; lia).
  rewrite expect_cons, read_num_digits by (simpl; lia).
  replace (1 <=? 0 * 10 ^ Z.of_nat 2 + m) with true
    by (symmetry; apply Z.leb_le; lia).
  replace (0 * 10 ^ Z.of_nat 2 + m <=? 12) with true
    by (symmetry; apply Z.leb_le; lia).
  replace (1 <=? 0 * 10 ^ Z.of_nat 2 + d) with true
    by (symmetry; apply Z.leb_le; lia).
  replace (0 * 10 ^ Z.of_nat 2 + d <=? 31) with true
    by (symmetry; apply Z.leb_le; lia).
  cbn [andb].
  rewrite read_time_chars by (unfold msPerDay; zdiv).
  f_equal. unfold MakeDate.
  replace (0 * 10 ^ Z.of_nat 2 + m) with m by lia.
  replace (0 * 10 ^ Z.of_nat 2 + d) with d by lia.
  rewrite Hday. unfold msPerDay. zdiv.
Qed.

Lemma Date_of_toISOString (t : Z) :
  Z.abs t <= maxTime -> Date_of_string (toISOString t) = TimeValue t.
Proof.
  intros Ht. unfold Date_of_string, toISOString.
  rewrite list_ascii_of_string_of_list_ascii, parse_toISOString by assumption.
  unfold TimeClip. apply Z.leb_le in Ht. rewrite Ht. reflexivity.
Qed.

Lemma toISOString_truthy (t : Z) : truthy (toISOString t) = true.
Proof.
  unfold toISOString, toISOString_chars.
  destruct (civil_from_days (t / msPerDay)) as [[y m] d].
  unfold year_chars.
  destruct ((0 <=? y) && (y <=? 9999)); [| reflexivity].
  change (digits 4 y) with (digits 3 (y / 10) ++ [digit (y mod 10)]).
  rewrite <- app_assoc.
  destruct (digits 3 (y / 10)); reflexivity.
Qed.

End DateFacts.

(* ================================================================== *)
(** * The store *)

Section StoreFacts.
Import JS Types Store TaskService Spec Samples.
Local Open Scope string_scope.
Local Open Scope Z_scope.

Lemma load_stored (ls : LocalStorage) :
  loadTasksFromStorage ls = (Ok (stored ls), ls).
Proof.
  unfold loadTasksFromStorage, loadTasksFromStorage_try, try_catch, bind,
    getItem_tasks, stored.
  destruct (todo_tasks ls) as [[| | items] |]; reflexivity.
Qed.

Lemma save_accepted (tasks : list Task) (ls : LocalStorage) :
  accepts ls (JSON_stringify tasks) = true ->
  saveTasksToStorage tasks ls
  = (Ok tt, mkStorage (Some (JSON_stringify tasks)) (todo_user_id ls)
              (accepts ls)).
Proof.
  intros H. unfold saveTasksToStorage, try_catch, setItem_tasks.
  rewrite H. reflexivity.
Qed.

Lemma save_rejected (tasks : list Task) (ls : LocalStorage) :
  accepts ls (JSON_stringify tasks) = false ->
  saveTasksToStorage tasks ls = (Err (Error "Failed to save tasks"), ls).
Proof.
  intros H. unfold saveTasksToStorage, try_catch, setItem_tasks.
  rewrite H. reflexivity.
Qed.

Lemma new_Date_date_member (d : Date) :
  valid_date d = true -> new_Date (date_member d) = d.
Proof.
  destruct d as [t |]; [| discriminate]. simpl. intros H.
  apply Date_of_toISOString, Z.leb_le, H.
Qed.

Lemma revive_task_to_json (t : Task) :
  well_dated t = true -> revive (task_to_json t) = t.
Proof.
  unfold well_dated. intros H.
  apply andb_true_iff in H as [H Hdue]. apply andb_true_iff in H as [Hc Hu].
  destruct t as [i ti de du st cr up us]. unfold revive, task_to_json.
  cbn [id title description dueDate status createdAt updatedAt userId
       j_id j_title j_description j_dueDate j_status j_createdAt j_updatedAt
       j_userId] in *.
  rewrite (new_Date_date_member cr Hc), (new_Date_date_member up Hu).
  f_equal. destruct du as [[t |] |]; [| discriminate | reflexivity].
  cbn [date_member toJSON]. rewrite toISOString_truthy.
  f_equal. apply Date_of_toISOString, Z.leb_le, Hdue.
Qed.

Lemma stored_after_save (tasks : list Task) (u : option string)
  (acc : StoredText -> bool) :
  Forall (fun t => well_dated t = true) tasks ->
  stored (mkStorage (Some (JSON_stringify tasks)) u acc) = tasks.
Proof.
  intros H. unfold stored, JSON_stringify. cbn [todo_tasks].
  rewrite map_map. induction H as [| t l Ht _ IH]; [reflexivity |].
  cbn [map]. rewrite (revive_task_to_json t Ht), IH. reflexivity.
Qed.

(** The titles read back are the titles written, whatever the dates. *)
Lemma stored_titles_after_save (tasks : list Task) (u : option string)
  (acc : StoredText -> bool) :
  map title (stored (mkStorage (Some (JSON_stringify tasks)) u acc))
  = map title tasks.
Proof.
  unfold stored, JSON_stringify. cbn [todo_tasks].
  rewrite !map_map. apply map_ext. reflexivity.
Qed.

(** Dates read back from the store are valid or invalid dates, never a
    time value out of range. *)
Lemma Date_of_string_clipped (s : string) :
  Date_of_string s = InvalidDate \/ valid_date (Date_of_string s) = true.
Proof.
  unfold Date_of_string. destruct (parse_chars _) as [t |]; [| now left].
  unfold TimeClip. destruct (Z.abs t <=? maxTime) eqn:E; [right | now left].
  exact E.
Qed.

(** C6.  [save] followed by [load] returns the sequence that was saved:
    every member of every task, the dates and the missing optional members
    included, for tasks whose dates are valid dates and a store that has
    room for the text. *)
Theorem save_load_roundtrip (tasks : list Task) (ls : LocalStorage) :
  Forall (fun t => well_dated t = true) tasks ->
  accepts ls (JSON_stringify tasks) = true ->
  exists ls',
    saveTasksToStorage tasks ls = (Ok tt, ls')
    /\ loadTasksFromStorage ls' = (Ok tasks, ls').
Proof.
  intros Hd Ha. eexists. split; [apply save_accepted, Ha |].
  rewrite load_stored, stored_after_save by assumption. reflexivity.
Qed.

Lemma save_load_roundtrip_witness :
  exists ls',
    saveTasksToStorage [sample_task; sample_note] empty_store = (Ok tt, ls')
    /\ loadTasksFromStorage ls' = (Ok [sample_task; sample_note], ls').
Proof.
  apply (save_load_roundtrip [sample_task; sample_note] empty_store).
  - repeat constructor.
  - reflexivity.
Defined.

(** An invalid date is written as [null]: a due date is then read back as
    missing, a creation date as the epoch. *)
Lemma invalid_date_not_preserved :
  revive (task_to_json
            (mkTask "a" "Pay rent" None (Some InvalidDate) OPEN InvalidDate
                    (TimeValue 5) None))
  = mkTask "a" "Pay rent" None None OPEN (TimeValue 0) (TimeValue 5) None.
Proof. reflexivity. Qed.

(** C9 (as stated): with an unparsable text in the store, [load] does not
    fail, it returns the empty sequence. *)
Lemma load_malformed_returns_empty :
  JSON_parse Malformed = Err SyntaxError
  /\ loadTasksFromStorage (mkStorage (Some Malformed) None (fun _ => true))
     = (Ok [], mkStorage (Some Malformed) None (fun _ => true)).
Proof. split; reflexivity. Qed.

(** C9 (amended).  [load] never fails and never writes: it returns the
    empty sequence when nothing is stored, when the stored text is empty
    and when the stored text cannot be parsed (the error is caught inside
    [load]); otherwise it returns the stored records. *)
Theorem load_never_fails (u : option string) (acc : StoredText -> bool) :
  (forall ls, exists tasks, loadTasksFromStorage ls = (Ok tasks, ls))
  /\ fst (loadTasksFromStorage (mkStorage None u acc)) = Ok []
  /\ fst (loadTasksFromStorage (mkStorage (Some EmptyText) u acc)) = Ok []
  /\ fst (loadTasksFromStorage_try (mkStorage (Some Malformed) u acc))
     = Err SyntaxError
  /\ fst (loadTasksFromStorage (mkStorage (Some Malformed) u acc)) = Ok []
  /\ (forall items,
        fst (loadTasksFromStorage (mkStorage (Some (TaskArrayText items)) u acc))
        = Ok (map revive items)).
Proof.
  repeat split; try reflexivity.
  intros ls. exists (stored ls). apply load_stored.
Qed.

End StoreFacts.

(* ================================================================== *)
(** * The repository: create, update, delete *)

Section ServiceFacts.
Import JS Types Store TaskService Spec Samples.
Local Open Scope string_scope.
Local Open Scope Z_scope.

Lemma getCurrentUserId_owner (ls : LocalStorage) :
  getCurrentUserId ls = (Ok (owner ls), ls).
Proof.
  unfold getCurrentUserId, bind, getItem_user, owner.
  destruct (todo_user_id ls) as [u |]; [destruct (truthy u) |]; reflexivity.
Qed.

Lemma createTask_try_accepted env request (ls : LocalStorage) :
  accepts ls (JSON_stringify (stored ls ++ [newTask env request (owner ls)]))
  = true ->
  createTask_try env request ls
  = (Ok (newTask env request (owner ls)),
     mkStorage
       (Some (JSON_stringify (stored ls ++ [newTask env request (owner ls)])))
       (todo_user_id ls) (accepts ls)).
Proof.
  intros H. unfold createTask_try, bind.
  rewrite getCurrentUserId_owner, load_stored, save_accepted by exact H.
  reflexivity.
Qed.

Lemma createTask_accepted env request (ls : LocalStorage) :
  accepts ls (JSON_stringify (stored ls ++ [newTask env request (owner ls)]))
  = true ->
  createTask env request ls
  = (Ok (newTask env request (owner ls)),
     mkStorage
       (Some (JSON_stringify (stored ls ++ [newTask env request (owner ls)])))
       (todo_user_id ls) (accepts ls)).
Proof.
  intros H. unfold createTask, try_catch.
  rewrite createTask_try_accepted by exact H. reflexivity.
Qed.

Lemma createTask_rejected env request (ls : LocalStorage) :
  accepts ls (JSON_stringify (stored ls ++ [newTask env request (owner ls)]))
  = false ->
  createTask env request ls = (Err (Error "Failed to create task"), ls).
Proof.
  intros H. unfold createTask, try_catch, createTask_try, bind.
  rewrite getCurrentUserId_owner, load_stored, save_rejected by exact H.
  reflexivity.
Qed.

Lemma findIndex_nth {A} (p : A -> bool) (l : list A) (i : nat) :
  findIndex p l = Some i ->
  exists x, nth_error l i = Some x /\ p x = true /\ find p l = Some x.
Proof.
  revert i. induction l as [| y r IH]; intros i; cbn [findIndex find].
  - discriminate.
  - destruct (p y) eqn:E.
    + intros [= <-]. exists y. auto.
    + destruct (findIndex p r) as [k |]; [| discriminate].
      intros [= <-]. apply (IH k eq_refl).
Qed.

Lemma findIndex_none {A} (p : A -> bool) (l : list A) :
  (forall x, In x l -> p x = false) -> findIndex p l = None.
Proof.
  induction l as [| y r IH]; intros H; cbn [findIndex]; [reflexivity |].
  rewrite (H y (or_introl eq_refl)), IH; [reflexivity |].
  intros x Hx. apply H. now right.
Qed.

Lemma filter_all {A} (p : A -> bool) (l : list A) :
  (forall x, In x l -> p x = true) -> filter p l = l.
Proof.
  induction l as [| y r IH]; intros H; cbn [filter]; [reflexivity |].
  rewrite (H y (or_introl eq_refl)), IH; [reflexivity |].
  intros x Hx. apply H. now right.
Qed.

Lemma updateTask_try_found now request (ls : LocalStorage) i found :
  findIndex (fun task => id task =? upd_id request)%string (stored ls) = Some i ->
  nth_error (stored ls) i = Some found ->
  updateTask_try now request ls
  = bind (saveTasksToStorage (assign i (merge found request now) (stored ls)))
         (fun _ => ret (merge found request now)) ls.
Proof.
  intros Hi Hn. unfold updateTask_try at 1. unfold bind at 1.
  rewrite load_stored, Hi, Hn. reflexivity.
Qed.

Lemma updateTask_accepted now request (ls : LocalStorage) i found :
  findIndex (fun task => id task =? upd_id request)%string (stored ls) = Some i ->
  nth_error (stored ls) i = Some found ->
  accepts ls (JSON_stringify (assign i (merge found request now) (stored ls)))
  = true ->
  updateTask now request ls
  = (Ok (merge found request now),
     mkStorage
       (Some (JSON_stringify (assign i (merge found request now) (stored ls))))
       (todo_user_id ls) (accepts ls)).
Proof.
  intros Hi Hn Ha. unfold updateTask, try_catch.
  rewrite (updateTask_try_found now request ls i found Hi Hn).
  unfold bind. rewrite save_accepted by exact Ha. reflexivity.
Qed.

Lemma updateTask_rejected now request (ls : LocalStorage) i found :
  findIndex (fun task => id task =? upd_id request)%string (stored ls) = Some i ->
  nth_error (stored ls) i = Some found ->
  accepts ls (JSON_stringify (assign i (merge found request now) (stored ls)))
  = false ->
  updateTask now request ls = (Err (Error "Failed to update task"), ls).
Proof.
  intros Hi Hn Ha. unfold updateTask, try_catch.
  rewrite (updateTask_try_found now request ls i found Hi Hn).
  unfold bind. rewrite save_rejected by exact Ha. reflexivity.
Qed.

(** C10.  With no user identifier in the store, [create] assigns the
    owner 'anonymous'; it succeeds, persisting that record, exactly when
    the store has room for the write, so it never fails for lack of a
    signed-in user. *)
Theorem create_signed_out_is_anonymous env request (ls : LocalStorage) :
  todo_user_id ls = None ->
  let task := newTask env request "anonymous" in
  userId task = Some "anonymous"
  /\ fst (getCurrentUserId ls) = Ok "anonymous"
  /\ if accepts ls (JSON_stringify (stored ls ++ [task]))
     then exists ls',
            createTask env request ls = (Ok task, ls')
            /\ todo_tasks ls' = Some (JSON_stringify (stored ls ++ [task]))
     else createTask env request ls
          = (Err (Error "Failed to create task"), ls).
Proof.
  intros Hu task.
  assert (Ho : owner ls = "anonymous") by (unfold owner; now rewrite Hu).
  split; [reflexivity |]. split.
  { rewrite getCurrentUserId_owner, Ho. reflexivity. }
  destruct (accepts ls (JSON_stringify (stored ls ++ [task]))) eqn:Ha.
  - eexists. split.
    + rewrite createTask_accepted by (rewrite Ho; exact Ha).
      rewrite Ho. reflexivity.
    + reflexivity.
  - apply createTask_rejected. rewrite Ho. exact Ha.
Qed.

Lemma create_signed_out_is_anonymous_witness :
  let task := newTask env1 (mkCreate "Buy milk" None None) "anonymous" in
  userId task = Some "anonymous"
  /\ fst (getCurrentUserId empty_store) = Ok "anonymous"
  /\ exists ls',
       createTask env1 (mkCreate "Buy milk" None None) empty_store
       = (Ok task, ls')
       /\ todo_tasks ls' = Some (JSON_stringify (stored empty_store ++ [task])).
Proof.
  exact (create_signed_out_is_anonymous env1 (mkCreate "Buy milk" None None)
           empty_store eq_refl).
Defined.

(** C1 (as stated): a create request whose title is blank succeeds, and a
    record that violates the title invariant is persisted; an update then
    stores a one-character title. *)
Lemma blank_title_is_persisted :
  exists task ls' task' ls'',
    createTask env1 (mkCreate "   " None None) empty_store = (Ok task, ls')
    /\ stored ls' = [task]
    /\ title task = ""
    /\ title_invariant (title task) = false
    /\ updateTask 1730484009999
         (mkUpdate (id task) (Some "x") Omitted Omitted None) ls'
       = (Ok task', ls'')
    /\ stored ls'' = [task']
    /\ title_invariant (title task') = false.
Proof.
  do 4 eexists. repeat split; vm_compute; reflexivity.
Qed.

(** C1 (amended).  The repository enforces no title invariant.  [create]
    only trims: whenever the store accepts the write it succeeds and
    persists a record whose title is the trimmed title of the request.
    [update] stores the merged record without validation: a title given in
    the request replaces the stored one as it is. *)
Theorem title_is_not_validated :
  (forall env request ls,
     accepts ls (JSON_stringify (stored ls ++ [newTask env request (owner ls)]))
     = true ->
     exists task ls',
       createTask env request ls = (Ok task, ls')
       /\ title task = trim (req_title request)
       /\ todo_tasks ls' = Some (JSON_stringify (stored ls ++ [task]))
       /\ map title (stored ls')
          = (map title (stored ls) ++ [trim (req_title request)])%list)
  /\ (forall now request ls i found,
        findIndex (fun task => id task =? upd_id request)%string (stored ls)
        = Some i ->
        nth_error (stored ls) i = Some found ->
        accepts ls
          (JSON_stringify (assign i (merge found request now) (stored ls)))
        = true ->
        exists task ls',
          updateTask now request ls = (Ok task, ls')
          /\ title task = match upd_title request with
                          | Some t => t
                          | None => title found
                          end
          /\ todo_tasks ls' = Some (JSON_stringify (assign i task (stored ls)))
          /\ map title (stored ls') = map title (assign i task (stored ls))).
Proof.
  split.
  - intros env request ls Ha. do 2 eexists. split.
    + apply createTask_accepted, Ha.
    + split; [reflexivity |]. split; [reflexivity |].
      rewrite stored_titles_after_save, map_app. reflexivity.
  - intros now request ls i found Hi Hn Ha. do 2 eexists. split.
    + apply (updateTask_accepted now request ls i found Hi Hn Ha).
    + split; [reflexivity |]. split; [reflexivity |].
      apply stored_titles_after_save.
Qed.

Lemma title_is_not_validated_witness :
  (exists task ls',
     createTask env1 (mkCreate "  ab " None None) empty_store = (Ok task, ls')
     /\ title task = trim "  ab "
     /\ todo_tasks ls' = Some (JSON_stringify (stored empty_store ++ [task]))
     /\ map title (stored ls')
        = (map title (stored empty_store) ++ [trim "  ab "])%list)
  /\ (exists task ls',
        updateTask 1730484009999
          (mkUpdate (id sample_note) (Some " ") Omitted Omitted None)
          (two_tasks_store (fun _ => true)) = (Ok task, ls')
        /\ title task = " "
        /\ todo_tasks ls'
           = Some (JSON_stringify
                     (assign 1 task (stored (two_tasks_store (fun _ => true)))))
        /\ map title (stored ls')
           = map title
               (assign 1 task (stored (two_tasks_store (fun _ => true))))).
Proof.
  split.
  - exact (proj1 title_is_not_validated env1 (mkCreate "  ab " None None)
             empty_store eq_refl).
  - exact (proj2 title_is_not_validated 1730484009999
             (mkUpdate (id sample_note) (Some " ") Omitted Omitted None)
             (two_tasks_store (fun _ => true)) 1%nat sample_note
             ltac:(vm_compute; reflexivity) ltac:(vm_compute; reflexivity)
             eq_refl).
Defined.

Lemma getTasks_value (ls : LocalStorage) (filters : option TaskFilters) :
  getTasks filters ls
  = (Ok (match filters with
         | Some f => applySort (flt_sortBy f) (flt_sortOrder f)
                       (applyFilters filters (stored ls))
         | None => stored ls
         end), ls).
Proof.
  unfold getTasks, try_catch, bind. rewrite load_stored.
  destruct filters; reflexivity.
Qed.

(** C3.  When the store rejects the write of an update, the call fails
    and the store is left as it was, so the persisted record with that id
    is the one from before the update; the hook reports the error and
    leaves the visible collection untouched, so that it still agrees with
    the canonical collection if it did before. *)
Theorem update_write_failure_is_atomic now request i found
  (h : UseTasks.HookState) (ls : LocalStorage) :
  findIndex (fun task => id task =? upd_id request)%string (stored ls) = Some i ->
  nth_error (stored ls) i = Some found ->
  accepts ls (JSON_stringify (assign i (merge found request now) (stored ls)))
  = false ->
  updateTask now request ls = (Err (Error "Failed to update task"), ls)
  /\ find (fun task => id task =? upd_id request)%string
       (stored (snd (updateTask now request ls))) = Some found
  /\ exists h',
       UseTasks.updateTask now request (h, ls) = (None, (h', ls))
       /\ UseTasks.tasks h' = UseTasks.tasks h
       /\ UseTasks.error h' = Some "Failed to update task"
       /\ (matches_canonical h ls -> matches_canonical h' ls).
Proof.
  intros Hi Hn Ha.
  pose proof (updateTask_rejected now request ls i found Hi Hn Ha) as Hr.
  split; [exact Hr |]. split.
  { rewrite Hr. cbn [snd].
    destruct (findIndex_nth _ _ _ Hi) as (x & Hx & _ & Hf).
    rewrite Hn in Hx. injection Hx as <-. exact Hf. }
  unfold UseTasks.updateTask. rewrite Hr.
  eexists. split; [reflexivity |].
  split; [reflexivity |]. split; [reflexivity |].
  intros Hm. exact Hm.
Qed.

Lemma update_write_failure_is_atomic_witness :
  let request := mkUpdate (id sample_note) (Some "Buy oat milk") Omitted
                   (Given None) None in
  let ls := two_tasks_store (fun _ => false) in
  let h := UseTasks.mkHook [sample_task; sample_note] noFilters false None [] in
  updateTask 1730484009999 request ls
  = (Err (Error "Failed to update task"), ls)
  /\ find (fun task => id task =? upd_id request)%string
       (stored (snd (updateTask 1730484009999 request ls))) = Some sample_note
  /\ exists h',
       UseTasks.updateTask 1730484009999 request (h, ls) = (None, (h', ls))
       /\ UseTasks.tasks h' = UseTasks.tasks h
       /\ UseTasks.error h' = Some "Failed to update task"
       /\ (matches_canonical h ls -> matches_canonical h' ls).
Proof.
  exact (update_write_failure_is_atomic 1730484009999
           (mkUpdate (id sample_note) (Some "Buy oat milk") Omitted
              (Given None) None)
           1%nat sample_note
           (UseTasks.mkHook [sample_task; sample_note] noFilters false None [])
           (two_tasks_store (fun _ => false))
           ltac:(vm_compute; reflexivity) ltac:(vm_compute; reflexivity)
           eq_refl).
Defined.

(** C5 (as stated): deleting an id that is not in the collection does not
    fail with the not-found error; the caller gets the generic one. *)
Lemma delete_absent_reports_generic_error :
  fst (deleteTask "task_0_missing00" (two_tasks_store (fun _ => true)))
  = Err (Error "Failed to delete task")
  /\ fst (deleteTask "task_0_missing00" (two_tasks_store (fun _ => true)))
     <> Err (Error "Task not found").
Proof. split; [vm_compute; reflexivity | vm_compute; discriminate]. Qed.

(** C5 (amended).  For an id that is not in the collection, [delete] and
    [update] fail and leave the store as it was.  The error raised inside
    is 'Task not found'; it is caught, and the caller receives the generic
    'Failed to delete task' or 'Failed to update task'. *)
Theorem absent_id_fails_and_keeps_store now request (ls : LocalStorage) :
  (forall task, In task (stored ls) -> id task <> upd_id request) ->
  deleteTask_try (upd_id request) ls = (Err (Error "Task not found"), ls)
  /\ deleteTask (upd_id request) ls = (Err (Error "Failed to delete task"), ls)
  /\ updateTask_try now request ls = (Err (Error "Task not found"), ls)
  /\ updateTask now request ls = (Err (Error "Failed to update task"), ls).
Proof.
  intros Habs.
  assert (Hd : deleteTask_try (upd_id request) ls
               = (Err (Error "Task not found"), ls)).
  { unfold deleteTask_try, bind. rewrite load_stored.
    rewrite filter_all.
    - rewrite Nat.eqb_refl. reflexivity.
    - intros x Hx. apply negb_true_iff, String.eqb_neq, Habs, Hx. }
  assert (Hu : updateTask_try now request ls
               = (Err (Error "Task not found"), ls)).
  { unfold updateTask_try, bind. rewrite load_stored.
    rewrite findIndex_none; [reflexivity |].
    intros x Hx. apply String.eqb_neq, Habs, Hx. }
  repeat split; try assumption.
  - unfold deleteTask, try_catch. rewrite Hd. reflexivity.
  - unfold updateTask, try_catch. rewrite Hu. reflexivity.
Qed.

Lemma absent_id_fails_and_keeps_store_witness :
  let request := mkUpdate "task_0_missing00" (Some "Walk") Omitted Omitted None in
  let ls := two_tasks_store (fun _ => true) in
  deleteTask_try (upd_id request) ls = (Err (Error "Task not found"), ls)
  /\ deleteTask (upd_id request) ls = (Err (Error "Failed to delete task"), ls)
  /\ updateTask_try 5 request ls = (Err (Error "Task not found"), ls)
  /\ updateTask 5 request ls = (Err (Error "Failed to update task"), ls).
Proof.
  apply (absent_id_fails_and_keeps_store 5
           (mkUpdate "task_0_missing00" (Some "Walk") Omitted Omitted None)
           (two_tasks_store (fun _ => true))).
  intros task Hin.
  assert (E : stored (two_tasks_store (fun _ => true))
              = [sample_task; sample_note]) by (vm_compute; reflexivity).
  rewrite E in Hin.
  destruct Hin as [<- | [<- | []]]; vm_compute; discriminate.
Defined.

(** C4 (the code at the failing input): with 'bob' signed in, the listing
    returns the record owned by 'alice'. *)
Theorem getTasks_lists_other_owners :
  fst (getCurrentUserId bobs_store) = Ok "bob"
  /\ userId alice_task = Some "alice"
  /\ fst (getTasks None bobs_store) = Ok [alice_task]
  /\ fst (getTasks (Some noFilters) bobs_store) = Ok [alice_task].
Proof. repeat split; vm_compute; reflexivity. Qed.

(** The listing does not depend on who is signed in. *)
Lemma getTasks_ignores_user (text : option StoredText) (u v : option string)
  (acc : StoredText -> bool) (filters : option TaskFilters) :
  fst (getTasks filters (mkStorage text u acc))
  = fst (getTasks filters (mkStorage text v acc)).
Proof. rewrite !getTasks_value. reflexivity. Qed.

Lemma isOverdue_iff (now : Z) (t : Task) :
  isOverdue now t = true <-> overdue_at now t.
Proof.
  unfold isOverdue, overdue_at. rewrite andb_true_iff. split.
  - intros [Hs Hd]. split; [destruct (status t); [reflexivity | discriminate] |].
    destruct (dueDate t) as [[due |] |]; try discriminate.
    exists due. split; [reflexivity | apply Z.ltb_lt, Hd].
  - intros [Hs (due & Hd & Hlt)]. rewrite Hs, Hd. split; [reflexivity |].
    apply Z.ltb_lt, Hlt.
Qed.

Lemma number_of_filter (P : Task -> Prop) (p : Task -> bool) (l : list Task) :
  (forall t, p t = true <-> P t) ->
  number_of P l (List.length (filter p l)).
Proof.
  intros H. induction l as [| t r IH]; cbn [filter]; [constructor |].
  destruct (p t) eqn:E.
  - apply number_hit; [apply H, E | exact IH].
  - apply number_miss; [| exact IH].
    intros HP. apply H in HP. congruence.
Qed.

Lemma status_eqb_iff (a b : TaskStatus) : status_eqb a b = true <-> a = b.
Proof. destruct a, b; simpl; split; congruence. Qed.

Lemma open_or_complete (l : list Task) :
  List.length l
  = (List.length (filter (fun t => status_eqb (status t) COMPLETE) l)
     + List.length (filter (fun t => status_eqb (status t) OPEN) l))%nat.
Proof.
  induction l as [| t r IH]; [reflexivity |]. cbn [filter List.length].
  destruct (status t); cbn [status_eqb List.length]; lia.
Qed.

(** C8.  [getStats] succeeds on every collection, with [total] the number
    of records, [completed] the number of COMPLETE ones, [pending] the
    number of OPEN ones and [overdue] the number of OPEN ones whose due
    date is present and strictly before the evaluation instant; so
    [total = completed + pending]. *)
Theorem getTaskStats_counts (now : Z) (ls : LocalStorage) :
  exists s,
    getTaskStats now ls = (Ok s, ls)
    /\ total s = List.length (stored ls)
    /\ number_of (fun t => status t = COMPLETE) (stored ls) (completed s)
    /\ number_of (fun t => status t = OPEN) (stored ls) (pending s)
    /\ number_of (overdue_at now) (stored ls) (overdue s)
    /\ total s = (completed s + pending s)%nat.
Proof.
  unfold getTaskStats, bind. rewrite getTasks_value.
  eexists. split; [reflexivity |]. cbn [total completed pending overdue].
  split; [reflexivity |].
  split; [apply number_of_filter; intros t; apply status_eqb_iff |].
  split; [apply number_of_filter; intros t; apply status_eqb_iff |].
  split; [apply number_of_filter, isOverdue_iff |].
  apply open_or_complete.
Qed.

(** The scenario of the specification: two creates, the second one due
    the day before, then the first one is completed. *)
Example stats_scenario :
  let now := 1730484100000 in
  let yesterday := TimeValue (now - 86400000) in
  let s1 := snd (createTask env1 (mkCreate "Buy milk" None None) empty_store) in
  let s2 := snd (createTask env2 (mkCreate "Pay rent" None (Some yesterday)) s1) in
  let s3 := snd (toggleTaskCompletion (now + 1)
                   (generateId (id_now env1) (id_rnd env1)) s2) in
  fst (getTaskStats now s2) = Ok (mkStats 2 0 2 1)
  /\ fst (getTaskStats (now + 2) s3) = Ok (mkStats 2 1 1 1).
Proof. split; vm_compute; reflexivity. Qed.

End ServiceFacts.

(* ================================================================== *)
(** * Sorting *)

Section SortFacts.
Context {A : Type} (cmp : A -> A -> Z).

Lemma insert_perm (x : A) (l : list A) :
  Permutation (x :: l) (JS.insert cmp x l).
Proof.
  induction l as [| y r IH]; cbn [JS.insert]; [reflexivity |].
  destruct (cmp x y <=? 0); [reflexivity |].
  rewrite perm_swap. now apply perm_skip.
Qed.

Lemma sort_perm (l : list A) : Permutation l (JS.sort cmp l).
Proof.
  induction l as [| x r IH]; cbn [JS.sort]; [reflexivity |].
  rewrite <- insert_perm. now apply perm_skip.
Qed.

(** [R] is the order decided by the comparator on the elements that
    satisfy [P]. *)
Variables (P : A -> Prop) (R : A -> A -> Prop).
Hypothesis R_spec :
  forall a b, P a -> P b -> ((cmp a b <=? 0) = true <-> R a b).
Hypothesis R_total : forall a b, P a -> P b -> R a b \/ R b a.
Hypothesis R_trans :
  forall a b c, P a -> P b -> P c -> R a b -> R b c -> R a c.

Lemma insert_sorted (x : A) (l : list A) :
  P x -> Forall P l -> StronglySorted R l ->
  StronglySorted R (JS.insert cmp x l).
Proof.
  intros Hx Hl Hs. induction Hs as [| y r Hs IH Hy]; cbn [JS.insert].
  - repeat constructor.
  - apply Forall_cons_iff in Hl as [HPy HPr].
    destruct (cmp x y <=? 0) eqn:E.
    + apply R_spec in E; [| assumption ..].
      constructor; [now constructor |].
      constructor; [exact E |].
      rewrite Forall_forall in Hy, HPr |- *. intros z Hz.
      apply (R_trans x y z); auto.
    + constructor; [now apply IH |].
      assert (Hyx : R y x).
      { destruct (R_total x y Hx HPy) as [H | H]; [| exact H].
        apply R_spec in H; [congruence | assumption ..]. }
      rewrite Forall_forall in Hy |- *. intros z Hz.
      apply (Permutation_in _ (Permutation_sym (insert_perm x r))) in Hz.
      destruct Hz as [<- | Hz]; auto.
Qed.

Lemma sort_sorted (l : list A) :
  Forall P l -> StronglySorted R (JS.sort cmp l).
Proof.
  induction l as [| x r IH]; intros Hl; cbn [JS.sort]; [constructor |].
  apply Forall_cons_iff in Hl as [Hx Hr].
  apply insert_sorted; auto.
  rewrite Forall_forall in Hr |- *. intros z Hz. apply Hr.
  apply (Permutation_in _ (Permutation_sym (sort_perm r))), Hz.
Qed.

(** Stability: the members picked by [sel], which the order does not
    tell apart, keep their places relative to each other. *)
Variable sel : A -> bool.
Hypothesis sel_class :
  forall a b, P a -> P b -> sel a = true -> sel b = true -> R a b.

Lemma insert_filter (x : A) (l : list A) :
  P x -> Forall P l ->
  filter sel (JS.insert cmp x l) = filter sel (x :: l).
Proof.
  intros Hx Hl. induction l as [| y r IH]; cbn [JS.insert]; [reflexivity |].
  apply Forall_cons_iff in Hl as [Hy Hr].
  destruct (cmp x y <=? 0) eqn:E; [reflexivity |].
  cbn [filter]. rewrite (IH Hr). cbn [filter].
  destruct (sel x) eqn:Sx, (sel y) eqn:Sy; try reflexivity.
  pose proof (sel_class x y Hx Hy Sx Sy) as H.
  apply R_spec in H; [congruence | assumption ..].
Qed.

Lemma sort_filter (l : list A) :
  Forall P l -> filter sel (JS.sort cmp l) = filter sel l.
Proof.
  induction l as [| x r IH]; intros Hl; cbn [JS.sort]; [reflexivity |].
  apply Forall_cons_iff in Hl as [Hx Hr].
  rewrite insert_filter; auto.
  - cbn [filter]. rewrite (IH Hr). reflexivity.
  - rewrite Forall_forall in Hr |- *. intros z Hz. apply Hr.
    apply (Permutation_in _ (Permutation_sym (sort_perm r))), Hz.
Qed.
End SortFacts.

Section OrderFacts.
Import JS Types Store TaskService Spec Samples.
Local Open Scope string_scope.
Local Open Scope Z_scope.

Lemma string_lt_iff (a b : string) : string_lt a b = true <-> lex_lt a b.
Proof.
  revert b. induction a as [| x a IH]; intros [| y b]; cbn [string_lt].
  - split; [discriminate | inversion 1].
  - split; [constructor | reflexivity].
  - split; [discriminate | inversion 1].
  - rewrite orb_true_iff, andb_true_iff, Z.ltb_lt, Z.eqb_eq, IH. split.
    + intros [H | [H1 H2]]; [now apply lex_lt_head |].
      assert (x = y) as ->.
      { unfold code in H1. apply N2Z.inj in H1.
        rewrite <- (ascii_N_embedding x), <- (ascii_N_embedding y), H1.
        reflexivity. }
      now apply lex_lt_tail.
    + inversion 1; subst; auto.
Qed.

Lemma lex_lt_irrefl (a : string) : ~ lex_lt a a.
Proof.
  induction a as [| x a IH]; inversion 1; subst; [lia | auto].
Qed.

Lemma lex_lt_cotrans (a c : string) :
  lex_lt a c -> forall b, lex_lt a b \/ lex_lt b c.
Proof.
  induction 1 as [c s | x y a c H | x a c H IH]; intros [| z b].
  - right. constructor.
  - left. constructor.
  - right. constructor.
  - destruct (Z.lt_trichotomy (code x) (code z)) as [L | [E | G]].
    + left. now apply lex_lt_head.
    + right. apply lex_lt_head. lia.
    + right. apply lex_lt_head. lia.
  - right. constructor.
  - destruct (Z.lt_trichotomy (code x) (code z)) as [L | [E | G]].
    + left. now apply lex_lt_head.
    + assert (x = z) as ->.
      { unfold code in E. apply N2Z.inj in E.
        rewrite <- (ascii_N_embedding x), <- (ascii_N_embedding z), E.
        reflexivity. }
      destruct (IH b) as [L | L]; [left | right]; now apply lex_lt_tail.
    + right. now apply lex_lt_head.
Qed.

Lemma lex_lt_asym (a b : string) : lex_lt a b -> ~ lex_lt b a.
Proof.
  induction 1 as [c s | x y a b H | x a b H IH]; inversion 1; subst;
    try lia; auto.
Qed.

Lemma farFuture_value : farFuture = TimeValue farFutureMs.
Proof. vm_compute. reflexivity. Qed.

(** The sort value of a task with a usable key, in terms of [sortKey]. *)
Lemma getSortValue_key (sb : SortBy) (t : Task) :
  key_valid sb t ->
  match sortKey sb t with
  | KNum z => getSortValue t sb = DateValue (TimeValue z)
  | KStr s => getSortValue t sb = StringValue s
  end.
Proof.
  destruct sb; unfold key_valid, sortKey, getSortValue.
  - destruct (dueDate t) as [[z |] |]; intros H;
      [reflexivity | congruence | apply f_equal, farFuture_value].
  - destruct (createdAt t) as [z |]; intros H; [reflexivity | congruence].
  - reflexivity.
Qed.

Lemma sortKey_kind (sb : SortBy) (a b : Task) :
  match sortKey sb a, sortKey sb b with
  | KNum _, KNum _ | KStr _, KStr _ => True
  | _, _ => False
  end.
Proof.
  destruct sb; unfold sortKey;
    repeat match goal with |- context [dueDate ?t] => destruct (dueDate t) end;
    exact I.
Qed.

Lemma compareTasks_in_order (sb : SortBy) (ord : option SortOrder)
  (a b : Task) :
  key_valid sb a -> key_valid sb b ->
  ((compareTasks sb ord a b <=? 0) = true <-> in_order sb ord a b).
Proof.
  intros Ha Hb. unfold compareTasks, in_order. cbv zeta.
  pose proof (getSortValue_key sb a Ha) as Ea.
  pose proof (getSortValue_key sb b Hb) as Eb.
  pose proof (sortKey_kind sb a b) as K.
  destruct (sortKey sb a) as [x | x], (sortKey sb b) as [y | y];
    try contradiction; rewrite Ea, Eb; cbn [js_lt date_lt Key_le].
  - destruct (Z.ltb_spec x y), (Z.ltb_spec y x), ord as [[|] |];
      rewrite Z.leb_le; lia.
  - pose proof (string_lt_iff x y) as Hxy.
    pose proof (string_lt_iff y x) as Hyx.
    pose proof (lex_lt_asym x y) as Has.
    destruct (string_lt x y), (string_lt y x), ord as [[|] |];
      rewrite Z.leb_le; intuition (try lia; try discriminate).
Qed.

Lemma in_order_total (sb : SortBy) (ord : option SortOrder) (a b : Task) :
  in_order sb ord a b \/ in_order sb ord b a.
Proof.
  unfold in_order. pose proof (sortKey_kind sb a b) as K.
  destruct (sortKey sb a) as [x | x], (sortKey sb b) as [y | y];
    try contradiction; cbn [Key_le].
  - destruct ord as [[|] |]; lia.
  - pose proof (string_lt_iff x y) as Hxy.
    pose proof (lex_lt_asym x y) as Has.
    destruct (string_lt x y) eqn:E.
    + assert (~ lex_lt y x) by (apply Has, Hxy; reflexivity).
      destruct ord as [[|] |]; auto.
    + assert (~ lex_lt x y) by (intros H; apply Hxy in H; discriminate).
      destruct ord as [[|] |]; auto.
Qed.

Lemma in_order_trans (sb : SortBy) (ord : option SortOrder) (a b c : Task) :
  in_order sb ord a b -> in_order sb ord b c -> in_order sb ord a c.
Proof.
  unfold in_order.
  pose proof (sortKey_kind sb a b) as K1. pose proof (sortKey_kind sb b c) as K2.
  destruct (sortKey sb a) as [x | x], (sortKey sb b) as [y | y],
    (sortKey sb c) as [z | z]; try contradiction; cbn [Key_le].
  - destruct ord as [[|] |]; lia.
  - destruct ord as [[|] |]; intros H1 H2 H3.
    + destruct (lex_lt_cotrans _ _ H3 y); auto.
    + destruct (lex_lt_cotrans _ _ H3 y); auto.
    + destruct (lex_lt_cotrans _ _ H3 y); auto.
Qed.

Lemma Key_eqb_eq (a b : Key) : Key_eqb a b = true -> a = b.
Proof.
  destruct a, b; cbn [Key_eqb]; try discriminate.
  - intros H. apply Z.eqb_eq in H. now subst.
  - intros H. apply String.eqb_eq in H. now subst.
Qed.

Lemma in_order_same_key (sb : SortBy) (ord : option SortOrder) (a b : Task) :
  sortKey sb a = sortKey sb b -> in_order sb ord a b.
Proof.
  unfold in_order. intros ->.
  destruct (sortKey sb b) as [x | x]; cbn [Key_le].
  - destruct ord as [[|] |]; lia.
  - destruct ord as [[|] |]; apply lex_lt_irrefl.
Qed.

End OrderFacts.

(* ================================================================== *)
(** * The query: ordering of the listing *)

Section QueryFacts.
Import JS Types Store TaskService Spec Samples.
Local Open Scope string_scope.
Local Open Scope Z_scope.

(** C7 (as stated): a record without due date is listed before a record
    due after the year 9999, so a missing due date does not sort as
    infinitely late. *)
Lemma missing_due_date_is_not_latest :
  fst (getTasks (Some (mkFilters None None (Some ByDueDate) (Some Asc)))
         lease_store)
  = Ok [undated; due_year_10000]
  /\ dueDate undated = None
  /\ dueDate due_year_10000 = Some (TimeValue 253402300800000)
  /\ ~ StronglySorted due_le_infinitely_late [undated; due_year_10000].
Proof.
  split; [vm_compute; reflexivity |]. split; [reflexivity |].
  split; [reflexivity |].
  intros H. inversion H as [| ? ? _ Hall]; subst.
  inversion Hall as [| ? ? Hle _]; subst. exact Hle.
Qed.

(** C7 (amended).  With [sortBy] present and the dates used as keys
    valid, the listing is a rearrangement of the filtered records, ordered
    by the chosen key (a missing due date counting as
    9999-12-31T00:00:00Z, titles compared in lower case, code unit by
    code unit), ascending unless the order is [desc], and stable: the
    records with one and the same key stay in their original relative
    order.  Without [sortBy] the filtered records are returned in their
    stored order.  Titles banana, Apple, cherry come out as Apple,
    banana, cherry. *)
Theorem getTasks_ordering :
  (forall (ls : LocalStorage) (f : TaskFilters),
     let input := applyFilters (Some f) (stored ls) in
     exists result,
       getTasks (Some f) ls = (Ok result, ls)
       /\ match flt_sortBy f with
          | None => result = input
          | Some sb =>
              Forall (key_valid sb) input ->
              Permutation input result
              /\ StronglySorted (in_order sb (flt_sortOrder f)) result
              /\ forall k,
                   filter (fun t => Key_eqb (sortKey sb t) k) result
                   = filter (fun t => Key_eqb (sortKey sb t) k) input
          end)
  /\ (forall ls : LocalStorage, getTasks None ls = (Ok (stored ls), ls))
  /\ sortKey ByDueDate undated = KNum farFutureMs
  /\ farFuture = TimeValue farFutureMs
  /\ toISOString farFutureMs = "9999-12-31T00:00:00.000Z"
  /\ option_map (map title)
       (match fst (getTasks (Some (mkFilters None None (Some ByTitle) (Some Asc)))
                     fruit_store) with
        | Ok l => Some l
        | Err _ => None
        end)
     = Some ["Apple"; "banana"; "cherry"].
Proof.
  split; [| split; [intros ls; apply getTasks_value |];
              repeat split; vm_compute; reflexivity].
  intros ls f input. rewrite getTasks_value. eexists. split; [reflexivity |].
  fold input. unfold applySort.
  destruct (flt_sortBy f) as [sb |]; [| reflexivity].
  intros Hv. split; [apply sort_perm |]. split.
  - apply (sort_sorted _ (key_valid sb)); auto.
    + intros a b Ha Hb. apply compareTasks_in_order; assumption.
    + intros a b _ _. apply in_order_total.
    + intros a b c _ _ _. apply in_order_trans.
  - intros k.
    apply (sort_filter _ (key_valid sb) (in_order sb (flt_sortOrder f))); auto.
    + intros a b Ha Hb. apply compareTasks_in_order; assumption.
    + intros a b _ _ Sa Sb. apply in_order_same_key.
      apply Key_eqb_eq in Sa, Sb. congruence.
Qed.

Lemma getTasks_ordering_witness :
  let f := mkFilters None None (Some ByDueDate) (Some Desc) in
  let input := applyFilters (Some f) (stored lease_store) in
  exists result,
    getTasks (Some f) lease_store = (Ok result, lease_store)
    /\ Permutation input result
    /\ StronglySorted (in_order ByDueDate (Some Desc)) result
    /\ forall k,
         filter (fun t => Key_eqb (sortKey ByDueDate t) k) result
         = filter (fun t => Key_eqb (sortKey ByDueDate t) k) input.
Proof.
  destruct (proj1 getTasks_ordering lease_store
              (mkFilters None None (Some ByDueDate) (Some Desc)))
    as (result & E & H).
  exists result. split; [exact E |]. apply H.
  assert (Ei : applyFilters
                 (Some (mkFilters None None (Some ByDueDate) (Some Desc)))
                 (stored lease_store) = [undated; due_year_10000])
    by (vm_compute; reflexivity).
  rewrite Ei. repeat constructor; discriminate.
Defined.

End QueryFacts.

(* ================================================================== *)
(** * The hook: when the visible collection changes *)

Section HookFacts.
Import JS Types Store Spec Samples.
Local Open Scope string_scope.
Local Open Scope Z_scope.

(** The runs with recorded effects end as the actions do. *)
Lemma runs_agree (w : UseTasks.World) :
  (forall f, fst (UseTasks.loadTasks_run f w) = UseTasks.loadTasks f w)
  /\ (forall env request,
        fst (UseTasks.createTask_run env request w)
        = UseTasks.createTask env request w)
  /\ (forall now request,
        fst (UseTasks.updateTask_run now request w)
        = UseTasks.updateTask now request w)
  /\ (forall id',
        fst (UseTasks.deleteTask_run id' w) = UseTasks.deleteTask id' w)
  /\ (forall now id',
        fst (UseTasks.toggleTaskCompletion_run now id' w)
        = UseTasks.toggleTaskCompletion now id' w).
Proof.
  destruct w as [h ls].
  assert (Hl : forall f h1 ls1,
             fst (UseTasks.loadTasks_run f (h1, ls1))
             = UseTasks.loadTasks f (h1, ls1)).
  { intros f h1 ls1. unfold UseTasks.loadTasks_run, UseTasks.loadTasks.
    destruct (TaskService.getTasks (Some f) ls1) as [[l | e] ls']; reflexivity. }
  split; [intros f; apply Hl |]. split; [| split; [| split]].
  - intros env request. unfold UseTasks.createTask_run, UseTasks.createTask.
    destruct (TaskService.createTask env request ls) as [[t | e] ls'];
      reflexivity.
  - intros now request. unfold UseTasks.updateTask_run, UseTasks.updateTask.
    destruct (TaskService.updateTask now request ls) as [[t | e] ls'];
      reflexivity.
  - intros id'. unfold UseTasks.deleteTask_run, UseTasks.deleteTask.
    destruct (TaskService.deleteTask id' ls) as [[[] | e] ls']; [reflexivity |].
    match goal with
    | |- context [UseTasks.loadTasks_run ?f ?w] =>
        pose proof (Hl f (fst w) (snd w)) as E; cbn [fst snd] in E;
        destruct (UseTasks.loadTasks_run f w) as [[h2 ls2] eff]
    end.
    cbn [fst] in E. unfold UseTasks.deleteTask_before_await.
    rewrite <- E. reflexivity.
  - intros now id'.
    unfold UseTasks.toggleTaskCompletion_run, UseTasks.toggleTaskCompletion.
    destruct (TaskService.toggleTaskCompletion now id' ls) as [[t | e] ls'];
      reflexivity.
Qed.

(** C2 (the code at the failing input).  In a create, an update and a
    toggle the hook awaits the repository first and changes the visible
    collection only after the call has settled, and only if it was
    fulfilled; the delete is the one action that removes the record before
    it makes the call.  No copy of the earlier visible collection is kept:
    a delete that fails is followed by a second call that reads the
    listing again, and that listing replaces the visible collection.
    Creating 'Buy milk' with one record visible: the call, its fulfilment,
    and only then the insert.  The recorded runs end in the result and the
    state of the hook's actions. *)
Theorem visible_collection_changes_after_the_call :
  (forall w env now request change id',
     fst (UseTasks.createTask_run env request w)
     = UseTasks.createTask env request w
     /\ fst (UseTasks.updateTask_run now change w)
        = UseTasks.updateTask now change w
     /\ fst (UseTasks.deleteTask_run id' w) = UseTasks.deleteTask id' w
     /\ fst (UseTasks.toggleTaskCompletion_run now id' w)
        = UseTasks.toggleTaskCompletion now id' w)
  /\ (forall env request w,
     exists ok later,
       snd (UseTasks.createTask_run env request w)
       = UseTasks.Await (UseTasks.CallCreate request)
         :: UseTasks.Settled ok :: later
       /\ UseTasks.changes_before_settling
            (snd (UseTasks.createTask_run env request w)) = false
       /\ (ok = false -> later = []))
  /\ (forall now request w,
        exists ok later,
          snd (UseTasks.updateTask_run now request w)
          = UseTasks.Await (UseTasks.CallUpdate request)
            :: UseTasks.Settled ok :: later
          /\ UseTasks.changes_before_settling
               (snd (UseTasks.updateTask_run now request w)) = false
          /\ (ok = false -> later = []))
  /\ (forall now id' w,
        exists ok later,
          snd (UseTasks.toggleTaskCompletion_run now id' w)
          = UseTasks.Await (UseTasks.CallToggle id')
            :: UseTasks.Settled ok :: later
          /\ UseTasks.changes_before_settling
               (snd (UseTasks.toggleTaskCompletion_run now id' w)) = false
          /\ (ok = false -> later = []))
  /\ (forall id' h ls,
        exists ok later,
          snd (UseTasks.deleteTask_run id' (h, ls))
          = UseTasks.SetTasks
              (filter (fun task => negb (id task =? id')%string)
                 (UseTasks.tasks h))
            :: UseTasks.Await (UseTasks.CallDelete id')
            :: UseTasks.Settled ok :: later
          /\ UseTasks.changes_before_settling
               (snd (UseTasks.deleteTask_run id' (h, ls))) = true
          /\ (ok = true -> later = [])
          /\ (ok = false ->
              exists reloaded,
                later = [UseTasks.Await
                           (UseTasks.CallGetTasks (UseTasks.filters h));
                         UseTasks.Settled true; UseTasks.SetTasks reloaded]
                /\ fst (TaskService.getTasks (Some (UseTasks.filters h))
                          (snd (snd (fst (UseTasks.deleteTask_run id' (h, ls))))))
                   = Ok reloaded))
  /\ (let h := UseTasks.mkHook [sample_task] noFilters false None [] in
      let request := mkCreate "Buy milk" None None in
      let created := TaskService.newTask env3 request "u1" in
      UseTasks.createTask_run env3 request (h, two_tasks_store (fun _ => true))
      = (UseTasks.createTask env3 request (h, two_tasks_store (fun _ => true)),
         [UseTasks.Await (UseTasks.CallCreate request); UseTasks.Settled true;
          UseTasks.SetTasks [created; sample_task]]))
  /\ (let h := UseTasks.mkHook [sample_note] noFilters false None [] in
      let w := (h, two_tasks_store (fun _ => false)) in
      UseTasks.deleteTask_run (id sample_note) w
      = (UseTasks.deleteTask (id sample_note) w,
         [UseTasks.SetTasks [];
          UseTasks.Await (UseTasks.CallDelete (id sample_note));
          UseTasks.Settled false;
          UseTasks.Await (UseTasks.CallGetTasks noFilters);
          UseTasks.Settled true;
          UseTasks.SetTasks [sample_task; sample_note]])).
Proof.
  split; [| split; [| split; [| split; [| split; [| split]]]]].
  - intros w env now request change id'.
    destruct (runs_agree w) as (_ & Hc & Hu & Hd & Ht). auto.
  - intros env request [h ls]. unfold UseTasks.createTask_run.
    destruct (TaskService.createTask env request ls) as [[t | e] ls'];
      do 2 eexists; (split; [reflexivity |]); split;
      try reflexivity; discriminate.
  - intros now request [h ls]. unfold UseTasks.updateTask_run.
    destruct (TaskService.updateTask now request ls) as [[t | e] ls'];
      do 2 eexists; (split; [reflexivity |]); split;
      try reflexivity; discriminate.
  - intros now id' [h ls]. unfold UseTasks.toggleTaskCompletion_run.
    destruct (TaskService.toggleTaskCompletion now id' ls) as [[t | e] ls'];
      do 2 eexists; (split; [reflexivity |]); split;
      try reflexivity; discriminate.
  - intros id' h ls. unfold UseTasks.deleteTask_run.
    destruct (TaskService.deleteTask id' ls) as [[[] | e] ls'].
    + do 2 eexists. split; [reflexivity |]. split; [reflexivity |].
      split; [reflexivity | discriminate].
    + unfold UseTasks.loadTasks_run.
      cbn [UseTasks.filters UseTasks.setError UseTasks.setTasks
           UseTasks.setIsLoading].
      rewrite getTasks_value.
      do 2 eexists. split; [reflexivity |]. split; [reflexivity |].
      split; [discriminate |]. intros _.
      eexists. split; [reflexivity |].
      cbn [fst snd]. rewrite getTasks_value. reflexivity.
  - vm_compute. reflexivity.
  - vm_compute. reflexivity.
Qed.

(** After a failed delete the visible collection is the reloaded listing,
    not the collection shown before the action. *)
Example failed_delete_reloads :
  let h := UseTasks.mkHook [sample_note] noFilters false None [] in
  exists h' ls',
    UseTasks.deleteTask (id sample_note) (h, two_tasks_store (fun _ => false))
    = (false, (h', ls'))
    /\ UseTasks.tasks h' = [sample_task; sample_note].
Proof. do 2 eexists. split; vm_compute; reflexivity. Qed.

End HookFacts.

(* ================================================================== *)
(** * More on the repository *)

Section RepositoryFacts.
Import JS Types Store TaskService Spec Samples Props.
Local Open Scope string_scope.
Local Open Scope Z_scope.

Lemma readback_id (t : Task) : id (readback t) = id t.
Proof. reflexivity. Qed.

Lemma readback_status (t : Task) : status (readback t) = status t.
Proof. reflexivity. Qed.

Lemma stored_after_write (tasks : list Task) (u : option string)
  (acc : StoredText -> bool) :
  stored (mkStorage (Some (JSON_stringify tasks)) u acc) = map readback tasks.
Proof.
  unfold stored, JSON_stringify. cbn [todo_tasks]. apply map_map.
Qed.

Lemma readback_well_dated (t : Task) :
  well_dated t = true -> readback t = t.
Proof. apply revive_task_to_json. Qed.

(** X1.  A create that the store accepts returns an OPEN record with the
    generated id, the two clock readings and the current owner, and
    appends it: when its dates are valid, the unfiltered listing read
    afterwards is the earlier listing (as re-read) followed by exactly the
    returned record. *)
Theorem created_record_is_listed_last env request (ls : LocalStorage) :
  accepts ls (JSON_stringify (stored ls ++ [newTask env request (owner ls)]))
  = true ->
  well_dated (newTask env request (owner ls)) = true ->
  exists task ls',
    createTask env request ls = (Ok task, ls')
    /\ status task = OPEN
    /\ id task = generateId (id_now env) (id_rnd env)
    /\ createdAt task = TimeValue (created_now env)
    /\ updatedAt task = TimeValue (updated_now env)
    /\ userId task = Some (owner ls)
    /\ dueDate task = req_dueDate request
    /\ fst (getTasks None ls') = Ok (map readback (stored ls) ++ [task])%list
    /\ map id (stored ls') = (map id (stored ls) ++ [id task])%list.
Proof.
  intros Ha Hd. do 2 eexists. split; [apply createTask_accepted, Ha |].
  repeat (split; [reflexivity |]).
  rewrite getTasks_value, stored_after_write, map_app.
  cbn [map fst]. rewrite (readback_well_dated _ Hd).
  split; [reflexivity |].
  rewrite !map_app, map_map. cbn [map]. f_equal.
Qed.

Lemma created_record_is_listed_last_witness :
  exists task ls',
    createTask env3 (mkCreate " Water the plants " (Some " balcony ")
                       (Some (TimeValue 1730570400000)))
      (two_tasks_store (fun _ => true)) = (Ok task, ls')
    /\ status task = OPEN
    /\ id task = generateId (id_now env3) (id_rnd env3)
    /\ createdAt task = TimeValue (created_now env3)
    /\ updatedAt task = TimeValue (updated_now env3)
    /\ userId task = Some (owner (two_tasks_store (fun _ => true)))
    /\ dueDate task = Some (TimeValue 1730570400000)
    /\ fst (getTasks None ls')
       = Ok (map readback (stored (two_tasks_store (fun _ => true)))
             ++ [task])%list
    /\ map id (stored ls')
       = (map id (stored (two_tasks_store (fun _ => true))) ++ [id task])%list.
Proof.
  exact (created_record_is_listed_last env3
           (mkCreate " Water the plants " (Some " balcony ")
              (Some (TimeValue 1730570400000)))
           (two_tasks_store (fun _ => true)) eq_refl eq_refl).
Defined.

(** X2.  A create whose write the store rejects fails with the generic
    error and leaves the store as it was; the hook then returns no record,
    keeps the visible collection, records the error message and shows one
    destructive toast. *)
Theorem create_write_failure_is_atomic env request
  (h : UseTasks.HookState) (ls : LocalStorage) :
  accepts ls (JSON_stringify (stored ls ++ [newTask env request (owner ls)]))
  = false ->
  createTask env request ls = (Err (Error "Failed to create task"), ls)
  /\ exists h',
       UseTasks.createTask env request (h, ls) = (None, (h', ls))
       /\ UseTasks.tasks h' = UseTasks.tasks h
       /\ UseTasks.error h' = Some "Failed to create task"
       /\ UseTasks.toasts h'
          = (UseTasks.toasts h
             ++ [UseTasks.mkToast "Error Creating Task"
                   "Failed to create task" true])%list.
Proof.
  intros Ha. pose proof (createTask_rejected env request ls Ha) as Hr.
  split; [exact Hr |]. unfold UseTasks.createTask. rewrite Hr.
  eexists. repeat split.
Qed.

Lemma create_write_failure_is_atomic_witness :
  let h := UseTasks.mkHook [sample_task] noFilters false None [] in
  let ls := two_tasks_store (fun _ => false) in
  let request := mkCreate "Buy milk" None None in
  createTask env3 request ls = (Err (Error "Failed to create task"), ls)
  /\ exists h',
       UseTasks.createTask env3 request (h, ls) = (None, (h', ls))
       /\ UseTasks.tasks h' = UseTasks.tasks h
       /\ UseTasks.error h' = Some "Failed to create task"
       /\ UseTasks.toasts h'
          = (UseTasks.toasts h
             ++ [UseTasks.mkToast "Error Creating Task"
                   "Failed to create task" true])%list.
Proof.
  exact (create_write_failure_is_atomic env3 (mkCreate "Buy milk" None None)
           (UseTasks.mkHook [sample_task] noFilters false None [])
           (two_tasks_store (fun _ => false)) eq_refl).
Defined.

Lemma filter_shorter {A} (p : A -> bool) (l : list A) :
  (exists x, In x l /\ p x = false) ->
  (List.length (filter p l) < List.length l)%nat.
Proof.
  intros (x & Hx & Hp). induction l as [| y r IH]; [destruct Hx |].
  cbn [filter]. pose proof (filter_length_le p r) as Hle.
  destruct Hx as [-> | Hx].
  - rewrite Hp. cbn [List.length]. lia.
  - specialize (IH Hx). destruct (p y); cbn [List.length]; lia.
Qed.

Lemma deleteTask_present (id' : string) (ls : LocalStorage) :
  (exists task, In task (stored ls) /\ id task = id') ->
  deleteTask id' ls
  = try_catch
      (saveTasksToStorage
         (filter (fun task => negb (id task =? id')%string) (stored ls)))
      (fun _ => throw (Error "Failed to delete task")) ls.
Proof.
  intros (task & Hin & Hid). unfold deleteTask, try_catch, deleteTask_try, bind.
  rewrite load_stored.
  assert (Hlt : (List.length
                   (filter (fun task => negb (id task =? id')%string)
                      (stored ls)) < List.length (stored ls))%nat).
  { apply filter_shorter. exists task. split; [exact Hin |].
    rewrite Hid, String.eqb_refl. reflexivity. }
  apply Nat.lt_neq, Nat.eqb_neq in Hlt. rewrite Hlt. reflexivity.
Qed.

Lemma deleteTask_absent (id' : string) (ls : LocalStorage) :
  (forall task, In task (stored ls) -> id task <> id') ->
  deleteTask id' ls = (Err (Error "Failed to delete task"), ls).
Proof.
  intros Habs. unfold deleteTask, try_catch, deleteTask_try, bind.
  rewrite load_stored, filter_all.
  - rewrite Nat.eqb_refl. reflexivity.
  - intros x Hx. apply negb_true_iff, String.eqb_neq, Habs, Hx.
Qed.

Lemma map_id_removeById (id' : string) (l : list Task) :
  map id (filter (fun task => negb (id task =? id')%string) l)
  = filter (fun i => negb (i =? id')%string) (map id l).
Proof.
  induction l as [| t r IH]; [reflexivity |]. cbn [filter map].
  destruct (id t =? id')%string; cbn [negb map]; now rewrite IH.
Qed.

(** X3.  Deleting an id that is stored, with a store that accepts the
    write, succeeds and removes every record carrying that id: the ids
    stored afterwards are the earlier ones, in the earlier order, without
    that id, and there are fewer of them. *)
Theorem delete_removes_the_id (id' : string) (ls : LocalStorage) :
  (exists task, In task (stored ls) /\ id task = id') ->
  accepts ls
    (JSON_stringify
       (filter (fun task => negb (id task =? id')%string) (stored ls)))
  = true ->
  exists ls',
    deleteTask id' ls = (Ok tt, ls')
    /\ todo_user_id ls' = todo_user_id ls
    /\ map id (stored ls')
       = filter (fun i => negb (i =? id')%string) (map id (stored ls))
    /\ ~ In id' (map id (stored ls'))
    /\ (List.length (stored ls') < List.length (stored ls))%nat.
Proof.
  intros Hex Ha. rewrite (deleteTask_present id' ls Hex).
  unfold try_catch. rewrite save_accepted by exact Ha.
  eexists. split; [reflexivity |]. split; [reflexivity |].
  rewrite stored_after_write, map_map.
  assert (E : map (fun t => id (readback t))
                (filter (fun task => negb (id task =? id')%string) (stored ls))
              = filter (fun i => negb (i =? id')%string) (map id (stored ls))).
  { rewrite <- map_id_removeById. apply map_ext. reflexivity. }
  rewrite E. split; [reflexivity |]. split.
  - intros Hin. apply filter_In in Hin as [_ Hn].
    rewrite String.eqb_refl in Hn. discriminate.
  - rewrite length_map.
    apply filter_shorter. destruct Hex as (task & Hin & Hid).
    exists task. split; [exact Hin |].
    rewrite Hid, String.eqb_refl. reflexivity.
Qed.

Lemma delete_removes_the_id_witness :
  exists ls',
    deleteTask (id sample_task) (two_tasks_store (fun _ => true)) = (Ok tt, ls')
    /\ todo_user_id ls' = todo_user_id (two_tasks_store (fun _ => true))
    /\ map id (stored ls')
       = filter (fun i => negb (i =? id sample_task)%string)
           (map id (stored (two_tasks_store (fun _ => true))))
    /\ ~ In (id sample_task) (map id (stored ls'))
    /\ (List.length (stored ls')
        < List.length (stored (two_tasks_store (fun _ => true))))%nat.
Proof.
  apply (delete_removes_the_id (id sample_task)
           (two_tasks_store (fun _ => true))).
  - exists sample_task. split; [| reflexivity].
    left. vm_compute. reflexivity.
  - reflexivity.
Defined.

(** X4.  A second delete of the same id, after one that succeeded, fails
    with the generic error and leaves the store as the first delete left
    it. *)
Theorem second_delete_fails (id' : string) (ls : LocalStorage) :
  (exists task, In task (stored ls) /\ id task = id') ->
  accepts ls
    (JSON_stringify
       (filter (fun task => negb (id task =? id')%string) (stored ls)))
  = true ->
  exists ls',
    deleteTask id' ls = (Ok tt, ls')
    /\ deleteTask id' ls' = (Err (Error "Failed to delete task"), ls').
Proof.
  intros Hex Ha. rewrite (deleteTask_present id' ls Hex).
  unfold try_catch. rewrite save_accepted by exact Ha.
  eexists. split; [reflexivity |].
  apply deleteTask_absent. intros task Hin Hid.
  rewrite stored_after_write in Hin. apply in_map_iff in Hin as (t & <- & Ht).
  apply filter_In in Ht as [_ Hn]. rewrite readback_id in Hid.
  rewrite Hid, String.eqb_refl in Hn. discriminate.
Qed.

Lemma second_delete_fails_witness :
  exists ls',
    deleteTask (id sample_note) (two_tasks_store (fun _ => true)) = (Ok tt, ls')
    /\ deleteTask (id sample_note) ls'
       = (Err (Error "Failed to delete task"), ls').
Proof.
  apply (second_delete_fails (id sample_note)
           (two_tasks_store (fun _ => true))).
  - exists sample_note. split; [| reflexivity].
    right. left. vm_compute. reflexivity.
  - reflexivity.
Defined.

(** X5.  When the store rejects the write of a delete, the call fails with
    the generic error and every record, the one to delete included, is
    still stored. *)
Theorem delete_write_failure_is_atomic (id' : string) (ls : LocalStorage) :
  (exists task, In task (stored ls) /\ id task = id') ->
  accepts ls
    (JSON_stringify
       (filter (fun task => negb (id task =? id')%string) (stored ls)))
  = false ->
  deleteTask id' ls = (Err (Error "Failed to delete task"), ls).
Proof.
  intros Hex Ha. rewrite (deleteTask_present id' ls Hex).
  unfold try_catch. rewrite save_rejected by exact Ha. reflexivity.
Qed.

Lemma delete_write_failure_is_atomic_witness :
  deleteTask (id sample_note) (two_tasks_store (fun _ => false))
  = (Err (Error "Failed to delete task"), two_tasks_store (fun _ => false)).
Proof.
  apply (delete_write_failure_is_atomic (id sample_note)
           (two_tasks_store (fun _ => false))).
  - exists sample_note. split; [| reflexivity].
    right. left. vm_compute. reflexivity.
  - reflexivity.
Defined.

Lemma map_assign {A B} (f : A -> B) (i : nat) (x : A) (l : list A) :
  map f (assign i x l) = assign i (f x) (map f l).
Proof.
  revert i. induction l as [| y r IH]; intros [| k]; cbn [assign map];
    try reflexivity.
  now rewrite IH.
Qed.

Lemma assign_same {A} (i : nat) (x : A) (l : list A) :
  nth_error l i = Some x -> assign i x l = l.
Proof.
  revert i. induction l as [| y r IH]; intros [| k]; cbn [assign nth_error];
    try discriminate.
  - now intros [= ->].
  - intros H. now rewrite IH.
Qed.

Lemma nth_error_assign_other {A} (i j : nat) (x : A) (l : list A) :
  j <> i -> nth_error (assign i x l) j = nth_error l j.
Proof.
  revert i j. induction l as [| y r IH]; intros [| i] [| j] H;
    cbn [assign nth_error]; try reflexivity; try contradiction.
  apply IH. congruence.
Qed.

Lemma nth_error_assign_same {A} (i : nat) (x y : A) (l : list A) :
  nth_error l i = Some y -> nth_error (assign i x l) i = Some x.
Proof.
  revert i. induction l as [| z r IH]; intros [| i]; cbn [assign nth_error];
    try discriminate; auto.
Qed.

Lemma length_assign {A} (i : nat) (x : A) (l : list A) :
  List.length (assign i x l) = List.length l.
Proof.
  revert i. induction l as [| y r IH]; intros [| k]; cbn [assign List.length];
    try reflexivity.
  now rewrite IH.
Qed.

Lemma findIndex_by_id (x : string) (l l' : list Task) :
  map id l = map id l' ->
  findIndex (fun task => id task =? x)%string l
  = findIndex (fun task => id task =? x)%string l'.
Proof.
  revert l'. induction l as [| t r IH]; intros [| t' r']; cbn [map];
    try discriminate; [reflexivity |].
  intros [= Hid Hr]. cbn [findIndex]. rewrite Hid, (IH r' Hr). reflexivity.
Qed.

Lemma found_has_id (request : UpdateTaskRequest) (l : list Task) i found :
  findIndex (fun task => id task =? upd_id request)%string l = Some i ->
  nth_error l i = Some found ->
  id found = upd_id request.
Proof.
  intros Hi Hn. destruct (findIndex_nth _ _ _ Hi) as (x & Hx & Hp & _).
  rewrite Hn in Hx. injection Hx as <-. apply String.eqb_eq, Hp.
Qed.

(** X6.  An update that finds the id and whose write is accepted returns
    the stored record with the id, the creation date and the owner kept and
    the modification date set to the clock reading; a title or status
    absent from the request is kept, and a description or due date whose
    key is present without a value is removed.  In the store the ids stay
    the same in the same order, and every record at another position is
    written as before. *)
Theorem update_changes_one_record now request (ls : LocalStorage) i found :
  findIndex (fun task => id task =? upd_id request)%string (stored ls) = Some i ->
  nth_error (stored ls) i = Some found ->
  accepts ls (JSON_stringify (assign i (merge found request now) (stored ls)))
  = true ->
  exists task ls' items,
    updateTask now request ls = (Ok task, ls')
    /\ id task = id found
    /\ createdAt task = createdAt found
    /\ userId task = userId found
    /\ updatedAt task = TimeValue now
    /\ (upd_title request = None -> title task = title found)
    /\ (upd_status request = None -> status task = status found)
    /\ (upd_description request = Omitted ->
        description task = description found)
    /\ (upd_description request = Given None -> description task = None)
    /\ (upd_dueDate request = Omitted -> dueDate task = dueDate found)
    /\ (upd_dueDate request = Given None -> dueDate task = None)
    /\ todo_tasks ls' = Some (TaskArrayText items)
    /\ map j_id items = map id (stored ls)
    /\ nth_error items i = Some (task_to_json task)
    /\ forall k, k <> i ->
         nth_error items k = nth_error (map task_to_json (stored ls)) k.
Proof.
  intros Hi Hn Ha.
  pose proof (found_has_id request (stored ls) i found Hi Hn) as Hid.
  do 3 eexists. split.
  { apply (updateTask_accepted now request ls i found Hi Hn Ha). }
  cbn [todo_tasks]. unfold merge at 1 2 3 4 5 6 7 8 9 10.
  cbn [id createdAt userId updatedAt title status description dueDate].
  split; [now symmetry |]. do 3 (split; [reflexivity |]).
  split; [now intros -> |]. split; [now intros -> |].
  split; [now intros -> |]. split; [now intros -> |].
  split; [now intros -> |]. split; [now intros -> |].
  split; [reflexivity |]. split.
  { rewrite map_map.
    change (map (fun x => j_id (task_to_json x))) with (map id).
    rewrite map_assign. apply assign_same.
    rewrite nth_error_map, Hn. cbn [option_map merge id]. now rewrite Hid. }
  split.
  { rewrite map_assign. apply nth_error_assign_same with (task_to_json found).
    rewrite nth_error_map, Hn. reflexivity. }
  intros k Hk. rewrite map_assign. now apply nth_error_assign_other.
Qed.

Lemma update_changes_one_record_witness :
  let request := mkUpdate (id sample_note) (Some "Buy oat milk") (Given None)
                   (Given (Some (TimeValue 1730570400000))) None in
  let ls := two_tasks_store (fun _ => true) in
  exists task ls' items,
    updateTask 1730484009999 request ls = (Ok task, ls')
    /\ id task = id sample_note
    /\ createdAt task = createdAt sample_note
    /\ userId task = userId sample_note
    /\ updatedAt task = TimeValue 1730484009999
    /\ (upd_title request = None -> title task = title sample_note)
    /\ (upd_status request = None -> status task = status sample_note)
    /\ (upd_description request = Omitted ->
        description task = description sample_note)
    /\ (upd_description request = Given None -> description task = None)
    /\ (upd_dueDate request = Omitted -> dueDate task = dueDate sample_note)
    /\ (upd_dueDate request = Given None -> dueDate task = None)
    /\ todo_tasks ls' = Some (TaskArrayText items)
    /\ map j_id items = map id (stored ls)
    /\ nth_error items 1 = Some (task_to_json task)
    /\ forall k, k <> 1%nat ->
         nth_error items k = nth_error (map task_to_json (stored ls)) k.
Proof.
  exact (update_changes_one_record 1730484009999
           (mkUpdate (id sample_note) (Some "Buy oat milk") (Given None)
              (Given (Some (TimeValue 1730570400000))) None)
           (two_tasks_store (fun _ => true)) 1%nat sample_note
           ltac:(vm_compute; reflexivity) ltac:(vm_compute; reflexivity)
           eq_refl).
Defined.

Lemma find_absent (id' : string) (l : list Task) :
  (forall task, In task l -> id task <> id') ->
  find (fun task => id task =? id')%string l = None.
Proof.
  induction l as [| t r IH]; intros H; cbn [find]; [reflexivity |].
  destruct (String.eqb_spec (id t) id') as [E | _].
  - exfalso. apply (H t); [now left | exact E].
  - apply IH. intros x Hx. apply H. now right.
Qed.

Lemma toggle_found now (id' : string) (ls : LocalStorage) i found :
  findIndex (fun task => id task =? id')%string (stored ls) = Some i ->
  nth_error (stored ls) i = Some found ->
  toggleTaskCompletion now id' ls
  = updateTask now
      (mkUpdate id' None Omitted Omitted (Some (flip (status found)))) ls.
Proof.
  intros Hi Hn. destruct (findIndex_nth _ _ _ Hi) as (x & Hx & _ & Hf).
  rewrite Hn in Hx. injection Hx as <-.
  unfold toggleTaskCompletion. unfold bind at 1. unfold try_catch, bind.
  rewrite load_stored, Hf. reflexivity.
Qed.

Lemma toggle_absent now (id' : string) (ls : LocalStorage) :
  (forall task, In task (stored ls) -> id task <> id') ->
  toggleTaskCompletion now id' ls = (Err (Error "Failed to toggle task"), ls).
Proof.
  intros H. unfold toggleTaskCompletion. unfold bind at 1.
  unfold try_catch, bind. rewrite load_stored, (find_absent id' _ H).
  reflexivity.
Qed.

Lemma flip_flip (s : TaskStatus) : flip (flip s) = s.
Proof. now destruct s. Qed.

(** X7.  With a store that has room, toggling a stored record flips its
    status and stamps the modification date with the clock reading, and
    toggling it again gives back the original status; id, title and
    description are those of the stored record throughout. *)
Theorem toggle_twice_restores_status now1 now2 (id' : string)
  (ls : LocalStorage) i found :
  roomy ls ->
  findIndex (fun task => id task =? id')%string (stored ls) = Some i ->
  nth_error (stored ls) i = Some found ->
  exists t1 ls1 t2 ls2,
    toggleTaskCompletion now1 id' ls = (Ok t1, ls1)
    /\ status t1 = flip (status found)
    /\ updatedAt t1 = TimeValue now1
    /\ toggleTaskCompletion now2 id' ls1 = (Ok t2, ls2)
    /\ status t2 = status found
    /\ updatedAt t2 = TimeValue now2
    /\ id t2 = id found /\ title t2 = title found
    /\ description t2 = description found
    /\ map id (stored ls2) = map id (stored ls).
Proof.
  intros Hroom Hi Hn.
  set (r1 := mkUpdate id' None Omitted Omitted (Some (flip (status found)))).
  set (m1 := merge found r1 now1).
  pose proof (found_has_id r1 (stored ls) i found Hi Hn) as Hid.
  assert (Hids : map id (assign i m1 (stored ls)) = map id (stored ls)).
  { rewrite map_assign. apply assign_same.
    rewrite nth_error_map, Hn. cbn [option_map]. now rewrite Hid. }
  set (ls1 := mkStorage (Some (JSON_stringify (assign i m1 (stored ls))))
                (todo_user_id ls) (accepts ls)).
  assert (Hs1 : stored ls1 = map readback (assign i m1 (stored ls)))
    by apply stored_after_write.
  assert (Hids1 : map id (stored ls1) = map id (stored ls)).
  { rewrite Hs1, map_map.
    change (map (fun x => id (readback x))) with (map id). exact Hids. }
  assert (Hi1 : findIndex (fun task => id task =? id')%string (stored ls1)
                = Some i).
  { rewrite (findIndex_by_id id' _ _ Hids1). exact Hi. }
  assert (Hn1 : nth_error (stored ls1) i = Some (readback m1)).
  { rewrite Hs1, map_assign.
    apply nth_error_assign_same with (readback found).
    rewrite nth_error_map, Hn. reflexivity. }
  set (r2 := mkUpdate id' None Omitted Omitted
               (Some (flip (status (readback m1))))).
  set (m2 := merge (readback m1) r2 now2).
  exists m1, ls1, m2.
  exists (mkStorage (Some (JSON_stringify (assign i m2 (stored ls1))))
            (todo_user_id ls1) (accepts ls1)).
  split.
  { rewrite (toggle_found now1 id' ls i found Hi Hn).
    apply (updateTask_accepted now1 r1 ls i found Hi Hn), Hroom. }
  split; [reflexivity |]. split; [reflexivity |]. split.
  { rewrite (toggle_found now2 id' ls1 i (readback m1) Hi1 Hn1).
    apply (updateTask_accepted now2 r2 ls1 i (readback m1) Hi1 Hn1), Hroom. }
  split; [apply flip_flip |]. split; [reflexivity |].
  split; [now symmetry |]. split; [reflexivity |]. split; [reflexivity |].
  rewrite stored_after_write, map_map.
  change (map (fun x => id (readback x))) with (map id).
  rewrite map_assign, assign_same; [exact Hids1 |].
  rewrite nth_error_map, Hn1. reflexivity.
Qed.

Lemma toggle_twice_restores_status_witness :
  exists t1 ls1 t2 ls2,
    toggleTaskCompletion 1730484009999 (id sample_task)
      (two_tasks_store (fun _ => true)) = (Ok t1, ls1)
    /\ status t1 = flip (status sample_task)
    /\ updatedAt t1 = TimeValue 1730484009999
    /\ toggleTaskCompletion 1730484019999 (id sample_task) ls1 = (Ok t2, ls2)
    /\ status t2 = status sample_task
    /\ updatedAt t2 = TimeValue 1730484019999
    /\ id t2 = id sample_task /\ title t2 = title sample_task
    /\ description t2 = description sample_task
    /\ map id (stored ls2) = map id (stored (two_tasks_store (fun _ => true))).
Proof.
  apply (toggle_twice_restores_status 1730484009999 1730484019999
           (id sample_task) (two_tasks_store (fun _ => true)) 0%nat sample_task).
  - intros text. reflexivity.
  - vm_compute. reflexivity.
  - vm_compute. reflexivity.
Defined.

(** X8.  A toggle of an id that is not stored fails with 'Failed to toggle
    task'; a toggle whose write the store rejects fails with 'Failed to
    update task', the error of the update it hands over to.  Either way
    the store is left as it was. *)
Theorem toggle_failures now (id' : string) (ls : LocalStorage) :
  ((forall task, In task (stored ls) -> id task <> id') ->
   toggleTaskCompletion now id' ls
   = (Err (Error "Failed to toggle task"), ls))
  /\ (forall i found,
        findIndex (fun task => id task =? id')%string (stored ls) = Some i ->
        nth_error (stored ls) i = Some found ->
        accepts ls
          (JSON_stringify
             (assign i
                (merge found
                   (mkUpdate id' None Omitted Omitted
                      (Some (flip (status found)))) now)
                (stored ls))) = false ->
        toggleTaskCompletion now id' ls
        = (Err (Error "Failed to update task"), ls)).
Proof.
  split; [apply toggle_absent |].
  intros i found Hi Hn Ha. rewrite (toggle_found now id' ls i found Hi Hn).
  now apply (updateTask_rejected now _ ls i found).
Qed.

Lemma toggle_failures_witness :
  toggleTaskCompletion 7 "task_0_missing00" (two_tasks_store (fun _ => true))
  = (Err (Error "Failed to toggle task"), two_tasks_store (fun _ => true))
  /\ toggleTaskCompletion 7 (id sample_note) (two_tasks_store (fun _ => false))
     = (Err (Error "Failed to update task"), two_tasks_store (fun _ => false)).
Proof.
  split.
  - apply (proj1 (toggle_failures 7 "task_0_missing00"
                    (two_tasks_store (fun _ => true)))).
    intros task Hin.
    assert (E : stored (two_tasks_store (fun _ => true))
                = [sample_task; sample_note]) by (vm_compute; reflexivity).
    rewrite E in Hin.
    destruct Hin as [<- | [<- | []]]; vm_compute; discriminate.
  - apply (proj2 (toggle_failures 7 (id sample_note)
                    (two_tasks_store (fun _ => false))) 1%nat sample_note).
    + vm_compute. reflexivity.
    + vm_compute. reflexivity.
    + reflexivity.
Defined.

End RepositoryFacts.

(* ================================================================== *)
(** * More on the query *)

Section ListingFacts.
Import JS Types Store TaskService Spec Samples Props.
Local Open Scope string_scope.
Local Open Scope Z_scope.

Lemma prefix_iff (p s : string) :
  prefix p s = true <-> exists post, s = p ++ post.
Proof.
  revert s. induction p as [| a p IH]; intros s.
  - split; [intros _; now exists s | intros _; now destruct s].
  - destruct s as [| b s]; cbn [prefix].
    + split; [discriminate | intros (post & H); discriminate H].
    + destruct (ascii_dec a b) as [<- | Hne].
      * rewrite IH. split; intros (post & H); exists post.
        -- cbn. now rewrite H.
        -- cbn in H. now injection H.
      * split; [discriminate |].
        intros (post & H). cbn in H. injection H as H _. congruence.
Qed.

Lemma includes_iff (s sub : string) :
  includes s sub = true <-> occurs_in sub s.
Proof.
  unfold occurs_in. split.
  - induction s as [| c r IH]; cbn [includes]; rewrite orb_true_iff.
    + intros [H | H]; [| discriminate].
      apply prefix_iff in H as (post & H). now exists "", post.
    + intros [H | H].
      * apply prefix_iff in H as (post & H). now exists "", post.
      * destruct (IH H) as (pre & post & E).
        exists (String c pre), post. cbn. now rewrite E.
  - intros (pre & post & E). revert s E.
    induction pre as [| c pre IH]; intros s E.
    + cbn in E. destruct s; cbn [includes]; apply orb_true_iff; left;
        apply prefix_iff; now exists post.
    + cbn in E. subst s. cbn [includes]. apply orb_true_iff. right.
      now apply IH.
Qed.

Lemma truthy_iff (s : string) : truthy s = true <-> s <> "".
Proof. destruct s; cbn; split; congruence. Qed.

Lemma matchesSearch_iff (q : string) (t : Task) :
  matchesSearch (toLowerCase q) t = true <->
  (occurs_in (toLowerCase q) (toLowerCase (title t))
   \/ exists d, description t = Some d
                /\ occurs_in (toLowerCase q) (toLowerCase d)).
Proof.
  unfold matchesSearch. rewrite orb_true_iff, includes_iff.
  destruct (description t) as [d |].
  - rewrite includes_iff. split; intros [H | H]; auto.
    + right. now exists d.
    + destruct H as (d' & [= <-] & H). now right.
  - split; intros [H | H]; auto; [discriminate |].
    destruct H as (d' & [=] & _).
Qed.

Lemma applyFilters_In (f : TaskFilters) (l : list Task) (t : Task) :
  In t (applyFilters (Some f) l) <-> In t l /\ matches f t.
Proof.
  unfold applyFilters, applySearch, applyStatus, matches.
  destruct (flt_status f) as [s |], (flt_search f) as [q |];
    try destruct (truthy q) eqn:Eq;
    rewrite ?filter_In, ?matchesSearch_iff, ?status_eqb_iff.
  all: try (apply truthy_iff in Eq).
  all: try (assert (q = "") as -> by (destruct q; [reflexivity | discriminate])).
  all: split;
    [ intros H; repeat split; try tauto;
      try (intros ? [= <-]; tauto); try (intros ? [=]); try congruence
    | intros (Hin & Hs & Hq); repeat split; auto ].
Qed.

Lemma filter_twice {A} (p q : A -> bool) (l : list A) :
  filter q (filter p l) = filter (fun x => p x && q x) l.
Proof.
  induction l as [| x r IH]; [reflexivity |]. cbn [filter].
  destruct (p x); cbn [filter andb]; [destruct (q x) |]; now rewrite IH.
Qed.

Lemma applyFilters_is_filter (f : TaskFilters) (l : list Task) :
  exists p, applyFilters (Some f) l = filter p l.
Proof.
  unfold applyFilters, applySearch, applyStatus.
  assert (Hall : l = filter (fun _ => true) l)
    by (symmetry; apply filter_all; reflexivity).
  destruct (flt_status f) as [s |], (flt_search f) as [q |];
    try destruct (truthy q).
  - eexists. apply filter_twice.
  - eexists. reflexivity.
  - eexists. reflexivity.
  - eexists. reflexivity.
  - eexists. exact Hall.
  - eexists. exact Hall.
Qed.

(** X9.  The listing under given filters never fails and never writes; it
    holds exactly the stored records that have the requested status (when
    one is given) and contain the search text, compared in lower case, in
    their title or description (when a non-empty one is given).  Sorting
    only rearranges them, and without [sortBy] they come in stored
    order. *)
Theorem listing_holds_the_matching_records (ls : LocalStorage)
  (f : TaskFilters) :
  exists result,
    getTasks (Some f) ls = (Ok result, ls)
    /\ (forall t, In t result <-> In t (stored ls) /\ matches f t)
    /\ (exists p, Permutation (filter p (stored ls)) result
                  /\ (flt_sortBy f = None -> result = filter p (stored ls)))
    /\ (List.length result <= List.length (stored ls))%nat.
Proof.
  rewrite getTasks_value. eexists. split; [reflexivity |].
  assert (Hp : Permutation (applyFilters (Some f) (stored ls))
                 (applySort (flt_sortBy f) (flt_sortOrder f)
                    (applyFilters (Some f) (stored ls)))).
  { unfold applySort. destruct (flt_sortBy f); [apply sort_perm | reflexivity]. }
  split; [| split].
  - intros t. rewrite <- applyFilters_In. split; intros H.
    + apply (Permutation_in _ (Permutation_sym Hp)), H.
    + apply (Permutation_in _ Hp), H.
  - destruct (applyFilters_is_filter f (stored ls)) as (p & E).
    exists p. rewrite <- E. split; [exact Hp |].
    intros Hs. unfold applySort. now rewrite Hs.
  - rewrite <- (Permutation_length Hp).
    destruct (applyFilters_is_filter f (stored ls)) as (p & ->).
    apply filter_length_le.
Qed.

Lemma lowerChar_idempotent (c : ascii) : lowerChar (lowerChar c) = lowerChar c.
Proof. destruct c as [[] [] [] [] [] [] [] []]; reflexivity. Qed.

Lemma toLowerCase_idempotent (s : string) :
  toLowerCase (toLowerCase s) = toLowerCase s.
Proof.
  induction s as [| c r IH]; [reflexivity |]. cbn [toLowerCase].
  now rewrite lowerChar_idempotent, IH.
Qed.

Lemma truthy_toLowerCase (s : string) : truthy (toLowerCase s) = truthy s.
Proof. now destruct s. Qed.

(** X10.  The search does not depend on the case of the search text: two
    texts that agree once lower-cased give the same listing, and so does
    a text and its lower-cased form. *)
Theorem search_ignores_case (ls : LocalStorage) (f : TaskFilters) :
  (forall q1 q2,
     toLowerCase q1 = toLowerCase q2 ->
     getTasks (Some (with_search f q1)) ls
     = getTasks (Some (with_search f q2)) ls)
  /\ (forall q,
        getTasks (Some (with_search f (toLowerCase q))) ls
        = getTasks (Some (with_search f q)) ls).
Proof.
  assert (H : forall q1 q2,
             toLowerCase q1 = toLowerCase q2 ->
             getTasks (Some (with_search f q1)) ls
             = getTasks (Some (with_search f q2)) ls).
  { intros q1 q2 E. rewrite !getTasks_value.
    unfold applyFilters, with_search, applySearch.
    cbn [flt_search flt_status flt_sortBy flt_sortOrder].
    rewrite <- (truthy_toLowerCase q1), <- (truthy_toLowerCase q2), E.
    reflexivity. }
  split; [exact H |].
  intros q. apply H, toLowerCase_idempotent.
Qed.

Lemma search_ignores_case_witness :
  getTasks (Some (with_search noFilters "MILK"))
    (two_tasks_store (fun _ => true))
  = getTasks (Some (with_search noFilters "Milk"))
      (two_tasks_store (fun _ => true)).
Proof.
  apply (proj1 (search_ignores_case (two_tasks_store (fun _ => true))
                  noFilters) "MILK" "Milk").
  reflexivity.
Defined.

Lemma trimStart_first (s : string) (c : ascii) :
  first_char (trimStart s) = Some c -> isWhiteSpace c = false.
Proof.
  induction s as [| a r IH]; cbn [trimStart]; [discriminate |].
  destruct (isWhiteSpace a) eqn:E; [exact IH |].
  cbn [first_char]. now intros [= <-].
Qed.

Lemma trimEnd_keeps_first (s : string) :
  trimEnd s = "" \/ first_char (trimEnd s) = first_char s.
Proof.
  destruct s as [| a r]; [now left |]. cbn [trimEnd].
  destruct (trimEnd r); [destruct (isWhiteSpace a) |]; auto.
Qed.

Lemma trimEnd_last (s : string) (c : ascii) :
  last_char (trimEnd s) = Some c -> isWhiteSpace c = false.
Proof.
  induction s as [| a r IH]; cbn [trimEnd]; [discriminate |].
  destruct (trimEnd r) as [| b r'] eqn:E.
  - destruct (isWhiteSpace a) eqn:Ea; cbn [last_char]; [discriminate |].
    now intros [= <-].
  - exact IH.
Qed.

Lemma trimStart_fixed (s : string) :
  (forall c, first_char s = Some c -> isWhiteSpace c = false) ->
  trimStart s = s.
Proof.
  destruct s as [| a r]; [reflexivity |]. intros H. cbn [trimStart].
  now rewrite (H a eq_refl).
Qed.

Lemma trimEnd_idempotent (s : string) : trimEnd (trimEnd s) = trimEnd s.
Proof.
  induction s as [| a r IH]; [reflexivity |]. cbn [trimEnd].
  destruct (trimEnd r) as [| b r'] eqn:E.
  - destruct (isWhiteSpace a) eqn:Ea; [reflexivity |].
    cbn [trimEnd]. now rewrite Ea.
  - cbn [trimEnd]. cbn [trimEnd] in IH.
    change (trimEnd (String b r')) with
      (match trimEnd r' with
       | "" => if isWhiteSpace b then "" else String b ""
       | String x y => String b (String x y)
       end) in IH |- *.
    rewrite IH. reflexivity.
Qed.

Lemma trim_no_outer_space (s : string) : no_outer_space (trim s).
Proof.
  unfold no_outer_space, trim. split.
  - intros c H. destruct (trimEnd_keeps_first (trimStart s)) as [E | E].
    + rewrite E in H. discriminate.
    + rewrite E in H. now apply trimStart_first in H.
  - apply trimEnd_last.
Qed.

Lemma trim_idempotent (s : string) : trim (trim s) = trim s.
Proof.
  unfold trim at 1. rewrite trimStart_fixed.
  - apply trimEnd_idempotent.
  - apply (trim_no_outer_space s).
Qed.

Lemma createTask_ok_inv env request (ls ls' : LocalStorage) (task : Task) :
  createTask env request ls = (Ok task, ls') ->
  task = newTask env request (owner ls).
Proof.
  destruct (accepts ls
              (JSON_stringify (stored ls ++ [newTask env request (owner ls)])))
    eqn:Ha.
  - rewrite (createTask_accepted env request ls Ha). now intros [= <- _].
  - rewrite (createTask_rejected env request ls Ha). discriminate.
Qed.

(** X11.  Whatever a create returns has a trimmed title and a trimmed
    description: neither begins nor ends with white space, and trimming
    them again changes nothing. *)
Theorem created_texts_are_trimmed env request (ls ls' : LocalStorage)
  (task : Task) :
  createTask env request ls = (Ok task, ls') ->
  no_outer_space (title task)
  /\ trim (title task) = title task
  /\ forall d, description task = Some d ->
       no_outer_space d /\ trim d = d.
Proof.
  intros H. apply createTask_ok_inv in H. subst task.
  unfold newTask. cbn [title description].
  split; [apply trim_no_outer_space |]. split; [apply trim_idempotent |].
  intros d Hd. destruct (req_description request) as [d0 |]; [| discriminate].
  cbn in Hd. injection Hd as <-.
  split; [apply trim_no_outer_space | apply trim_idempotent].
Qed.

Lemma created_texts_are_trimmed_witness :
  let task := newTask env3 (mkCreate "  Water the plants " (Some " balcony  ")
                              None) "u1" in
  no_outer_space (title task)
  /\ trim (title task) = title task
  /\ forall d, description task = Some d ->
       no_outer_space d /\ trim d = d.
Proof.
  apply (created_texts_are_trimmed env3
           (mkCreate "  Water the plants " (Some " balcony  ") None)
           (two_tasks_store (fun _ => true))
           (snd (createTask env3
                   (mkCreate "  Water the plants " (Some " balcony  ") None)
                   (two_tasks_store (fun _ => true))))).
  vm_compute. reflexivity.
Defined.

Lemma count_readback (s : TaskStatus) (l : list Task) :
  List.length (filter (fun t => status_eqb (status t) s) (map readback l))
  = List.length (filter (fun t => status_eqb (status t) s) l).
Proof.
  induction l as [| t r IH]; [reflexivity |]. cbn [map filter].
  rewrite readback_status. destruct (status_eqb (status t) s);
    cbn [List.length]; now rewrite IH.
Qed.

Lemma filter_implies_shorter {A} (p q : A -> bool) (l : list A) :
  (forall x, p x = true -> q x = true) ->
  (List.length (filter p l) <= List.length (filter q l))%nat.
Proof.
  intros H. induction l as [| x r IH]; [reflexivity |]. cbn [filter].
  destruct (p x) eqn:Ep.
  - rewrite (H x Ep). cbn [List.length]. lia.
  - destruct (q x); cbn [List.length]; lia.
Qed.

(** X12.  The statistics are bounded by one another on every store:
    the overdue records are among the pending ones, and pending and
    completed records are among all records. *)
Theorem stats_are_nested (now : Z) (ls : LocalStorage) :
  exists s,
    getTaskStats now ls = (Ok s, ls)
    /\ (overdue s <= pending s)%nat
    /\ (pending s <= total s)%nat
    /\ (completed s <= total s)%nat.
Proof.
  unfold getTaskStats, bind. rewrite getTasks_value.
  eexists. split; [reflexivity |]. cbn [total completed pending overdue].
  split; [| split; apply filter_length_le].
  apply filter_implies_shorter. intros t H.
  unfold isOverdue in H. now apply andb_true_iff in H as [H _].
Qed.

(** X13.  A create that the store accepts raises [total] and [pending]
    by one and leaves [completed] as it was. *)
Theorem create_adds_one_pending env request (now : Z) (ls : LocalStorage) :
  accepts ls (JSON_stringify (stored ls ++ [newTask env request (owner ls)]))
  = true ->
  exists s task ls' s',
    getTaskStats now ls = (Ok s, ls)
    /\ createTask env request ls = (Ok task, ls')
    /\ getTaskStats now ls' = (Ok s', ls')
    /\ total s' = S (total s)
    /\ pending s' = S (pending s)
    /\ completed s' = completed s.
Proof.
  intros Ha. do 4 eexists.
  split; [unfold getTaskStats, bind; rewrite getTasks_value; reflexivity |].
  split; [apply createTask_accepted, Ha |].
  split; [unfold getTaskStats, bind; rewrite getTasks_value; reflexivity |].
  cbn [total completed pending]. rewrite stored_after_write.
  rewrite !count_readback, length_map, !filter_app, !length_app.
  cbn [filter newTask status status_eqb List.length]. lia.
Qed.

Lemma create_adds_one_pending_witness :
  exists s task ls' s',
    getTaskStats 1730484600000 (two_tasks_store (fun _ => true)) 
    = (Ok s, two_tasks_store (fun _ => true))
    /\ createTask env3 (mkCreate "Water the plants" None None)
         (two_tasks_store (fun _ => true)) = (Ok task, ls')
    /\ getTaskStats 1730484600000 ls' = (Ok s', ls')
    /\ total s' = S (total s)
    /\ pending s' = S (pending s)
    /\ completed s' = completed s.
Proof.
  exact (create_adds_one_pending env3 (mkCreate "Water the plants" None None)
           1730484600000 (two_tasks_store (fun _ => true)) eq_refl).
Defined.

End ListingFacts.

(* ================================================================== *)
(** * More on the hook *)

Section ReconcilerFacts.
Import JS Types Store Spec Samples Props.
Local Open Scope string_scope.
Local Open Scope Z_scope.

Lemma loadTasks_value (f : TaskFilters) (h : UseTasks.HookState)
  (ls : LocalStorage) :
  exists loaded,
    TaskService.getTasks (Some f) ls = (Ok loaded, ls)
    /\ UseTasks.loadTasks f (h, ls)
       = (UseTasks.mkHook loaded (UseTasks.filters h) false None
            (UseTasks.toasts h), ls).
Proof.
  unfold UseTasks.loadTasks. rewrite getTasks_value.
  eexists. split; reflexivity.
Qed.

(** X14.  Loading the tasks, changing or clearing the filters, and
    refreshing all end with the visible collection equal to the
    repository's listing under the filters the hook then holds, with the
    loading flag down and no error; none of them writes to the store, and
    only the refresh shows a toast. *)
Theorem reload_agrees_with_the_repository (h : UseTasks.HookState)
  (ls : LocalStorage) :
  (forall f,
     let '(h', ls') := UseTasks.loadTasks f (h, ls) in
     ls' = ls
     /\ fst (TaskService.getTasks (Some f) ls) = Ok (UseTasks.tasks h')
     /\ UseTasks.filters h' = UseTasks.filters h
     /\ UseTasks.isLoading h' = false /\ UseTasks.error h' = None
     /\ UseTasks.toasts h' = UseTasks.toasts h)
  /\ (forall p,
        let '(h', ls') := UseTasks.updateFilters p (h, ls) in
        ls' = ls
        /\ UseTasks.filters h'
           = UseTasks.spreadFilters (UseTasks.filters h) p
        /\ matches_canonical h' ls
        /\ UseTasks.isLoading h' = false /\ UseTasks.error h' = None
        /\ UseTasks.toasts h' = UseTasks.toasts h)
  /\ (let '(h', ls') := UseTasks.clearFilters (h, ls) in
      ls' = ls
      /\ UseTasks.filters h' = noFilters
      /\ UseTasks.tasks h' = stored ls
      /\ UseTasks.isLoading h' = false /\ UseTasks.error h' = None
      /\ UseTasks.toasts h' = UseTasks.toasts h)
  /\ (let '(h', ls') := UseTasks.refreshTasks (h, ls) in
      ls' = ls
      /\ UseTasks.filters h' = UseTasks.filters h
      /\ matches_canonical h' ls
      /\ UseTasks.isLoading h' = false /\ UseTasks.error h' = None
      /\ UseTasks.toasts h'
         = (UseTasks.toasts h
            ++ [UseTasks.mkToast "Tasks Refreshed"
                  "Your tasks have been updated" false])%list).
Proof.
  unfold matches_canonical. repeat split.
  - intros f. destruct (loadTasks_value f h ls) as (l & Hg & ->).
    rewrite Hg. repeat split.
  - intros p. unfold UseTasks.updateFilters.
    destruct (loadTasks_value
                (UseTasks.spreadFilters (UseTasks.filters h) p)
                (UseTasks.setFilters
                   (UseTasks.spreadFilters (UseTasks.filters h) p) h) ls)
      as (l & Hg & ->).
    cbn [UseTasks.filters UseTasks.tasks UseTasks.setFilters UseTasks.isLoading
         UseTasks.error UseTasks.toasts].
    rewrite Hg. repeat split.
  - unfold UseTasks.clearFilters.
    destruct (loadTasks_value noFilters (UseTasks.setFilters noFilters h) ls)
      as (l & Hg & ->).
    rewrite getTasks_value in Hg. injection Hg as <-.
    repeat split.
  - unfold UseTasks.refreshTasks. cbn [fst].
    destruct (loadTasks_value (UseTasks.filters h) h ls) as (l & Hg & ->).
    cbn [UseTasks.filters UseTasks.tasks UseTasks.toast UseTasks.isLoading
         UseTasks.error UseTasks.toasts].
    rewrite Hg. repeat split.
Qed.

(** X15.  When the repository rejects a delete, the hook returns [false],
    reloads, and shows one destructive toast carrying the message; the
    reload resets the error it had just recorded, so the hook's error is
    empty afterwards although the action failed, and the visible
    collection is the repository's listing again. *)
Theorem failed_delete_loses_its_error (id' : string)
  (h : UseTasks.HookState) (ls ls' : LocalStorage) (e : Exn) :
  TaskService.deleteTask id' ls = (Err e, ls') ->
  exists h',
    UseTasks.deleteTask id' (h, ls) = (false, (h', ls'))
    /\ UseTasks.error h' = None
    /\ UseTasks.isLoading h' = false
    /\ matches_canonical h' ls'
    /\ UseTasks.toasts h'
       = (UseTasks.toasts h
          ++ [UseTasks.mkToast "Error Deleting Task"
                (UseTasks.messageOr e "Failed to delete task") true])%list.
Proof.
  intros Hd. unfold UseTasks.deleteTask. rewrite Hd.
  destruct (loadTasks_value
              (UseTasks.filters
                 (UseTasks.setError
                    (Some (UseTasks.messageOr e "Failed to delete task"))
                    (UseTasks.deleteTask_before_await id' h)))
              (UseTasks.setError
                 (Some (UseTasks.messageOr e "Failed to delete task"))
                 (UseTasks.deleteTask_before_await id' h)) ls')
    as (l & Hg & ->).
  eexists. split; [reflexivity |].
  unfold matches_canonical.
  cbn [UseTasks.filters UseTasks.tasks UseTasks.toast UseTasks.isLoading
       UseTasks.error UseTasks.toasts UseTasks.setError
       UseTasks.deleteTask_before_await UseTasks.setTasks] in *.
  rewrite Hg. repeat split.
Qed.

Lemma failed_delete_loses_its_error_witness :
  let h := UseTasks.mkHook [sample_task; sample_note] noFilters false None [] in
  let ls := two_tasks_store (fun _ => false) in
  exists h',
    UseTasks.deleteTask (id sample_note) (h, ls) = (false, (h', ls))
    /\ UseTasks.error h' = None
    /\ UseTasks.isLoading h' = false
    /\ matches_canonical h' ls
    /\ UseTasks.toasts h'
       = (UseTasks.toasts h
          ++ [UseTasks.mkToast "Error Deleting Task"
                (UseTasks.messageOr (Error "Failed to delete task")
                   "Failed to delete task") true])%list.
Proof.
  apply (failed_delete_loses_its_error (id sample_note)
           (UseTasks.mkHook [sample_task; sample_note] noFilters false None [])
           (two_tasks_store (fun _ => false))
           (two_tasks_store (fun _ => false))
           (Error "Failed to delete task")).
  vm_compute. reflexivity.
Defined.

Lemma replaceById_ids (u : Task) (l : list Task) :
  map id (UseTasks.replaceById u l) = map id l.
Proof.
  unfold UseTasks.replaceById. rewrite map_map. apply map_ext. intros t.
  destruct (String.eqb_spec (id t) (id u)); congruence.
Qed.

Lemma replaceById_In (u : Task) (l : list Task) (x : Task) :
  In x (UseTasks.replaceById u l) <->
  (x = u /\ exists t, In t l /\ id t = id u) \/ (In x l /\ id x <> id u).
Proof.
  unfold UseTasks.replaceById. rewrite in_map_iff. split.
  - intros (t & E & Ht). destruct (String.eqb_spec (id t) (id u)) as [Hid | Hid].
    + left. split; [now symmetry |]. now exists t.
    + right. subst x. now split.
  - intros [(-> & t & Ht & Hid) | (Hx & Hid)].
    + exists t. split; [| exact Ht].
      apply String.eqb_eq in Hid. now rewrite Hid.
    + exists x. split; [| exact Hx].
      apply String.eqb_neq in Hid. now rewrite Hid.
Qed.

(** X16.  After an update or a toggle that the repository accepted, the
    hook has put the returned record in the place of every visible record
    with its id and left the others alone: the visible ids and their order
    are unchanged, no record is added or dropped even when the returned
    record no longer passes the active filters, and the error is
    cleared. *)
Theorem confirmed_change_replaces_in_place (h : UseTasks.HookState)
  (ls ls' : LocalStorage) (t : Task) :
  (forall now request,
     TaskService.updateTask now request ls = (Ok t, ls') ->
     exists h',
       UseTasks.updateTask now request (h, ls) = (Some t, (h', ls'))
       /\ map id (UseTasks.tasks h') = map id (UseTasks.tasks h)
       /\ (forall x, In x (UseTasks.tasks h') <->
             (x = t /\ exists v, In v (UseTasks.tasks h) /\ id v = id t)
             \/ (In x (UseTasks.tasks h) /\ id x <> id t))
       /\ UseTasks.filters h' = UseTasks.filters h
       /\ UseTasks.error h' = None)
  /\ (forall now id',
        TaskService.toggleTaskCompletion now id' ls = (Ok t, ls') ->
        exists h',
          UseTasks.toggleTaskCompletion now id' (h, ls) = (Some t, (h', ls'))
          /\ map id (UseTasks.tasks h') = map id (UseTasks.tasks h)
          /\ (forall x, In x (UseTasks.tasks h') <->
                (x = t /\ exists v, In v (UseTasks.tasks h) /\ id v = id t)
                \/ (In x (UseTasks.tasks h) /\ id x <> id t))
          /\ UseTasks.filters h' = UseTasks.filters h
          /\ UseTasks.error h' = None).
Proof.
  split.
  - intros now request Hs. unfold UseTasks.updateTask. rewrite Hs.
    eexists. split; [reflexivity |].
    cbn [UseTasks.tasks UseTasks.toast UseTasks.setTasks UseTasks.setError
         UseTasks.updateTask_before_await UseTasks.filters UseTasks.error].
    split; [apply replaceById_ids |]. split; [apply replaceById_In |].
    split; reflexivity.
  - intros now id' Hs. unfold UseTasks.toggleTaskCompletion. rewrite Hs.
    eexists. split; [reflexivity |].
    cbn [UseTasks.tasks UseTasks.toast UseTasks.setTasks UseTasks.setError
         UseTasks.toggleTaskCompletion_before_await UseTasks.filters
         UseTasks.error].
    split; [apply replaceById_ids |]. split; [apply replaceById_In |].
    split; reflexivity.
Qed.

Lemma confirmed_change_replaces_in_place_witness :
  let h := UseTasks.mkHook [sample_task]
             (mkFilters (Some OPEN) None None None) false None [] in
  let ls := two_tasks_store (fun _ => true) in
  (exists t ls' h',
     UseTasks.updateTask 1730484009999
       (mkUpdate (id sample_task) (Some "Pay the rent") Omitted Omitted None)
       (h, ls) = (Some t, (h', ls'))
     /\ title t = "Pay the rent"
     /\ map id (UseTasks.tasks h') = map id (UseTasks.tasks h))
  /\ (exists t ls' h',
        UseTasks.toggleTaskCompletion 1730484009999 (id sample_task) (h, ls)
        = (Some t, (h', ls'))
        /\ status t = COMPLETE
        /\ map id (UseTasks.tasks h') = map id (UseTasks.tasks h)
        /\ (forall x, In x (UseTasks.tasks h') <->
              (x = t /\ exists v, In v (UseTasks.tasks h) /\ id v = id t)
              \/ (In x (UseTasks.tasks h) /\ id x <> id t))
        /\ UseTasks.filters h' = UseTasks.filters h
        /\ UseTasks.error h' = None).
Proof.
  set (h := UseTasks.mkHook [sample_task]
              (mkFilters (Some OPEN) None None None) false None []).
  set (ls := two_tasks_store (fun _ => true)).
  split.
  - set (rq := mkUpdate (id sample_task) (Some "Pay the rent") Omitted
                 Omitted None).
    destruct (proj1 (confirmed_change_replaces_in_place h ls
                       (snd (TaskService.updateTask 1730484009999 rq ls))
                       (TaskService.merge sample_task rq 1730484009999))
                1730484009999 rq)
      as (h' & H1 & H2 & _).
    { vm_compute. reflexivity. }
    do 3 eexists. split; [exact H1 |]. split; [reflexivity | exact H2].
  - set (r := TaskService.toggleTaskCompletion 1730484009999
                (id sample_task) ls).
    destruct (proj2 (confirmed_change_replaces_in_place h ls (snd r)
                       (TaskService.merge sample_task
                          (mkUpdate (id sample_task) None Omitted Omitted
                             (Some COMPLETE)) 1730484009999))
                1730484009999 (id sample_task))
      as (h' & H).
    { vm_compute. reflexivity. }
    do 3 eexists. destruct H as (H1 & H2). split; [exact H1 |].
    split; [reflexivity | exact H2].
Defined.

(** X17.  After a create that the repository accepted, the hook shows the
    new record first, while the repository lists it last: when the store
    was not empty and the id is new, the visible collection under no
    filters differs from what a reload would show. *)
Theorem created_record_is_shown_first env request
  (h : UseTasks.HookState) (ls : LocalStorage) :
  accepts ls
    (JSON_stringify
       (stored ls ++ [TaskService.newTask env request (owner ls)]))
  = true ->
  UseTasks.filters h = noFilters ->
  stored ls <> [] ->
  ~ In (TaskService.generateId (TaskService.id_now env)
          (TaskService.id_rnd env)) (map id (stored ls)) ->
  exists task h' ls',
    UseTasks.createTask env request (h, ls) = (Some task, (h', ls'))
    /\ UseTasks.tasks h' = task :: UseTasks.tasks h
    /\ UseTasks.error h' = None
    /\ (exists earlier,
          fst (TaskService.getTasks (Some noFilters) ls')
          = Ok (earlier ++ [readback task])%list
          /\ List.length earlier = List.length (stored ls))
    /\ ~ matches_canonical h' ls'.
Proof.
  intros Ha Hf Hne Hfresh. unfold UseTasks.createTask.
  rewrite (createTask_accepted env request ls Ha).
  do 3 eexists. split; [reflexivity |].
  cbn [UseTasks.tasks UseTasks.toast UseTasks.setTasks UseTasks.setError
       UseTasks.createTask_before_await UseTasks.error].
  split; [reflexivity |]. split; [reflexivity |].
  assert (Hl : fst (TaskService.getTasks (Some noFilters)
                      (mkStorage
                         (Some (JSON_stringify
                                  (stored ls
                                   ++ [TaskService.newTask env request
                                         (owner ls)])))
                         (todo_user_id ls) (accepts ls)))
               = Ok (map readback (stored ls)
                     ++ [readback (TaskService.newTask env request (owner ls))])%list).
  { rewrite getTasks_value, stored_after_write, map_app. reflexivity. }
  split.
  { eexists. split; [exact Hl |]. apply length_map. }
  unfold matches_canonical.
  cbn [UseTasks.filters UseTasks.tasks UseTasks.toast UseTasks.setTasks
       UseTasks.setError UseTasks.createTask_before_await].
  rewrite Hf, Hl. intros [= E].
  destruct (stored ls) as [| x r] eqn:Es; [now apply Hne |].
  apply (f_equal (map id)) in E. rewrite map_app, map_map in E.
  cbn [map app] in E. injection E as E _.
  apply Hfresh. cbn [map In]. left. exact E.
Qed.

Lemma created_record_is_shown_first_witness :
  let h := UseTasks.mkHook [sample_task; sample_note] noFilters false None [] in
  let request := mkCreate "Water the plants" None None in
  exists task h' ls',
    UseTasks.createTask env3 request (h, two_tasks_store (fun _ => true))
    = (Some task, (h', ls'))
    /\ UseTasks.tasks h' = task :: UseTasks.tasks h
    /\ UseTasks.error h' = None
    /\ (exists earlier,
          fst (TaskService.getTasks (Some noFilters) ls')
          = Ok (earlier ++ [readback task])%list
          /\ List.length earlier
             = List.length (stored (two_tasks_store (fun _ => true))))
    /\ ~ matches_canonical h' ls'.
Proof.
  apply (created_record_is_shown_first env3
           (mkCreate "Water the plants" None None)
           (UseTasks.mkHook [sample_task; sample_note] noFilters false None [])
           (two_tasks_store (fun _ => true))).
  - reflexivity.
  - reflexivity.
  - vm_compute. discriminate.
  - vm_compute. intros [H | [H | []]]; discriminate H.
Defined.

End ReconcilerFacts.

(* ================================================================== *)
(** * The filter controls *)

Section ControlFacts.
Import JS Types Store Spec Samples Props UseTasks FilterControls.
Local Open Scope string_scope.
Local Open Scope Z_scope.

Lemma override_own {A} (v : option A) : TaskService.override v (own v) = v.
Proof. now destruct v. Qed.

(** Spreading an object over itself changes nothing, whether a member
    without value counts as a key or not. *)
Lemma spread_own_keys (f : TaskFilters) :
  spreadFilters f (mkPartial (own (flt_status f)) (own (flt_search f))
                     (own (flt_sortBy f)) (own (flt_sortOrder f))) = f
  /\ spreadFilters f (mkPartial (Given (flt_status f)) (Given (flt_search f))
                        (Given (flt_sortBy f)) (Given (flt_sortOrder f))) = f.
Proof.
  destruct f as [st se sb so]. unfold spreadFilters.
  cbn [flt_status flt_search flt_sortBy flt_sortOrder p_status p_search
       p_sortBy p_sortOrder]. rewrite !override_own. split; reflexivity.
Qed.

Lemma wired_filters (control : TaskFilters -> PartialFilters)
  (h : HookState) (ls : LocalStorage) :
  filters (fst (wired control (h, ls)))
  = spreadFilters (filters h) (control (filters h))
  /\ snd (wired control (h, ls)) = ls
  /\ matches_canonical (fst (wired control (h, ls))) ls.
Proof.
  unfold wired, updateFilters. cbn [fst].
  destruct (loadTasks_value
              (spreadFilters (filters h) (control (filters h)))
              (setFilters (spreadFilters (filters h) (control (filters h))) h)
              ls) as (l & Hg & ->).
  unfold matches_canonical. cbn [fst snd filters tasks setFilters].
  rewrite Hg. repeat split.
Qed.

(** X18.  The Clear button and the 'No sorting' choice of the filter bar
    leave the hook's filters exactly as they were, status and sort
    included: the objects they pass on lack those keys, and
    [updateFilters] merges what it gets over the current filters. *)
Theorem clear_and_no_sorting_keep_the_filters (h : HookState)
  (ls : LocalStorage) :
  filters (fst (wired clearFilters (h, ls))) = filters h
  /\ filters (fst (wired (fun f => handleSortChange f "none") (h, ls)))
     = filters h
  /\ getSortValue
       (filters (fst (wired (fun f => handleSortChange f "none") (h, ls))))
     = getSortValue (filters h)
  /\ hasActiveFilters (filters (fst (wired clearFilters (h, ls))))
     = hasActiveFilters (filters h).
Proof.
  assert (E1 : filters (fst (wired clearFilters (h, ls))) = filters h).
  { rewrite (proj1 (wired_filters clearFilters h ls)).
    destruct (filters h) as [st se sb so]. reflexivity. }
  assert (E2 : filters (fst (wired (fun f => handleSortChange f "none") (h, ls)))
               = filters h).
  { rewrite (proj1 (wired_filters (fun f => handleSortChange f "none") h ls)).
    destruct (filters h) as [st se sb so]. unfold handleSortChange.
    cbn [String.eqb Ascii.eqb Bool.eqb]. unfold spreadFilters.
    cbn [flt_status flt_search flt_sortBy flt_sortOrder p_status p_search
         p_sortBy p_sortOrder TaskService.override].
    rewrite !override_own. reflexivity. }
  rewrite E1, E2. repeat split.
Qed.

(** X19.  Choosing one of the six sort options sets [sortBy] and
    [sortOrder] to that option and keeps status and search; the select
    control then shows the option chosen.  Passing the shown value of any
    sorted filters back through the control keeps [sortBy] and makes a
    missing [sortOrder] an explicit 'asc'. *)
Theorem sort_choice_round_trip (h : HookState) (ls : LocalStorage) :
  (forall sb o,
     let value := sortBy_name sb ++ "-" ++ sortOrder_name o in
     let f' := filters (fst (wired (fun f => handleSortChange f value) (h, ls))) in
     flt_sortBy f' = Some sb /\ flt_sortOrder f' = Some o
     /\ flt_status f' = flt_status (filters h)
     /\ flt_search f' = flt_search (filters h)
     /\ getSortValue f' = value)
  /\ (forall sb,
        flt_sortBy (filters h) = Some sb ->
        let f' := filters
                    (fst (wired (fun f => handleSortChange f
                                            (getSortValue (filters h)))
                            (h, ls))) in
        flt_sortBy f' = Some sb
        /\ flt_sortOrder f'
           = Some (match flt_sortOrder (filters h) with
                   | Some o => o
                   | None => Asc
                   end)).
Proof.
  split.
  - intros sb o value f'. subst f'.
    rewrite (proj1 (wired_filters _ h ls)).
    destruct (filters h) as [[st |] [se |] sb0 so0];
      destruct sb, o; subst value; repeat split.
  - intros sb Hsb f'. subst f'.
    rewrite (proj1 (wired_filters _ h ls)).
    destruct (filters h) as [st se sb0 so0].
    cbn [flt_sortBy] in Hsb. subst sb0.
    destruct sb, so0 as [[|] |]; split; reflexivity.
Qed.

Lemma sort_choice_round_trip_witness :
  let h := mkHook [] (mkFilters (Some OPEN) None (Some ByTitle) None)
             false None [] in
  let f' := filters
              (fst (wired (fun f => handleSortChange f
                                      (getSortValue (filters h)))
                      (h, two_tasks_store (fun _ => true)))) in
  flt_sortBy f' = Some ByTitle /\ flt_sortOrder f' = Some Asc.
Proof.
  exact (proj2 (sort_choice_round_trip
                  (mkHook [] (mkFilters (Some OPEN) None (Some ByTitle) None)
                     false None [])
                  (two_tasks_store (fun _ => true)))
           ByTitle eq_refl).
Defined.

(** X20.  A status button sets the status filter to its status, and the
    'All Tasks' button removes it; the search box sets the search text,
    and an emptied box removes it.  Each keeps the other three filters,
    and the visible collection is reloaded under the new filters. *)
Theorem status_and_search_controls (h : HookState) (ls : LocalStorage) :
  (forall st,
     let w' := wired (fun f => handleStatusFilter f st) (h, ls) in
     filters (fst w')
     = mkFilters st (flt_search (filters h)) (flt_sortBy (filters h))
         (flt_sortOrder (filters h))
     /\ matches_canonical (fst w') ls /\ snd w' = ls)
  /\ (forall value,
        let w' := wired (fun f => handleSearchChange f value) (h, ls) in
        filters (fst w')
        = mkFilters (flt_status (filters h))
            (if truthy value then Some value else None)
            (flt_sortBy (filters h)) (flt_sortOrder (filters h))
        /\ matches_canonical (fst w') ls /\ snd w' = ls).
Proof.
  split.
  - intros st w'. subst w'.
    destruct (wired_filters (fun f => handleStatusFilter f st) h ls)
      as (E & Hs & Hm).
    split; [| split; assumption]. rewrite E.
    destruct (filters h) as [st0 se sb so]. unfold spreadFilters.
    cbn [flt_status flt_search flt_sortBy flt_sortOrder handleStatusFilter
         p_status p_search p_sortBy p_sortOrder].
    rewrite !override_own. reflexivity.
  - intros value w'. subst w'.
    destruct (wired_filters (fun f => handleSearchChange f value) h ls)
      as (E & Hs & Hm).
    split; [| split; assumption]. rewrite E.
    destruct (filters h) as [st0 se sb so]. unfold spreadFilters.
    cbn [flt_status flt_search flt_sortBy flt_sortOrder handleSearchChange
         p_status p_search p_sortBy p_sortOrder].
    rewrite !override_own. reflexivity.
Qed.

End ControlFacts.

(* ================================================================== *)
(** * The task form *)

Section FormFacts.
Import JS Types Store Spec Samples Props TaskForm.
Local Open Scope string_scope.
Local Open Scope Z_scope.

Lemma trimStart_length (s : string) :
  (String.length (trimStart s) <= String.length s)%nat.
Proof.
  induction s as [| c r IH]; cbn [trimStart]; [reflexivity |].
  destruct (isWhiteSpace c); cbn [String.length]; lia.
Qed.

Lemma trimEnd_length (s : string) :
  (String.length (trimEnd s) <= String.length s)%nat.
Proof.
  induction s as [| c r IH]; cbn [trimEnd]; [reflexivity |].
  destruct (trimEnd r) as [| b r'].
  - destruct (isWhiteSpace c); cbn [String.length]; lia.
  - cbn [String.length] in *. lia.
Qed.

Lemma trim_length (s : string) :
  (String.length (trim s) <= String.length s)%nat.
Proof.
  unfold trim. pose proof (trimEnd_length (trimStart s)).
  pose proof (trimStart_length s). lia.
Qed.

Lemma validateForm_true (today : Z) (fd : FormData) :
  validateForm today fd = true ->
  (3 <= String.length (trim (form_title fd)))%nat
  /\ (String.length (form_description fd) <= 500)%nat
  /\ forall d, form_dueDate fd = Some d -> date_lt d (TimeValue today) = false.
Proof.
  unfold validateForm, formErrors.
  destruct (truthy (trim (form_title fd))) eqn:Et; cbn [negb]; [| discriminate].
  destruct (Nat.ltb_spec (String.length (trim (form_title fd))) 3);
    [discriminate |].
  destruct (truthy (form_description fd)) eqn:Ed; cbn [andb].
  - destruct (Nat.ltb_spec 500 (String.length (form_description fd)));
      [discriminate |].
    destruct (form_dueDate fd) as [d |].
    + destruct (date_lt d (TimeValue today)) eqn:El; [discriminate |].
      intros _. repeat split; try lia. now intros d' [= <-].
    + intros _. repeat split; try lia. discriminate.
  - assert (form_description fd = "") as ->
      by (destruct (form_description fd); [reflexivity | discriminate]).
    destruct (form_dueDate fd) as [d |].
    + destruct (date_lt d (TimeValue today)) eqn:El; [discriminate |].
      intros _. repeat split; cbn; try lia. now intros d' [= <-].
    + intros _. repeat split; cbn; try lia. discriminate.
Qed.

(** X21.  The form sends a new task only when the title, trimmed, has at
    least three characters; what it sends, and what the repository then
    stores unchanged, is that trimmed title.  A description is sent only
    if it is not blank, trimmed and of at most 500 characters, and a due
    date only if it is not before the start of today.  If the typed title
    has at most 100 characters, the stored title satisfies the title
    invariant. *)
Theorem form_gates_new_tasks (today : Z) (fd : FormData) :
  ((String.length (trim (form_title fd)) < 3)%nat ->
   handleSubmit today None fd = None)
  /\ (forall data,
        handleSubmit today None fd = Some data ->
        exists request,
          data = SubmitCreate request
          /\ req_title request = trim (form_title fd)
          /\ (3 <= String.length (req_title request))%nat
          /\ (forall env uid,
                title (TaskService.newTask env request uid)
                = req_title request)
          /\ ((String.length (form_title fd) <= 100)%nat ->
              title_invariant (req_title request) = true)
          /\ (forall d, req_description request = Some d ->
                d <> "" /\ trim d = d /\ (String.length d <= 500)%nat)
          /\ (forall d, req_dueDate request = Some d ->
                date_lt d (TimeValue today) = false)).
Proof.
  split.
  - intros Hlt. unfold handleSubmit, validateForm, formErrors.
    destruct (truthy (trim (form_title fd))); cbn [negb].
    + apply Nat.ltb_lt in Hlt. rewrite Hlt. reflexivity.
    + reflexivity.
  - intros data Hs. unfold handleSubmit in Hs.
    destruct (validateForm today fd) eqn:Hv; [| discriminate].
    injection Hs as <-. apply validateForm_true in Hv as (Ht & Hd & Hdue).
    eexists. split; [reflexivity |].
    cbn [req_title req_description req_dueDate].
    split; [reflexivity |]. split; [exact Ht |].
    split; [intros env uid; apply trim_idempotent |].
    split.
    { intros Hl. unfold title_invariant.
      rewrite trim_idempotent, String.eqb_refl. cbn [andb].
      pose proof (trim_length (form_title fd)).
      apply andb_true_iff. split; [apply Nat.leb_le | apply Nat.leb_le]; lia. }
    split; [| exact Hdue].
    intros d Hsome. unfold orUndefined in Hsome.
    destruct (truthy (trim (form_description fd))) eqn:Et; [| discriminate].
    injection Hsome as <-.
    split; [now apply truthy_iff |]. split; [apply trim_idempotent |].
    pose proof (trim_length (form_description fd)). lia.
Qed.

Lemma form_gates_new_tasks_witness :
  handleSubmit 1730415600000 None (mkForm " a " "" None) = None
  /\ exists request,
       SubmitCreate (mkCreate "Water the plants" (Some "balcony") None)
       = SubmitCreate request
       /\ req_title request = trim "  Water the plants "
       /\ (3 <= String.length (req_title request))%nat
       /\ (forall env uid,
             title (TaskService.newTask env request uid) = req_title request)
       /\ ((String.length "  Water the plants " <= 100)%nat ->
           title_invariant (req_title request) = true)
       /\ (forall d, req_description request = Some d ->
             d <> "" /\ trim d = d /\ (String.length d <= 500)%nat)
       /\ (forall d, req_dueDate request = Some d ->
             date_lt d (TimeValue 1730415600000) = false).
Proof.
  split.
  - apply (proj1 (form_gates_new_tasks 1730415600000 (mkForm " a " "" None))).
    vm_compute. lia.
  - apply (proj2 (form_gates_new_tasks 1730415600000
                    (mkForm "  Water the plants " " balcony " None))).
    vm_compute. reflexivity.
Defined.

(** X22.  A task whose due date lies before the start of today cannot be
    saved from the edit form while that due date is left in place,
    whatever is typed for title and description: validation reports the
    due date and nothing is sent. *)
Theorem overdue_task_cannot_be_saved (today due : Z) (task : Task)
  (fd : FormData) :
  dueDate task = Some (TimeValue due) ->
  due < today ->
  form_dueDate fd = dueDate task ->
  form_dueDate (initialForm (Some task)) = dueDate task
  /\ err_dueDate (formErrors today fd) = Some "Due date cannot be in the past"
  /\ handleSubmit today (Some task) fd = None.
Proof.
  intros Hd Hlt Hf. split; [reflexivity |].
  unfold handleSubmit, validateForm, formErrors. rewrite Hf, Hd.
  cbn [date_lt err_dueDate]. apply Z.ltb_lt in Hlt. rewrite Hlt.
  split; [reflexivity |].
  destruct (negb (truthy (trim (form_title fd))));
    [| destruct (String.length (trim (form_title fd)) <? 3)%nat];
    destruct (truthy (form_description fd)
              && (500 <? String.length (form_description fd))%nat);
    reflexivity.
Qed.

Lemma overdue_task_cannot_be_saved_witness :
  form_dueDate (initialForm (Some sample_task)) = dueDate sample_task
  /\ err_dueDate (formErrors 1730415600000
                    (mkForm "Pay the rent" "" (dueDate sample_task)))
     = Some "Due date cannot be in the past"
  /\ handleSubmit 1730415600000 (Some sample_task)
       (mkForm "Pay the rent" "" (dueDate sample_task)) = None.
Proof.
  apply (overdue_task_cannot_be_saved 1730415600000 1730397600000 sample_task
           (mkForm "Pay the rent" "" (dueDate sample_task))).
  - reflexivity.
  - lia.
  - reflexivity.
Defined.

(** X23.  An edit that passes validation, finds the record and is
    accepted by the store writes what the form shows: the trimmed title,
    the trimmed description (none when the field is blank) and the due
    date of the form (none when it was cleared); id, status, creation date
    and owner stay those of the stored record. *)
Theorem edit_stores_what_the_form_shows (today now : Z) (task : Task)
  (fd : FormData) (data : Submission) (ls : LocalStorage) i found :
  handleSubmit today (Some task) fd = Some data ->
  TaskService.findIndex (fun t => id t =? id task)%string (stored ls) = Some i ->
  nth_error (stored ls) i = Some found ->
  roomy ls ->
  exists request updated ls',
    data = SubmitUpdate request
    /\ TaskService.updateTask now request ls = (Ok updated, ls')
    /\ title updated = trim (form_title fd)
    /\ description updated = orUndefined (trim (form_description fd))
    /\ dueDate updated = form_dueDate fd
    /\ (trim (form_description fd) = "" -> description updated = None)
    /\ id updated = id task
    /\ status updated = status found
    /\ createdAt updated = createdAt found
    /\ userId updated = userId found
    /\ updatedAt updated = TimeValue now.
Proof.
  intros Hs Hi Hn Hroom. unfold handleSubmit in Hs.
  destruct (validateForm today fd); [| discriminate]. injection Hs as <-.
  do 3 eexists. split; [reflexivity |]. split.
  { apply (updateTask_accepted now _ ls i found); [exact Hi | exact Hn |].
    apply Hroom. }
  repeat split. intros ->. reflexivity.
Qed.

Lemma edit_stores_what_the_form_shows_witness :
  let fd := mkForm " Buy oat milk " "   " None in
  let ls := two_tasks_store (fun _ => true) in
  exists request updated ls',
    SubmitUpdate
      (mkUpdate (id sample_note) (Some "Buy oat milk") (Given None)
         (Given None) None) = SubmitUpdate request
    /\ TaskService.updateTask 1730484009999 request ls = (Ok updated, ls')
    /\ title updated = trim (form_title fd)
    /\ description updated = orUndefined (trim (form_description fd))
    /\ dueDate updated = form_dueDate fd
    /\ (trim (form_description fd) = "" -> description updated = None)
    /\ id updated = id sample_note
    /\ status updated = status sample_note
    /\ createdAt updated = createdAt sample_note
    /\ userId updated = userId sample_note
    /\ updatedAt updated = TimeValue 1730484009999.
Proof.
  apply (edit_stores_what_the_form_shows 1730415600000 1730484009999
           sample_note (mkForm " Buy oat milk " "   " None)
           (SubmitUpdate
              (mkUpdate (id sample_note) (Some "Buy oat milk") (Given None)
                 (Given None) None))
           (two_tasks_store (fun _ => true)) 1%nat sample_note).
  - vm_compute. reflexivity.
  - vm_compute. reflexivity.
  - vm_compute. reflexivity.
  - intros text. reflexivity.
Defined.

End FormFacts.

(* ================================================================== *)
(** * Sign-in, sign-out and the owner of new tasks *)

Section AuthFacts.
Import JS Types Store Spec Samples Props AuthService AuthSamples.
Local Open Scope string_scope.
Local Open Scope Z_scope.

Lemma signIn_admitted (now1 now2 : Z) (s : AuthStorage) :
  (forall wr, admits s wr = true) ->
  signInWithGoogle now1 now2 s
  = (Done (mockUser now1),
     mkAuth (mkStorage (todo_tasks (task_entries s))
               (Some (user_id (mockUser now1))) (accepts (task_entries s)))
            (Some (UserJSON (mockUser now1)))
            (Some ("mock_google_token_" ++ decimal now2)) (admits s)).
Proof.
  intros H. unfold signInWithGoogle, setItem.
  rewrite H. cbn [admits]. rewrite H. cbn [admits]. rewrite H. reflexivity.
Qed.

(** X24.  A sign-in whose three writes the store admits returns the demo
    user, after which the session is authenticated and valid, the current
    user is that user, the stored tasks are untouched, and the task
    service takes the user's id as the owner of new tasks. *)
Theorem sign_in_sets_the_owner (now1 now2 : Z) (s : AuthStorage) :
  (forall wr, admits s wr = true) ->
  exists s',
    signInWithGoogle now1 now2 s = (Done (mockUser now1), s')
    /\ getCurrentUser s' = Some (mockUser now1)
    /\ isAuthenticated s' = true
    /\ validateSession s' = true
    /\ todo_tasks (task_entries s') = todo_tasks (task_entries s)
    /\ fst (TaskService.getCurrentUserId (task_entries s'))
       = Ok ("user_" ++ decimal now1).
Proof.
  intros H. rewrite (signIn_admitted now1 now2 s H).
  eexists. repeat split.
Qed.

Lemma sign_in_sets_the_owner_witness :
  exists s',
    signInWithGoogle 1730484000000 1730484000002 (open_auth empty_store)
    = (Done (mockUser 1730484000000), s')
    /\ getCurrentUser s' = Some (mockUser 1730484000000)
    /\ isAuthenticated s' = true
    /\ validateSession s' = true
    /\ todo_tasks (task_entries s')
       = todo_tasks (task_entries (open_auth empty_store))
    /\ fst (TaskService.getCurrentUserId (task_entries s'))
       = Ok ("user_" ++ decimal 1730484000000).
Proof.
  apply (sign_in_sets_the_owner 1730484000000 1730484000002
           (open_auth empty_store)).
  intros wr. reflexivity.
Defined.

(** X25.  Signing out removes the user and the token, so the session is
    no longer authenticated, but it leaves 'todo_user_id' in place: after
    a sign-in followed by a sign-out, a task created next is still owned
    by the user who signed out, not by 'anonymous'. *)
Theorem sign_out_keeps_the_owner (now1 now2 : Z) env request
  (s : AuthStorage) :
  (forall wr, admits s wr = true) ->
  roomy (task_entries s) ->
  exists s1 task ls',
    signInWithGoogle now1 now2 s = (Done (mockUser now1), s1)
    /\ isAuthenticated (signOut s1) = false
    /\ getCurrentUser (signOut s1) = None
    /\ getAuthToken (signOut s1) = None
    /\ todo_user_id (task_entries (signOut s1)) = Some ("user_" ++ decimal now1)
    /\ TaskService.createTask env request (task_entries (signOut s1))
       = (Ok task, ls')
    /\ userId task = Some ("user_" ++ decimal now1)
    /\ userId task <> Some "anonymous".
Proof.
  intros H Hroom. rewrite (signIn_admitted now1 now2 s H).
  do 3 eexists. split; [reflexivity |].
  cbn [signOut task_entries isAuthenticated getCurrentUser getAuthToken
       todo_user todo_token todo_user_id].
  do 4 (split; [reflexivity |]). split.
  { apply createTask_accepted. apply Hroom. }
  split; [reflexivity |]. discriminate.
Qed.

Lemma sign_out_keeps_the_owner_witness :
  exists s1 task ls',
    signInWithGoogle 1730484000000 1730484000002 (open_auth empty_store)
    = (Done (mockUser 1730484000000), s1)
    /\ isAuthenticated (signOut s1) = false
    /\ getCurrentUser (signOut s1) = None
    /\ getAuthToken (signOut s1) = None
    /\ todo_user_id (task_entries (signOut s1))
       = Some ("user_" ++ decimal 1730484000000)
    /\ TaskService.createTask env3 (mkCreate "Buy milk" None None)
         (task_entries (signOut s1)) = (Ok task, ls')
    /\ userId task = Some ("user_" ++ decimal 1730484000000)
    /\ userId task <> Some "anonymous".
Proof.
  apply (sign_out_keeps_the_owner 1730484000000 1730484000002 env3
           (mkCreate "Buy milk" None None) (open_auth empty_store)).
  - intros wr. reflexivity.
  - intros text. reflexivity.
Defined.

(** X26.  A sign-in is not all-or-nothing: when the store admits the user
    and the user id but not the token, the call fails with
    GOOGLE_SIGNIN_FAILED while the user and 'todo_user_id' have already
    been written, so the session is not authenticated and yet new tasks
    are owned by the user whose sign-in failed. *)
Theorem failed_sign_in_leaves_the_owner (now1 now2 : Z) (s : AuthStorage) :
  admits s (WriteUser (mockUser now1)) = true ->
  admits s (WriteUserId (user_id (mockUser now1))) = true ->
  admits s (WriteToken ("mock_google_token_" ++ decimal now2)) = false ->
  todo_token s = None ->
  exists s',
    signInWithGoogle now1 now2 s
    = (Failed (mkAuthError "GOOGLE_SIGNIN_FAILED"
                 "Failed to sign in with Google"), s')
    /\ isAuthenticated s' = false
    /\ getCurrentUser s' = Some (mockUser now1)
    /\ fst (TaskService.getCurrentUserId (task_entries s'))
       = Ok ("user_" ++ decimal now1)
    /\ todo_tasks (task_entries s') = todo_tasks (task_entries s).
Proof.
  intros H1 H2 H3 Ht. unfold signInWithGoogle, setItem.
  rewrite H1. cbn [admits]. rewrite H2. cbn [admits]. rewrite H3.
  eexists. split; [reflexivity |].
  unfold isAuthenticated. cbn [getCurrentUser todo_user todo_token].
  rewrite Ht. repeat split.
Qed.

Lemma failed_sign_in_leaves_the_owner_witness :
  exists s',
    signInWithGoogle 1730484000000 1730484000002
      (mkAuth empty_store None None no_room_for_token)
    = (Failed (mkAuthError "GOOGLE_SIGNIN_FAILED"
                 "Failed to sign in with Google"), s')
    /\ isAuthenticated s' = false
    /\ getCurrentUser s' = Some (mockUser 1730484000000)
    /\ fst (TaskService.getCurrentUserId (task_entries s'))
       = Ok ("user_" ++ decimal 1730484000000)
    /\ todo_tasks (task_entries s')
       = todo_tasks (task_entries
                       (mkAuth empty_store None None no_room_for_token)).
Proof.
  apply (failed_sign_in_leaves_the_owner 1730484000000 1730484000002
           (mkAuth empty_store None None no_room_for_token));
    reflexivity.
Defined.

End AuthFacts.
